(** * Desktop Agent: planning, guardrails and execution sessions

  A shallow embedding of the planning pipeline of the Desktop Agent
  ([packages/common/models.py], [packages/planner/guardrails.py],
  [packages/planner/plan_generator.py],
  [packages/planner/planner_manager.py]) and of the execution loop of
  [apps/agent/services.py], followed by the properties of the decision
  pipeline and of the execution session.

  Conventions of the embedding.
  - Python [float]s (timestamps, durations, rates) are exact rationals
    [Q]; rounding is not modelled.
  - A Python [dict] keyed by strings whose iteration order is observable
    is an association list with unique keys in insertion order; the plan
    cache, which is only ever looked up by key, is a [gmap].
  - A call that may raise returns a [Result]; mutable objects are threaded
    explicitly through the functions that mutate them.
  - Logging has no effect on the modelled state and is left out. *)

From Stdlib Require Import Ascii QArith Qminmax.
From stdpp Require Import base option list strings pretty gmap.

Local Open Scope list_scope.
Local Open Scope string_scope.

(** ** Exceptions ([packages/common/errors.py] and the built-in ones) *)

Module Errors.

Inductive ExcClass :=
| DesktopAgentError
| PlannerError
| PlanGenerationError
| SkillError
| Builtin (name : string).

#[global] Instance ExcClass_eq_dec : EqDecision ExcClass.
Proof. solve_decision. Defined.

(** The direct base class, [None] for the classes deriving from Python's
    own [Exception]. *)
Definition base_class (c : ExcClass) : option ExcClass :=
  match c with
  | DesktopAgentError => None
  | PlannerError => Some DesktopAgentError
  | PlanGenerationError => Some PlannerError
  | SkillError => Some DesktopAgentError
  | Builtin _ => None
  end.

(** [issubclass c d], following [base_class] (the hierarchy has depth 3). *)
Definition issubclass (c d : ExcClass) : bool :=
  bool_decide (c = d)
  || match base_class c with
     | Some b => bool_decide (b = d)
                 || match base_class b with
                    | Some b' => bool_decide (b' = d)
                    | None => false
                    end
     | None => false
     end.

Record Exception := mkException { exc_class : ExcClass; exc_message : string }.

(** [isinstance e c]. *)
Definition isinstance (e : Exception) (c : ExcClass) : bool :=
  issubclass (exc_class e) c.

(** [str(e)]: the message the exception was built with. *)
Definition str_exc (e : Exception) : string := exc_message e.

Inductive Result (A : Type) :=
| Ok (a : A)
| Raise (e : Exception).
Arguments Ok {A} a.
Arguments Raise {A} e.

Definition bind {A B} (r : Result A) (k : A -> Result B) : Result B :=
  match r with
  | Ok a => k a
  | Raise e => Raise e
  end.

Definition type_error (msg : string) : Exception :=
  mkException (Builtin "TypeError") msg.
Definition key_error (msg : string) : Exception :=
  mkException (Builtin "KeyError") msg.

End Errors.
Export Errors.

Notation "x <- r ;; k" := (Errors.bind r (fun x => k))
(at level 100, r at next level, right associativity, only parsing).

(** ** Python values held in [Dict[str, Any]] *)

Module Py.

Unset Elimination Schemes.
Inductive Value :=
| VNone
| VBool (b : bool)
| VInt (z : Z)
| VFloat (q : Q)
| VStr (s : string)
| VList (l : list Value)
| VDict (d : list (string * Value)).
Set Elimination Schemes.

Definition Dict := list (string * Value).

(** [d.get(k)] as an option, [k in d], and [d[k] = v]: an existing key
    keeps its position, a new key goes last. *)
Fixpoint get (d : Dict) (k : string) : option Value :=
  match d with
  | [] => None
  | (k', v) :: d' => if String.eqb k k' then Some v else get d' k
  end.

Definition get_default (d : Dict) (k : string) (dflt : Value) : Value :=
  default dflt (get d k).

Definition contains_key (d : Dict) (k : string) : bool :=
  match get d k with Some _ => true | None => false end.

Fixpoint set (d : Dict) (k : string) (v : Value) : Dict :=
  match d with
  | [] => [(k, v)]
  | (k', v') :: d' =>
      if String.eqb k k' then (k', v) :: d' else (k', v') :: set d' k v
  end.

(** Truth value of an object. *)
Definition truthy (v : Value) : bool :=
  match v with
  | VNone => false
  | VBool b => b
  | VInt z => negb (z =? 0)%Z
  | VFloat q => negb (Qeq_bool q 0)
  | VStr s => negb (String.eqb s "")
  | VList l => match l with [] => false | _ => true end
  | VDict d => match d with [] => false | _ => true end
  end.

(** [type(v).__name__] *)
Definition type_name (v : Value) : string :=
  match v with
  | VNone => "NoneType"
  | VBool _ => "bool"
  | VInt _ => "int"
  | VFloat _ => "float"
  | VStr _ => "str"
  | VList _ => "list"
  | VDict _ => "dict"
  end.

(** A [string] holds the UTF-8 encoding of a Python [str]; a character of
    the [str] is a byte that is not a continuation byte ([10xxxxxx]),
    together with the continuation bytes that follow it. *)
Definition is_continuation (c : ascii) : bool :=
  let n := nat_of_ascii c in Nat.leb 128 n && Nat.ltb n 192.

(** [len(s)] of a [str]: its number of characters. *)
Fixpoint str_len (s : string) : nat :=
  match s with
  | EmptyString => 0
  | String c s' => (if is_continuation c then 0 else 1) + str_len s'
  end.

(** [len(v)]; numbers, booleans and [None] have no length. *)
Definition len (v : Value) : Result nat :=
  match v with
  | VStr s => Ok (str_len s)
  | VList l => Ok (length l)
  | VDict d => Ok (length d)
  | _ => Raise (type_error ("object of type '" ++ type_name v ++ "' has no len()"))
  end.

(** [a + b]: concatenation of strings and of lists, addition of numbers (a
    [bool] counts as the integer 0 or 1); anything else is a [TypeError]. *)
Definition as_number (v : Value) : option (Z + Q) :=
  match v with
  | VBool b => Some (inl (if b then 1 else 0)%Z)
  | VInt z => Some (inl z)
  | VFloat q => Some (inr q)
  | _ => None
  end.

Definition dquote : string := String (ascii_of_nat 34) EmptyString.

Definition add (a b : Value) : Result Value :=
  match a, b with
  | VStr s, VStr t => Ok (VStr (s ++ t))
  | VList l, VList m => Ok (VList (l ++ m))
  | _, _ =>
      match as_number a, as_number b with
      | Some (inl x), Some (inl y) => Ok (VInt (x + y)%Z)
      | Some (inl x), Some (inr y) => Ok (VFloat (inject_Z x + y)%Q)
      | Some (inr x), Some (inl y) => Ok (VFloat (x + inject_Z y)%Q)
      | Some (inr x), Some (inr y) => Ok (VFloat (x + y)%Q)
      | _, _ =>
          match a with
          | VStr _ | VList _ =>
              Raise (type_error ("can only concatenate " ++ type_name a ++ " (not "
                                 ++ dquote ++ type_name b ++ dquote ++ ") to "
                                 ++ type_name a))
          | _ =>
              Raise (type_error ("unsupported operand type(s) for +: '" ++ type_name a
                                 ++ "' and '" ++ type_name b ++ "'"))
          end
      end
  end.

(** [0.0 + v] style accumulation into a float. *)
Definition to_float (v : Value) : Result Q :=
  match as_number v with
  | Some (inl z) => Ok (inject_Z z)
  | Some (inr q) => Ok q
  | None =>
      Raise (type_error ("unsupported operand type(s) for +=: 'float' and '"
                         ++ type_name v ++ "'"))
  end.

(** [needle in hay] on strings. *)
Fixpoint contains (needle hay : string) : bool :=
  String.prefix needle hay
  || match hay with
     | EmptyString => false
     | String _ hay' => contains needle hay'
     end.

(** [s.replace(old, new)] for a non-empty [old]: every non-overlapping
    occurrence, left to right.  [skip] counts the characters of a match
    still to be dropped. *)
Fixpoint replace_from (old new : string) (skip : nat) (s : string) : string :=
  match s with
  | EmptyString => EmptyString
  | String c s' =>
      match skip with
      | S k => replace_from old new k s'
      | O =>
          if String.prefix old s
          then new ++ replace_from old new (String.length old - 1) s'
          else String c (replace_from old new 0 s')
      end
  end.

Definition replace (s old new : string) : string := replace_from old new 0 s.

(** [s[:n]]: the first [n] characters. *)
Fixpoint take_prefix (n : nat) (s : string) : string :=
  match s with
  | EmptyString => EmptyString
  | String c s' =>
      if is_continuation c then String c (take_prefix n s')
      else
        match n with
        | O => EmptyString
        | S k => String c (take_prefix k s')
        end
  end.

(** Lower case of the ASCII letters, other bytes being left as they are:
    what [s.lower()] gives on ASCII text.  The lower case of any text is
    asked of the host, see [Host.lower]. *)
Definition lower_ascii (c : ascii) : ascii :=
  let n := nat_of_ascii c in
  if Nat.leb 65 n && Nat.leb n 90 then ascii_of_nat (n + 32) else c.

Fixpoint lower (s : string) : string :=
  match s with
  | EmptyString => EmptyString
  | String c s' => String (lower_ascii c) (lower s')
  end.

(** [str(v)].  The text of a float, of a list and of a dict follows
    Python's [repr], which is not modelled: it is supplied by [repr]. *)
Definition str (repr : Value -> string) (v : Value) : string :=
  match v with
  | VNone => "None"
  | VBool true => "True"
  | VBool false => "False"
  | VInt z => pretty z
  | VStr s => s
  | VFloat _ | VList _ | VDict _ => repr v
  end.

End Py.

(** ** Data model ([packages/common/models.py]) *)

Module IntentType.
Inductive t :=
| OPEN_APP | FOCUS_APP | CLICK_TEXT | TYPE_TEXT | SAVE_FILE | WEB_SEARCH
| WRITE_TEXT_FILE | UNKNOWN.

#[global] Instance eq_dec : EqDecision t.
Proof. solve_decision. Defined.

Definition value (x : t) : string :=
  match x with
  | OPEN_APP => "open_app"
  | FOCUS_APP => "focus_app"
  | CLICK_TEXT => "click_text"
  | TYPE_TEXT => "type_text"
  | SAVE_FILE => "save_file"
  | WEB_SEARCH => "web_search"
  | WRITE_TEXT_FILE => "write_text_file"
  | UNKNOWN => "unknown"
  end.
End IntentType.

Module ActionType.
Inductive t :=
| MOVE_MOUSE | CLICK | DOUBLE_CLICK | RIGHT_CLICK | TYPE_TEXT | KEY_PRESS
| HOTKEY | SCROLL | WAIT | SCREENSHOT.

#[global] Instance eq_dec : EqDecision t.
Proof. solve_decision. Defined.
End ActionType.

Module StepStatus.
Inductive t := PENDING | RUNNING | SUCCESS | FAILED | SKIPPED.

#[global] Instance eq_dec : EqDecision t.
Proof. solve_decision. Defined.
End StepStatus.

Module Models.

Record Intent := mkIntent {
  intent_type : IntentType.t;
  confidence : Q;
  slots : Py.Dict;
  original_text : string;
  normalized_text : option string
}.

Record Action := mkAction {
  action_type : ActionType.t;
  parameters : Py.Dict;
  description : string;
  timeout : Q
}.

(** [Action(...)] without a [timeout] argument takes the field default. *)
Definition default_timeout : Q := 5.

Record StepResult := mkStepResult {
  step_id : string;
  status : StepStatus.t;
  error_message : option string;
  output : option Py.Dict
}.

Record Plan := mkPlan {
  id : string;
  intent : Intent;
  actions : list Action;
  summary : string;
  requires_confirmation : bool;
  estimated_duration : Q;
  risk_level : string
}.

Record ExecutionSession := mkExecutionSession {
  session_id : string;
  plan : Plan;
  session_status : StepStatus.t;
  step_results : list StepResult
}.

Definition is_success (r : StepResult) : bool :=
  bool_decide (status r = StepStatus.SUCCESS).

(** [sum(1 for r in self.step_results if r.status == StepStatus.SUCCESS)] *)
Definition successful (rs : list StepResult) : nat :=
  length (List.filter is_success rs).

(** [ExecutionSession.success_rate] *)
Definition success_rate (s : ExecutionSession) : Q :=
  match step_results s with
  | [] => 0
  | _ :: _ =>
      inject_Z (Z.of_nat (successful (step_results s)))
      / inject_Z (Z.of_nat (length (step_results s)))
  end.

End Models.
Export Models.

(** ** Settings ([packages/common/config.py]) and the host system *)

Module Settings.

(** [settings.security], as far as the planner reads it. *)
Record SecurityConfig := mkSecurityConfig {
  require_confirmation_for_write : bool;
  allowed_write_paths : list string;
  blocked_apps : list string
}.

(** The field defaults of [SecurityConfig]. *)
Definition default_security : SecurityConfig :=
  {| require_confirmation_for_write := true;
     allowed_write_paths := ["~/Documents"; "~/Desktop"; "~/Downloads"];
     blocked_apps := ["cmd"; "powershell"; "terminal"] |}.

End Settings.

Module Host.

(** What the planner asks of the Python runtime and of the file system:
    [resolve p] is [str(Path(p).resolve())] and [expand_resolve p] is
    [str(Path(p).expanduser().resolve())], both of which may raise;
    [is_under path root] tells whether [Path(path).relative_to(Path(root)
    .resolve())] succeeds; [re_search pattern text] is the truth value of
    [re.search(pattern, text)]; [repr] is Python's [repr] of floats and
    dicts; [lower s] is [s.lower()], which follows the Unicode case
    tables.  None of them is modelled further. *)
Record t := mk {
  resolve : Py.Value -> Result string;
  expand_resolve : string -> Result string;
  is_under : string -> string -> bool;
  re_search : string -> string -> bool;
  repr : Py.Value -> string;
  lower : string -> string
}.

End Host.

(** [Result]-valued map over a list, left to right. *)
Fixpoint traverse {A B} (f : A -> Result B) (l : list A) : Result (list B) :=
  match l with
  | [] => Ok []
  | a :: l' => b <- f a ;; bs <- traverse f l' ;; Ok (b :: bs)
  end.

(** Strict comparison of rationals as a boolean. *)
Definition Qltb (x y : Q) : bool := negb (Qle_bool y x).

(** ** Guardrails ([packages/planner/guardrails.py]) *)

Module Guardrails.

(** The dict a rule's [check] returns.  [details] is optional: the engine
    reads it with [.get("details", {})]. *)
Record RuleResult := mkRuleResult {
  passed : bool;
  message : string;
  details : option Py.Dict
}.

(** A rule object: its attributes, its private mutable state and its
    [check] method.  [check] reads the clock ([time.time()]), may mutate the
    rule's own state and may raise; a returned dict that lacks ["passed"] or
    ["message"] makes the engine's own lookup raise inside the same [try],
    so it counts as [Raise] too. *)
Record GuardrailRule := mkGuardrailRule {
  rule_state : Type;
  state : rule_state;
  name : string;
  rule_description : string;
  severity : string;
  applies_to : list IntentType.t;
  check : rule_state -> Plan -> option Py.Dict -> Q -> Result RuleResult * rule_state
}.

Definition with_state (rule : GuardrailRule) (st : rule_state rule) : GuardrailRule :=
  {| rule_state := rule_state rule;
     state := st;
     name := name rule;
     rule_description := rule_description rule;
     severity := severity rule;
     applies_to := applies_to rule;
     check := check rule |}.

(** [rule.check(plan, context)] on the rule's current state. *)
Definition run_check (rule : GuardrailRule) (plan : Plan) (context : option Py.Dict)
    (now : Q) : Result RuleResult * GuardrailRule :=
  let '(r, st) := check rule (state rule) plan context now in
  (r, with_state rule st).

(** *** RateLimitRule *)

Record RateLimitState := mkRateLimitState {
  execution_history : list Q;
  max_executions_per_minute : Z
}.

Definition RateLimitRule_init : RateLimitState :=
  {| execution_history := []; max_executions_per_minute := 10 |}.

(** The timestamps kept by the clean-up: [current_time - timestamp < 60]. *)
Definition within_last_minute (current_time timestamp : Q) : bool :=
  Qltb (current_time - timestamp)%Q 60%Q.

(** [RateLimitRule.check] *)
Definition RateLimitRule_check (st : RateLimitState) (current_time : Q)
    : Result RuleResult * RateLimitState :=
  let history := List.filter (within_last_minute current_time) (execution_history st) in
  if (max_executions_per_minute st <=? Z.of_nat (length history))%Z then
    (Ok {| passed := false;
           message := "Limite de taux dépassée: " ++ pretty (length history)
                      ++ " exécutions dans la dernière minute";
           details := Some [("current_count", Py.VInt (Z.of_nat (length history)));
                            ("limit", Py.VInt (max_executions_per_minute st))] |},
     {| execution_history := history;
        max_executions_per_minute := max_executions_per_minute st |})
  else
    (Ok {| passed := true; message := "Limite de taux respectée"; details := None |},
     {| execution_history := history ++ [current_time];
        max_executions_per_minute := max_executions_per_minute st |}).

Definition RateLimitRule (st : RateLimitState) : GuardrailRule :=
  {| rule_state := RateLimitState;
     state := st;
     name := "rate_limit";
     rule_description := "Vérifie les limites de taux d'exécution";
     severity := "warning";
     applies_to := [];
     check := fun st _ _ now => RateLimitRule_check st now |}.

(** Successive checks of one rule object at the given clock readings: the
    [passed] flags in call order, and the state left behind. *)
Fixpoint RateLimitRule_checks (st : RateLimitState) (times : list Q)
    : list bool * RateLimitState :=
  match times with
  | [] => ([], st)
  | t :: times' =>
      let '(r, st1) := RateLimitRule_check st t in
      let '(rs, st2) := RateLimitRule_checks st1 times' in
      (match r with Ok res => passed res | Raise _ => false end :: rs, st2)
  end.

(** *** The rules without state *)

Definition stateless (rule_name descr sev : string) (types : list IntentType.t)
    (chk : Plan -> option Py.Dict -> Result RuleResult) : GuardrailRule :=
  {| rule_state := unit;
     state := tt;
     name := rule_name;
     rule_description := descr;
     severity := sev;
     applies_to := types;
     check := fun st plan context _ => (chk plan context, st) |}.

Definition pass (msg : string) : RuleResult :=
  {| passed := true; message := msg; details := None |}.

Definition fail (msg : string) (d : Py.Dict) : RuleResult :=
  {| passed := false; message := msg; details := Some d |}.

Definition forbidden_paths : list string :=
  ["C:/Windows"; "C:/Program Files"; "C:/Program Files (x86)";
   "/System"; "/usr"; "/etc"; "/bin"; "/sbin"].

(** [PathSecurityRule.check] *)
Definition PathSecurityRule_check (h : Host.t) (sec : Settings.SecurityConfig)
    (plan : Plan) (context : option Py.Dict) : Result RuleResult :=
  if negb (bool_decide (intent_type (intent plan)
                        ∈ [IntentType.SAVE_FILE; IntentType.WRITE_TEXT_FILE]))
  then Ok (pass "Règle non applicable")
  else
    let path := Py.get_default (slots (intent plan)) "path" Py.VNone in
    if negb (Py.truthy path) then Ok (pass "Aucun chemin spécifié")
    else
      match (path_obj <- Host.resolve h path ;;
             match List.find (Host.is_under h path_obj) forbidden_paths with
             | Some forbidden =>
                 Ok (fail ("Écriture interdite dans " ++ forbidden)
                       [("forbidden_path", Py.VStr forbidden)])
             | None =>
                 allowed <- traverse (Host.expand_resolve h)
                              (Settings.allowed_write_paths sec) ;;
                 if existsb (fun a => String.prefix a path_obj) allowed
                 then Ok (pass "Chemin autorisé")
                 else Ok (fail ("Chemin " ++ Py.str (Host.repr h) path
                                ++ " non autorisé pour l'écriture")
                            [("path", Py.VStr path_obj);
                             ("allowed_paths", Py.VList (Py.VStr <$> allowed))])
             end) with
      | Ok r => Ok r
      | Raise e =>
          Ok (fail ("Erreur validation chemin: " ++ str_exc e)
                [("error", Py.VStr (str_exc e))])
      end.

Definition PathSecurityRule (h : Host.t) (sec : Settings.SecurityConfig) : GuardrailRule :=
  stateless "path_security" "Vérifie la sécurité des chemins de fichiers" "error"
    [IntentType.SAVE_FILE; IntentType.WRITE_TEXT_FILE]
    (PathSecurityRule_check h sec).

Definition critical_apps : list string :=
  ["regedit"; "registry editor"; "services.msc"; "services"; "msconfig";
   "system configuration"; "gpedit.msc"; "group policy"; "secpol.msc";
   "security policy"].

(** [ApplicationSecurityRule.check]; [.lower()] on a slot that is not a
    string raises. *)
Definition ApplicationSecurityRule_check (h : Host.t) (sec : Settings.SecurityConfig)
    (plan : Plan) (context : option Py.Dict) : Result RuleResult :=
  if negb (bool_decide (intent_type (intent plan)
                        ∈ [IntentType.OPEN_APP; IntentType.FOCUS_APP]))
  then Ok (pass "Règle non applicable")
  else
    match Py.get_default (slots (intent plan)) "app_name" (Py.VStr "") with
    | Py.VStr raw =>
        let app_name := Host.lower h raw in
        if String.eqb app_name "" then Ok (pass "Aucune application spécifiée")
        else
          match List.find (fun blocked => Py.contains blocked app_name)
                  (Host.lower h <$> Settings.blocked_apps sec) with
          | Some blocked =>
              Ok (fail ("Application '" ++ app_name ++ "' bloquée par la sécurité")
                    [("blocked_app", Py.VStr blocked)])
          | None =>
              match List.find (fun critical => Py.contains critical app_name)
                      critical_apps with
              | Some critical =>
                  Ok (fail ("Application système critique '" ++ app_name ++ "' interdite")
                        [("critical_app", Py.VStr critical)])
              | None => Ok (pass "Application autorisée")
              end
          end
    | v => Raise (mkException (Builtin "AttributeError")
                    ("'" ++ Py.type_name v ++ "' object has no attribute 'lower'"))
    end.

Definition ApplicationSecurityRule (h : Host.t) (sec : Settings.SecurityConfig)
    : GuardrailRule :=
  stateless "application_security" "Vérifie la sécurité des applications à lancer"
    "error" [IntentType.OPEN_APP; IntentType.FOCUS_APP]
    (ApplicationSecurityRule_check h sec).

(** The patterns of [ContentSecurityRule], by name, in the order of the
    dict. *)
Definition sensitive_patterns : list (string * string) :=
  [("password", "(?i)password\s*[:=]\s*\S+");
   ("api_key", "(?i)(?:api[_-]?key|token)\s*[:=]\s*[a-zA-Z0-9]+");
   ("email", "\b[A-Za-z0-9._%+-]+@[A-Za-z0-9.-]+\.[A-Z|a-z]{2,}\b");
   ("credit_card", "\b\d{4}[-\s]?\d{4}[-\s]?\d{4}[-\s]?\d{4}\b");
   ("ssn", "\b\d{3}-\d{2}-\d{4}\b")].

Definition system_commands : list string :=
  ["rm -rf"; "del /f"; "format"; "fdisk"; "shutdown"; "reboot"; "halt";
   "sudo"; "su -"; "chmod 777"].

(** [ContentSecurityRule.check]; [re.search] on a content that is not a
    string raises, with the text of Python 3.11. *)
Definition ContentSecurityRule_check (h : Host.t) (plan : Plan)
    (context : option Py.Dict) : Result RuleResult :=
  let ty := intent_type (intent plan) in
  if negb (bool_decide (ty ∈ [IntentType.TYPE_TEXT; IntentType.WRITE_TEXT_FILE]))
  then Ok (pass "Règle non applicable")
  else
    let content :=
      if bool_decide (ty = IntentType.TYPE_TEXT)
      then Py.get_default (slots (intent plan)) "text" (Py.VStr "")
      else Py.get_default (slots (intent plan)) "content" (Py.VStr "") in
    if negb (Py.truthy content) then Ok (pass "Aucun contenu à vérifier")
    else
      match content with
      | Py.VStr text =>
          let sensitive :=
            (fun p => "Contenu potentiellement sensible détecté: " ++ p.1)
              <$> List.filter (fun p => Host.re_search h p.2 text) sensitive_patterns in
          let commands :=
            (fun c => "Commande système potentiellement dangereuse: " ++ c)
              <$> List.filter (fun c => Py.contains c (Host.lower h text))
                    system_commands in
          match (sensitive ++ commands)%list with
          | [] => Ok (pass "Contenu sécurisé")
          | found =>
              Ok (fail "Contenu potentiellement sensible ou dangereux détecté"
                    [("warnings", Py.VList (Py.VStr <$> found))])
          end
      | v => Raise (type_error ("expected string or bytes-like object, got '"
                                ++ Py.type_name v ++ "'"))
      end.

Definition ContentSecurityRule (h : Host.t) : GuardrailRule :=
  stateless "content_security" "Vérifie la sécurité du contenu à saisir" "warning"
    [IntentType.TYPE_TEXT; IntentType.WRITE_TEXT_FILE]
    (ContentSecurityRule_check h).

(** [GuardrailsEngine._initialize_rules] *)
Definition initialize_rules (h : Host.t) (sec : Settings.SecurityConfig)
    : list GuardrailRule :=
  [PathSecurityRule h sec; ApplicationSecurityRule h sec; ContentSecurityRule h;
   RateLimitRule RateLimitRule_init].

(** *** GuardrailsEngine *)

(** One entry of [rule_results] / [errors] / [warnings] / [info].  The entry
    synthesised for a rule that raised has no ["description"] key. *)
Record RuleInfo := mkRuleInfo {
  info_rule_name : string;
  info_description : option string;
  info_severity : string;
  info_passed : bool;
  info_message : string;
  info_details : Py.Dict
}.

Record Verdict := mkVerdict {
  overall_passed : bool;
  can_execute : bool;
  verdict_requires_confirmation : bool;
  rule_results : list RuleInfo;
  errors : list RuleInfo;
  warnings : list RuleInfo;
  info : list RuleInfo
}.

Definition initial_verdict (plan : Plan) : Verdict :=
  {| overall_passed := true;
     can_execute := true;
     verdict_requires_confirmation := requires_confirmation plan;
     rule_results := [];
     errors := [];
     warnings := [];
     info := [] |}.

Definition rule_info (rule : GuardrailRule) (res : RuleResult) : RuleInfo :=
  {| info_rule_name := name rule;
     info_description := Some (rule_description rule);
     info_severity := severity rule;
     info_passed := passed res;
     info_message := message res;
     info_details := default [] (details res) |}.

Definition error_info (rule : GuardrailRule) (e : Exception) : RuleInfo :=
  {| info_rule_name := name rule;
     info_description := None;
     info_severity := "error";
     info_passed := false;
     info_message := "Erreur vérification: " ++ str_exc e;
     info_details := [("exception", Py.VStr (str_exc e))] |}.

Definition append_rule_result (i : RuleInfo) (v : Verdict) : Verdict :=
  {| overall_passed := overall_passed v;
     can_execute := can_execute v;
     verdict_requires_confirmation := verdict_requires_confirmation v;
     rule_results := rule_results v ++ [i];
     errors := errors v;
     warnings := warnings v;
     info := info v |}.

Definition append_error (i : RuleInfo) (v : Verdict) : Verdict :=
  {| overall_passed := false;
     can_execute := can_execute v;
     verdict_requires_confirmation := verdict_requires_confirmation v;
     rule_results := rule_results v;
     errors := errors v ++ [i];
     warnings := warnings v;
     info := info v |}.

Definition block_execution (v : Verdict) : Verdict :=
  {| overall_passed := overall_passed v;
     can_execute := false;
     verdict_requires_confirmation := verdict_requires_confirmation v;
     rule_results := rule_results v;
     errors := errors v;
     warnings := warnings v;
     info := info v |}.

Definition append_warning (i : RuleInfo) (v : Verdict) : Verdict :=
  {| overall_passed := overall_passed v;
     can_execute := can_execute v;
     verdict_requires_confirmation := true;
     rule_results := rule_results v;
     errors := errors v;
     warnings := warnings v ++ [i];
     info := info v |}.

Definition append_info (i : RuleInfo) (v : Verdict) : Verdict :=
  {| overall_passed := overall_passed v;
     can_execute := can_execute v;
     verdict_requires_confirmation := verdict_requires_confirmation v;
     rule_results := rule_results v;
     errors := errors v;
     warnings := warnings v;
     info := info v ++ [i] |}.

(** [GuardrailsEngine._is_rule_applicable] *)
Definition is_rule_applicable (rule : GuardrailRule) (plan : Plan) : bool :=
  match applies_to rule with
  | [] => true
  | types => bool_decide (intent_type (intent plan) ∈ types)
  end.

(** The body of the inner [try] of [check_plan] once [rule.check] has
    returned [res]: record the result, then categorise it by severity. *)
Definition categorize (rule : GuardrailRule) (res : RuleResult) (v : Verdict) : Verdict :=
  let i := rule_info rule res in
  let v := append_rule_result i v in
  if passed res then v
  else if bool_decide (severity rule ∈ ["error"; "critical"]) then
    let v := append_error i v in
    if bool_decide (severity rule = "critical") then block_execution v else v
  else if bool_decide (severity rule = "warning") then append_warning i v
  else append_info i v.

(** The [except] clause of the inner [try]. *)
Definition record_exception (rule : GuardrailRule) (e : Exception) (v : Verdict) : Verdict :=
  let i := error_info rule e in
  append_error i (append_rule_result i v).

(** One iteration of [for rule in self._rules]. *)
Definition check_rule (plan : Plan) (context : option Py.Dict) (now : Q)
    (rule : GuardrailRule) (v : Verdict) : Verdict * GuardrailRule :=
  if is_rule_applicable rule plan then
    let '(r, rule') := run_check rule plan context now in
    (match r with
     | Ok res => categorize rule res v
     | Raise e => record_exception rule e v
     end, rule')
  else (v, rule).

Fixpoint check_rules (plan : Plan) (context : option Py.Dict) (now : Q)
    (rules : list GuardrailRule) (v : Verdict) : Verdict * list GuardrailRule :=
  match rules with
  | [] => (v, [])
  | rule :: rest =>
      let '(v1, rule') := check_rule plan context now rule v in
      let '(v2, rest') := check_rules plan context now rest v1 in
      (v2, rule' :: rest')
  end.

(** [GuardrailsEngine.check_plan]: the verdict and the rules with the state
    their checks left.  The rules of [self._rules] are distinct objects.
    The outer [except] of the source answers a failure outside the per-rule
    [try]; with rule objects of this interface nothing there can raise, so
    that branch has no counterpart here. *)
Definition check_plan (rules : list GuardrailRule) (plan : Plan)
    (context : option Py.Dict) (now : Q) : Verdict * list GuardrailRule :=
  check_rules plan context now rules (initial_verdict plan).

(** [add_custom_rule] and [remove_rule] (with its returned flag). *)
Definition add_custom_rule (rules : list GuardrailRule) (rule : GuardrailRule)
    : list GuardrailRule :=
  rules ++ [rule].

Definition remove_rule (rules : list GuardrailRule) (rule_name : string)
    : bool * list GuardrailRule :=
  let kept := List.filter (fun r => negb (String.eqb (name r) rule_name)) rules in
  (Nat.ltb (length kept) (length rules), kept).

(** *** What a single rule contributes to a plan check *)

(** A rule of the engine fails on [plan] with result [res]: it is
    applicable, its check returns, and the result has [passed = false]. *)
Definition fails_with (rule : GuardrailRule) (plan : Plan) (context : option Py.Dict)
    (now : Q) (res : RuleResult) : Prop :=
  is_rule_applicable rule plan = true
  /\ (run_check rule plan context now).1 = Ok res
  /\ passed res = false.

(** The outcome of the rule's check when the rule is applicable. *)
Definition checked (rule : GuardrailRule) (plan : Plan) (context : option Py.Dict)
    (now : Q) : option (Result RuleResult) :=
  if is_rule_applicable rule plan
  then Some (run_check rule plan context now).1
  else None.

(** The entries the rule adds to [errors] and to [warnings], and whether it
    blocks the execution. *)
Definition error_entries (plan : Plan) (context : option Py.Dict) (now : Q)
    (rule : GuardrailRule) : list RuleInfo :=
  match checked rule plan context now with
  | Some (Ok res) =>
      if negb (passed res) && bool_decide (severity rule ∈ ["error"; "critical"])
      then [rule_info rule res] else []
  | Some (Raise e) => [error_info rule e]
  | None => []
  end.

Definition warning_entries (plan : Plan) (context : option Py.Dict) (now : Q)
    (rule : GuardrailRule) : list RuleInfo :=
  match checked rule plan context now with
  | Some (Ok res) =>
      if negb (passed res) && bool_decide (severity rule = "warning")
      then [rule_info rule res] else []
  | _ => []
  end.

Definition blocks (plan : Plan) (context : option Py.Dict) (now : Q)
    (rule : GuardrailRule) : bool :=
  match checked rule plan context now with
  | Some (Ok res) => negb (passed res) && bool_decide (severity rule = "critical")
  | _ => false
  end.

Definition is_nil {A} (l : list A) : bool :=
  match l with [] => true | _ :: _ => false end.

(** *** Calls within one minute *)

(** Clock readings in call order, any later one less than 60 seconds after
    any earlier one. *)
Definition in_window (times : list Q) : Prop :=
  forall i j ti tj,
    i < j -> times !! i = Some ti -> times !! j = Some tj -> (tj - ti < 60)%Q.

(** The [k]-th of a burst of calls passes exactly while the history, which
    grows by one entry per passing call, is still below the limit. *)
Definition expected_pass (h : list Q) (limit : Z) (k : nat) : bool :=
  bool_decide (Z.of_nat (length h + k) < limit)%Z.

End Guardrails.

(** ** Skills ([packages/skills/skill_manager.py]), as far as the planner
    and the execution loop use them *)

Module Skills.

(** A registered skill.  [skill_info] stands for the calls
    ([get_description], [get_parameter_schema], [get_examples], [get_stats])
    that [get_skill_info] makes on it, which may raise. *)
Record BaseSkill := mkBaseSkill {
  skill_info : Result unit;
  validate_parameters : Py.Value -> Result bool
}.

(** [SkillManager._skills] *)
Abbreviation SkillManager := (gmap string BaseSkill).

(** [SkillManager.get_skill]: a lookup in a dict keyed by strings; an
    unhashable key raises, any other key that is not a string is absent. *)
Definition get_skill (sm : SkillManager) (name : Py.Value) : Result (option BaseSkill) :=
  match name with
  | Py.VStr s => Ok (sm !! s)
  | Py.VDict _ | Py.VList _ =>
      Raise (type_error ("unhashable type: '" ++ Py.type_name name ++ "'"))
  | _ => Ok None
  end.

(** [SkillManager.get_skill_info]: [Some tt] stands for the info dict. *)
Definition get_skill_info (sm : SkillManager) (name : string) : Result (option unit) :=
  match sm !! name with
  | None => Ok None
  | Some skill => _ <- skill_info skill ;; Ok (Some tt)
  end.

End Skills.

(** ** Plan generation ([packages/planner/plan_generator.py]) *)

Module PlanGenerator.
Import Skills.

(** What the generator takes from its surroundings: the skill registry, the
    security settings and the host. *)
Record Env := mkEnv {
  skill_manager : SkillManager;
  security : Settings.SecurityConfig;
  host : Host.t
}.

Definition repr (env : Env) : Py.Value -> string := Host.repr (host env).

(** An action definition of a template: a dict with some of the keys
    ["type"], ["skill"], ["description"], ["parameters"]. *)
Record ActionDef := mkActionDef {
  def_type : option ActionType.t;
  def_skill : option string;
  def_description : option string;
  def_parameters : option Py.Dict
}.

Record PlanTemplate := mkPlanTemplate {
  template_intent_type : IntentType.t;
  template_actions : list ActionDef;
  template_requires_confirmation : bool;
  template_estimated_duration : Q;
  template_risk_level : string
}.

Definition primitive (t : ActionType.t) (params : option Py.Dict) (descr : string) : ActionDef :=
  {| def_type := Some t; def_skill := None;
     def_description := Some descr; def_parameters := params |}.

Definition skill (s : string) (params : option Py.Dict) (descr : string) : ActionDef :=
  {| def_type := None; def_skill := Some s;
     def_description := Some descr; def_parameters := params |}.

(** [PlanGenerator._initialize_templates], read as [self._templates.get]. *)
Definition templates (t : IntentType.t) : option PlanTemplate :=
  match t with
  | IntentType.OPEN_APP =>
      Some (mkPlanTemplate IntentType.OPEN_APP
        [ primitive ActionType.SCREENSHOT None "Capture d'état initial";
          skill "open_app" None "Ouverture de l'application {app_name}";
          primitive ActionType.WAIT (Some [("duration", Py.VFloat 2)])
            "Attente du lancement de l'application" ]
        false 5 "low")
  | IntentType.FOCUS_APP =>
      Some (mkPlanTemplate IntentType.FOCUS_APP
        [ skill "focus_app" None "Focus sur l'application {app_name}" ]
        false 2 "low")
  | IntentType.CLICK_TEXT =>
      Some (mkPlanTemplate IntentType.CLICK_TEXT
        [ primitive ActionType.SCREENSHOT None "Capture pour localiser le texte";
          skill "click_text" None "Clic sur '{text}'" ]
        false 3 "low")
  | IntentType.TYPE_TEXT =>
      Some (mkPlanTemplate IntentType.TYPE_TEXT
        [ skill "type_text" None "Saisie du texte" ]
        false 2 "low")
  | IntentType.SAVE_FILE =>
      Some (mkPlanTemplate IntentType.SAVE_FILE
        [ skill "save_file" None "Sauvegarde du fichier" ]
        true 3 "medium")
  | IntentType.WEB_SEARCH =>
      Some (mkPlanTemplate IntentType.WEB_SEARCH
        [ skill "open_app" (Some [("app_name", Py.VStr "Google Chrome")])
            "Ouverture du navigateur";
          primitive ActionType.WAIT (Some [("duration", Py.VFloat 3)])
            "Attente du chargement du navigateur";
          skill "click_text"
            (Some [("text", Py.VStr "address bar"); ("fuzzy", Py.VBool true)])
            "Clic sur la barre d'adresse";
          skill "type_text"
            (Some [("text", Py.VStr "https://www.google.com/search?q={query}")])
            "Saisie de l'URL de recherche";
          primitive ActionType.KEY_PRESS (Some [("key", Py.VStr "enter")])
            "Validation de la recherche" ]
        false 8 "low")
  | IntentType.WRITE_TEXT_FILE =>
      Some (mkPlanTemplate IntentType.WRITE_TEXT_FILE
        [ skill "write_text_file" None "Création et écriture du fichier texte" ]
        true 5 "medium")
  | IntentType.UNKNOWN => None
  end.

(** The placeholder [{key}] of a slot. *)
Definition placeholder (key : string) : string := "{" ++ key ++ "}".

(** The loop [for key, value in slots.items()] that replaces each
    placeholder present in [text] by [str(value)]. *)
Definition substitute (env : Env) (slots : Py.Dict) (text : string) : string :=
  fold_left
    (fun acc kv =>
       if Py.contains (placeholder kv.1) acc
       then Py.replace acc (placeholder kv.1) (Py.str (repr env) kv.2)
       else acc)
    slots text.

Definition substitute_value (env : Env) (slots : Py.Dict) (v : Py.Value) : Py.Value :=
  match v with
  | Py.VStr s => Py.VStr (substitute env slots s)
  | _ => v
  end.

(** [PlanGenerator._process_action_definition] *)
Definition process_action_definition (env : Env) (action_def : ActionDef)
    (slots : Py.Dict) (context : option Py.Dict) : Result ActionDef :=
  let descr := substitute env slots <$> def_description action_def in
  let params :=
    (fun d : Py.Dict => (fun kv => (kv.1, substitute_value env slots kv.2)) <$> d)
      <$> def_parameters action_def in
  match def_skill action_def with
  | Some skill_name =>
      let params := default [] params in
      skill_info <- get_skill_info (skill_manager env) skill_name ;;
      let params :=
        match skill_info with
        | Some _ => fold_left (fun d kv => Py.set d kv.1 kv.2) slots params
        | None => params
        end in
      Ok {| def_type := def_type action_def; def_skill := Some skill_name;
            def_description := descr; def_parameters := Some params |}
  | None =>
      Ok {| def_type := def_type action_def; def_skill := None;
            def_description := descr; def_parameters := params |}
  end.

(** [processed[key]] on a key that may be missing. *)
Definition require {A} (key : string) (o : option A) : Result A :=
  match o with
  | Some a => Ok a
  | None => Raise (key_error key)
  end.

(** The construction of the [Action] object from a processed definition. *)
Definition make_action (processed : ActionDef) : Result Action :=
  match def_skill processed with
  | Some skill_name =>
      descr <- require "description" (def_description processed) ;;
      Ok {| action_type := ActionType.SCREENSHOT;
            parameters :=
              [("skill_name", Py.VStr skill_name);
               ("skill_parameters", Py.VDict (default [] (def_parameters processed)))];
            description := descr;
            timeout := default_timeout |}
  | None =>
      ty <- require "type" (def_type processed) ;;
      descr <- require "description" (def_description processed) ;;
      Ok {| action_type := ty;
            parameters := default [] (def_parameters processed);
            description := descr;
            timeout := default_timeout |}
  end.

(** [PlanGenerator._generate_actions_from_template]: a definition whose
    processing raises is skipped. *)
Fixpoint generate_actions_from_template (env : Env) (defs : list ActionDef)
    (slots : Py.Dict) (context : option Py.Dict) : list Action :=
  match defs with
  | [] => []
  | action_def :: rest =>
      match (processed <- process_action_definition env action_def slots context ;;
             make_action processed) with
      | Ok action => action :: generate_actions_from_template env rest slots context
      | Raise _ => generate_actions_from_template env rest slots context
      end
  end.

(** [v[:50]], as the f-string prints it. *)
Definition slice50 (env : Env) (v : Py.Value) : Result string :=
  match v with
  | Py.VStr s => Ok (Py.take_prefix 50 s)
  | Py.VList l => Ok (repr env (Py.VList (take 50 l)))
  | Py.VDict _ => Raise (type_error "unhashable type: 'slice'")  (* Python 3.11 *)
  | _ => Raise (type_error ("'" ++ Py.type_name v ++ "' object is not subscriptable"))
  end.

(** [PlanGenerator._generate_plan_summary].  The dict of summaries is built
    in full for every intent type, so the slice of the ["text"] slot is
    always evaluated. *)
Definition generate_plan_summary (env : Env) (i : Intent) (acts : list Action)
    : Result string :=
  let slot k dflt := Py.str (repr env) (Py.get_default (slots i) k (Py.VStr dflt)) in
  text50 <- slice50 env (Py.get_default (slots i) "text" (Py.VStr "")) ;;
  let base_summary :=
    match intent_type i with
    | IntentType.OPEN_APP => "Ouvrir l'application " ++ slot "app_name" "inconnue"
    | IntentType.FOCUS_APP => "Mettre le focus sur " ++ slot "app_name" "inconnue"
    | IntentType.CLICK_TEXT => "Cliquer sur '" ++ slot "text" "texte" ++ "'"
    | IntentType.TYPE_TEXT => "Saisir le texte: " ++ text50 ++ "..."
    | IntentType.SAVE_FILE => "Sauvegarder le fichier actuel"
    | IntentType.WEB_SEARCH => "Rechercher '" ++ slot "query" "requête" ++ "' sur Google"
    | IntentType.WRITE_TEXT_FILE => "Créer un fichier texte avec le contenu spécifié"
    | IntentType.UNKNOWN => "Exécuter " ++ IntentType.value (intent_type i)
    end in
  Ok (if Nat.ltb 1 (length acts)
      then base_summary ++ " (en " ++ pretty (length acts) ++ " étapes)"
      else base_summary).

(** [PlanGenerator._should_require_confirmation] *)
Definition should_require_confirmation (env : Env) (template : PlanTemplate)
    (slots : Py.Dict) : bool :=
  if template_requires_confirmation template then true
  else if bool_decide (template_intent_type template
                       ∈ [IntentType.SAVE_FILE; IntentType.WRITE_TEXT_FILE]) then
    if Settings.require_confirmation_for_write (security env) then true
    else
      let path := Py.get_default slots "path" (Py.VStr "") in
      if Py.truthy path then
        match (path_obj <- Host.resolve (host env) path ;;
               allowed <- traverse (Host.expand_resolve (host env))
                            (Settings.allowed_write_paths (security env)) ;;
               Ok (existsb (fun allowed_path => String.prefix allowed_path path_obj)
                     allowed)) with
        | Ok is_allowed => negb is_allowed
        | Raise _ => true
        end
      else false
  else false.

(** [PlanGenerator._estimate_duration] *)
Definition estimate_duration (template : PlanTemplate) (slots : Py.Dict) : Result Q :=
  let base_duration := template_estimated_duration template in
  match template_intent_type template with
  | IntentType.TYPE_TEXT =>
      n <- Py.len (Py.get_default slots "text" (Py.VStr "")) ;;
      Ok (base_duration + inject_Z (Z.of_nat n) * (1 # 100))%Q
  | IntentType.WRITE_TEXT_FILE =>
      n <- Py.len (Py.get_default slots "content" (Py.VStr "")) ;;
      let base_duration := (base_duration + inject_Z (Z.of_nat n) * (1 # 100))%Q in
      Ok (if Py.truthy (Py.get_default slots "path" Py.VNone)
          then (base_duration + 2)%Q
          else base_duration)
  | _ => Ok base_duration
  end.

(** The body of the [try] of [generate_plan].  [plan_id] is the identifier
    drawn by [uuid4] for the new plan. *)
Definition generate_plan_body (env : Env) (plan_id : string) (i : Intent)
    (context : option Py.Dict) : Result Plan :=
  match templates (intent_type i) with
  | None =>
      Raise (mkException PlanGenerationError
               ("Pas de template pour " ++ IntentType.value (intent_type i)))
  | Some template =>
      let acts :=
        generate_actions_from_template env (template_actions template) (slots i) context in
      summ <- generate_plan_summary env i acts ;;
      let confirm := should_require_confirmation env template (slots i) in
      duration <- estimate_duration template (slots i) ;;
      Ok {| id := plan_id;
            intent := i;
            actions := acts;
            summary := summ;
            requires_confirmation := confirm;
            estimated_duration := duration;
            risk_level := template_risk_level template |}
  end.

(** [PlanGenerator.generate_plan]: every exception of the body is wrapped
    into a [PlanGenerationError]. *)
Definition generate_plan (env : Env) (plan_id : string) (i : Intent)
    (context : option Py.Dict) : Result Plan :=
  match generate_plan_body env plan_id i context with
  | Ok p => Ok p
  | Raise e =>
      Raise (mkException PlanGenerationError ("Erreur génération plan: " ++ str_exc e))
  end.

(** The first loop of [optimize_plan]: an action of type [SCREENSHOT] is
    dropped when the last action kept so far is of type [SCREENSHOT] too. *)
Definition is_screenshot (a : Action) : bool :=
  bool_decide (action_type a = ActionType.SCREENSHOT).

Fixpoint drop_consecutive_screenshots (optimized_actions todo : list Action)
    : list Action :=
  match todo with
  | [] => optimized_actions
  | action :: rest =>
      if is_screenshot action
         && match last optimized_actions with
            | Some previous => is_screenshot previous
            | None => false
            end
      then drop_consecutive_screenshots optimized_actions rest
      else drop_consecutive_screenshots (optimized_actions ++ [action]) rest
  end.

Definition is_type_text (a : Action) : bool :=
  bool_decide (action_type a = ActionType.TYPE_TEXT).

(** The action built from two consecutive [TYPE_TEXT] actions. *)
Definition merge_pair (a b : Action) : Result Action :=
  combined_text <- Py.add (Py.get_default (parameters a) "text" (Py.VStr ""))
                          (Py.get_default (parameters b) "text" (Py.VStr "")) ;;
  n <- Py.len combined_text ;;
  Ok {| action_type := ActionType.TYPE_TEXT;
        parameters := [("text", combined_text)];
        description := "Saisie combinée de texte (" ++ pretty n ++ " caractères)";
        timeout := default_timeout |}.

(** [PlanGenerator._merge_similar_actions]: the [while] loop looks at the
    actions at [i] and [i + 1], and moves on by two after a merge. *)
Fixpoint merge_similar_actions (acts : list Action) : Result (list Action) :=
  match acts with
  | [] => Ok []
  | current_action :: tl =>
      match tl with
      | next_action :: rest =>
          if is_type_text current_action && is_type_text next_action then
            merged_action <- merge_pair current_action next_action ;;
            merged <- merge_similar_actions rest ;;
            Ok (merged_action :: merged)
          else
            merged <- merge_similar_actions tl ;;
            Ok (current_action :: merged)
      | [] => Ok [current_action]
      end
  end.

(** [PlanGenerator._recalculate_duration] *)
Fixpoint recalculate_duration_from (total_duration : Q) (acts : list Action) : Result Q :=
  match acts with
  | [] => Ok total_duration
  | action :: rest =>
      match action_type action with
      | ActionType.WAIT =>
          d <- Py.to_float (Py.get_default (parameters action) "duration" (Py.VFloat 1)) ;;
          recalculate_duration_from (total_duration + d)%Q rest
      | ActionType.TYPE_TEXT =>
          n <- Py.len (Py.get_default (parameters action) "text" (Py.VStr "")) ;;
          recalculate_duration_from
            (total_duration + Qmax 1 (inject_Z (Z.of_nat n) * (1 # 100)))%Q rest
      | _ => recalculate_duration_from (total_duration + 1)%Q rest
      end
  end.

Definition recalculate_duration (acts : list Action) : Result Q :=
  recalculate_duration_from 0%Q acts.

(** [PlanGenerator.optimize_plan]: on any exception the plan is returned
    as it came. *)
Definition optimize_plan (p : Plan) (context : option Py.Dict) : Plan :=
  let optimized_actions := drop_consecutive_screenshots [] (actions p) in
  match (merged_actions <- merge_similar_actions optimized_actions ;;
         duration <- recalculate_duration merged_actions ;;
         Ok {| id := id p;
               intent := intent p;
               actions := merged_actions;
               summary := summary p;
               requires_confirmation := requires_confirmation p;
               estimated_duration := duration;
               risk_level := risk_level p |}) with
  | Ok optimized_plan => optimized_plan
  | Raise _ => p
  end.

(** The dict returned by [validate_plan] and by [_validate_action]. *)
Record Validation := mkValidation {
  valid : bool;
  validation_errors : list string;
  validation_warnings : list string
}.

Definition add_error (msg : string) (v : Validation) : Validation :=
  {| valid := false;
     validation_errors := validation_errors v ++ [msg];
     validation_warnings := validation_warnings v |}.

Definition add_warning (msg : string) (v : Validation) : Validation :=
  {| valid := valid v;
     validation_errors := validation_errors v;
     validation_warnings := validation_warnings v ++ [msg] |}.

(** [PlanGenerator._validate_action] *)
Definition validate_action (env : Env) (action : Action) : Result Validation :=
  let v := {| valid := true; validation_errors := []; validation_warnings := [] |} in
  let v := if String.eqb (description action) ""
           then add_warning "Description d'action manquante" v else v in
  let v := if is_type_text action
              && negb (Py.truthy (Py.get_default (parameters action) "text" (Py.VStr "")))
           then add_error "Texte à saisir manquant" v else v in
  match Py.get (parameters action) "skill_name" with
  | Some skill_name =>
      found <- get_skill (skill_manager env) skill_name ;;
      match found with
      | None =>
          Ok (add_error ("Compétence '" ++ Py.str (repr env) skill_name ++ "' non trouvée") v)
      | Some sk =>
          let skill_params :=
            Py.get_default (parameters action) "skill_parameters" (Py.VDict []) in
          ok <- validate_parameters sk skill_params ;;
          Ok (if ok then v
              else add_error ("Paramètres invalides pour '"
                              ++ Py.str (repr env) skill_name ++ "'") v)
      end
  | None => Ok v
  end.

(** [PlanGenerator._check_plan_coherence] *)
Definition check_plan_coherence (p : Plan) : list string :=
  if Nat.ltb 3 (length (List.filter is_screenshot (actions p)))
  then ["Nombreuses captures d'écran - plan potentiellement inefficace"]
  else [].

Definition prefix_action (i : nat) (msg : string) : string :=
  "Action " ++ pretty i ++ ": " ++ msg.

(** One iteration of [for i, action in enumerate(plan.actions)] of
    [validate_plan], once [_validate_action] has returned. *)
Definition merge_action_validation (i : nat) (action_validation v : Validation)
    : Validation :=
  {| valid := valid v && valid action_validation;
     validation_errors :=
       if valid action_validation then validation_errors v
       else validation_errors v
            ++ (prefix_action i <$> validation_errors action_validation);
     validation_warnings :=
       validation_warnings v
       ++ (prefix_action i <$> validation_warnings action_validation) |}.

(** The loop over the actions: the validation accumulated so far, and the
    exception that interrupted it, if any. *)
Fixpoint validate_actions (env : Env) (i : nat) (acts : list Action) (v : Validation)
    : Validation * option Exception :=
  match acts with
  | [] => (v, None)
  | action :: rest =>
      match validate_action env action with
      | Raise e => (v, Some e)
      | Ok action_validation =>
          validate_actions env (S i) rest (merge_action_validation i action_validation v)
      end
  end.

(** [PlanGenerator.validate_plan] *)
Definition validate_plan (env : Env) (p : Plan) : Validation :=
  let v := {| valid := true; validation_errors := []; validation_warnings := [] |} in
  let v := match actions p with
           | [] => add_error "Plan vide - aucune action définie" v
           | _ :: _ => v
           end in
  match validate_actions env 0 (actions p) v with
  | (v, None) =>
      {| valid := valid v;
         validation_errors := validation_errors v;
         validation_warnings := validation_warnings v ++ check_plan_coherence p |}
  | (v, Some e) => add_error ("Erreur validation: " ++ str_exc e) v
  end.

(** A validation is consistent when it is valid exactly if it lists no
    error. *)
Definition consistent (v : Validation) : Prop :=
  valid v = Guardrails.is_nil (validation_errors v).

End PlanGenerator.

(** ** Planner manager ([packages/planner/planner_manager.py]) *)

Module PlannerManager.
Import Guardrails PlanGenerator.

Record Decision := mkDecision {
  approved : bool;
  decision_requires_confirmation : bool;
  blocking_reasons : list string;
  decision_warnings : list string;
  recommendations : list string
}.

(** [PlannerManager._make_execution_decision] *)
Definition make_execution_decision (plan_validation : Validation)
    (security_check : Verdict) : Decision :=
  let blocking : list string :=
    ((if valid plan_validation then [] else validation_errors plan_validation)
     ++ (if can_execute security_check then []
         else info_message <$> errors security_check))%list in
  let recs : list string :=
    ((if valid plan_validation then [] else ["Corrigez les erreurs de plan"])
     ++ (if can_execute security_check then []
         else ["Vérifiez les paramètres de sécurité"]))%list in
  let warns : list string :=
    (validation_warnings plan_validation
     ++ (info_message <$> warnings security_check))%list in
  match blocking with
  | [] =>
      {| approved := true;
         decision_requires_confirmation :=
           verdict_requires_confirmation security_check || Nat.ltb 0 (length warns);
         blocking_reasons := blocking;
         decision_warnings := warns;
         recommendations := recs |}
  | _ :: _ =>
      {| approved := false;
         decision_requires_confirmation := false;
         blocking_reasons := blocking;
         decision_warnings := warns;
         recommendations := recs |}
  end.

(** The mutable attributes of a [PlannerManager]: the counters, the plan
    cache and the rules of its guardrails engine. *)
Record State := mkState {
  plans_generated : nat;
  plans_approved : nat;
  plans_rejected : nat;
  plan_cache : gmap string Plan;
  rules : list GuardrailRule
}.

(** The dict returned by [create_plan]; its ["plan"] entry is a projection
    of the plan, kept whole here.  The measured generation time is left
    out. *)
Record PlanningResult := mkPlanningResult {
  result_plan : Plan;
  result_validation : Validation;
  result_security_check : Verdict;
  result_execution_decision : Decision
}.

(** The steps of the [try] of [create_plan] after the counter has been
    incremented, up to the decision. *)
Definition plan_and_decide (env : Env) (plan_id : string) (now : Q)
    (engine : list GuardrailRule) (i : Intent) (context : option Py.Dict)
    (optimize : bool) : Result (PlanningResult * list GuardrailRule) :=
  p <- generate_plan env plan_id i context ;;
  let p := if optimize then optimize_plan p context else p in
  let plan_validation := validate_plan env p in
  let '(security_check, engine') := check_plan engine p context now in
  let final_decision := make_execution_decision plan_validation security_check in
  Ok ({| result_plan := p;
         result_validation := plan_validation;
         result_security_check := security_check;
         result_execution_decision := final_decision |}, engine').

(** [PlannerManager.create_plan].  [plan_id] is the fresh identifier of the
    generated plan and [now] the clock reading of the guardrail check. *)
Definition create_plan (env : Env) (plan_id : string) (now : Q) (st : State)
    (i : Intent) (context : option Py.Dict) (optimize : bool)
    : Result PlanningResult * State :=
  let generated := S (plans_generated st) in
  match plan_and_decide env plan_id now (rules st) i context optimize with
  | Ok (result, engine') =>
      let ok := approved (result_execution_decision result) in
      (Ok result,
       {| plans_generated := generated;
          plans_approved := if ok then S (plans_approved st) else plans_approved st;
          plans_rejected := if ok then plans_rejected st else S (plans_rejected st);
          plan_cache :=
            if ok then <[id (result_plan result) := result_plan result]> (plan_cache st)
            else plan_cache st;
          rules := engine' |})
  | Raise e =>
      (Raise (mkException PlannerError ("Erreur planification: " ++ str_exc e)),
       {| plans_generated := generated;
          plans_approved := plans_approved st;
          plans_rejected := S (plans_rejected st);
          plan_cache := plan_cache st;
          rules := rules st |})
  end.

(** [PlannerManager.__init__]: empty counters and cache, and a guardrails
    engine with its built-in rules. *)
Definition init (env : Env) : State :=
  {| plans_generated := 0;
     plans_approved := 0;
     plans_rejected := 0;
     plan_cache := ∅;
     rules := initialize_rules (host env) (security env) |}.

(** [PlannerManager.get_plan_by_id] *)
Definition get_plan_by_id (st : State) (plan_id : string) : option Plan :=
  plan_cache st !! plan_id.

(** [clear_plan_cache] and [reset_stats] *)
Definition clear_plan_cache (st : State) : State :=
  {| plans_generated := plans_generated st;
     plans_approved := plans_approved st;
     plans_rejected := plans_rejected st;
     plan_cache := ∅;
     rules := rules st |}.

Definition reset_stats (st : State) : State :=
  {| plans_generated := 0;
     plans_approved := 0;
     plans_rejected := 0;
     plan_cache := plan_cache st;
     rules := rules st |}.

End PlannerManager.

(** ** Execution of a plan ([apps/agent/services.py]) *)

Module AgentService.

(** [SkillResult], as far as [_execute_action] reads it. *)
Record SkillResult := mkSkillResult {
  success : bool;
  error : option string;
  data : Py.Dict
}.

(** The collaborators of the execution loop over a world state [W]:
    [dispatch w skill_name skill_params timeout] is the evaluation of
    [await self.skill_manager.execute_skill(skill_name, skill_params,
    SkillParameters(timeout=..., ...))], arguments included, which returns a
    [SkillResult] or raises; [observe] is
    [perception_manager.get_current_observation()].  In [services.py] as it
    stands the name [SkillParameters] is not bound in the module, so the
    evaluation raises a [NameError] before the skill manager is reached;
    the properties below hold for every [dispatch], that one included. *)
Record Collaborators (W : Type) := mkCollaborators {
  dispatch : W -> Py.Value -> Py.Value -> Q -> Result SkillResult * W;
  observe : W -> Result unit * W
}.
Arguments dispatch {W} _ _ _ _ _.
Arguments observe {W} _ _.

Section Execution.
Context {W : Type} (collab : Collaborators W).

(** [AgentService._execute_action]: the step result, and the world as the
    dispatch, if any, leaves it. *)
Definition execute_action (w : W) (action : Action) (session : string)
    (step_index : nat) : StepResult * W :=
  let sid := session ++ "_" ++ pretty step_index in
  match Py.get (parameters action) "skill_name" with
  | Some skill_name =>
      let skill_params :=
        Py.get_default (parameters action) "skill_parameters" (Py.VDict []) in
      match dispatch collab w skill_name skill_params (timeout action) with
      | (Ok result, w') =>
          ({| step_id := sid;
              status := if success result then StepStatus.SUCCESS else StepStatus.FAILED;
              error_message := error result;
              output := Some (data result) |}, w')
      | (Raise e, w') =>
          ({| step_id := sid;
              status := StepStatus.FAILED;
              error_message := Some (str_exc e);
              output := None |}, w')
      end
  | None =>
      ({| step_id := sid;
          status := StepStatus.SKIPPED;
          error_message := Some "Actions primitives non implémentées";
          output := None |}, w)
  end.

(** An action that does not invoke a skill, and the step result that
    [_execute_action] builds for one. *)
Definition is_primitive (a : Action) : Prop :=
  Py.get (parameters a) "skill_name" = None.

Definition skipped (session : string) (step_index : nat) : StepResult :=
  {| step_id := session ++ "_" ++ pretty step_index;
     status := StepStatus.SKIPPED;
     error_message := Some "Actions primitives non implémentées";
     output := None |}.

(** A point of the loop [for i, action in enumerate(plan.actions)] of
    [_execute_plan]: the index of the next action, the step results
    appended so far, whether [break] was taken, and the world. *)
Record Loop := mkLoop {
  next_index : nat;
  results : list StepResult;
  broken : bool;
  world : W
}.

Definition loop_start (w : W) : Loop :=
  {| next_index := 0; results := []; broken := false; world := w |}.

(** One iteration; [None] when the loop is over. *)
Definition loop_step (p : Plan) (session : string) (l : Loop) : option Loop :=
  if broken l then None
  else
    match actions p !! next_index l with
    | None => None
    | Some action =>
        let '(step_result, w') := execute_action (world l) action session (next_index l) in
        Some {| next_index := S (next_index l);
                results := results l ++ [step_result];
                broken := bool_decide (status step_result = StepStatus.FAILED);
                world := w' |}
    end.

(** [_execute_action] on the actions [acts] one after the other, numbered
    from [i], each in the world the one before left: the step results and
    the last world. *)
Fixpoint execute_actions (w : W) (acts : list Action) (session : string) (i : nat)
    : list StepResult * W :=
  match acts with
  | [] => ([], w)
  | action :: rest =>
      let '(step_result, w1) := execute_action w action session i in
      let '(step_results, w2) := execute_actions w1 rest session (S i) in
      (step_result :: step_results, w2)
  end.

(** What holds at every point of the loop: the next index is the number of
    results, which is at most the number of actions; the results and the
    world are those of executing exactly the actions before the next index,
    in order; the loop is broken exactly when the last result is FAILED; and
    no result before the last is FAILED. *)
Definition loop_invariant (p : Plan) (w : W) (session : string) (l : Loop) : Prop :=
  next_index l = length (results l)
  /\ length (results l) <= length (actions p)
  /\ (results l, world l)
     = execute_actions w (take (length (results l)) (actions p)) session 0
  /\ (broken l = true <-> exists r, last (results l) = Some r /\ status r = StepStatus.FAILED)
  /\ (forall k r, results l !! k = Some r -> S k < length (results l) ->
        status r <> StepStatus.FAILED).

(** The points of the loop that an execution goes through. *)
Inductive loop_reaches (p : Plan) (session : string) (w : W) : Loop -> Prop :=
| reaches_start : loop_reaches p session w (loop_start w)
| reaches_step l l' :
    loop_reaches p session w l ->
    loop_step p session l = Some l' ->
    loop_reaches p session w l'.

(** The loop run to its end; [fuel] bounds the number of iterations. *)
Fixpoint run_loop (fuel : nat) (p : Plan) (session : string) (l : Loop) : Loop :=
  match fuel with
  | O => l
  | S fuel' =>
      match loop_step p session l with
      | None => l
      | Some l' => run_loop fuel' p session l'
      end
  end.

(** The dict returned by [_execute_plan]. *)
Record ExecutionReport := mkExecutionReport {
  report_success : bool;
  report_session_id : string;
  report_success_rate : Q;
  steps_completed : nat
}.

(** [session.status = SUCCESS if session.success_rate > 0.8 else FAILED] *)
Definition final_status (s : ExecutionSession) : StepStatus.t :=
  if Qltb (8 # 10) (success_rate s) then StepStatus.SUCCESS else StepStatus.FAILED.

Definition with_results (s : ExecutionSession) (st : StepStatus.t)
    (rs : list StepResult) : ExecutionSession :=
  {| session_id := session_id s; plan := plan s;
     session_status := st; step_results := rs |}.

(** [AgentService._execute_plan]: the outcome, the session as it is left
    ([None] when none was created), and the world.  [session] is the fresh
    identifier of the session.  Publishing events never raises
    ([_broadcast_event] swallows every failure) and does not touch the
    session, and the deferred clean-up of the session registry runs later;
    both are left out. *)
Definition execute_plan (cache : gmap string Plan) (plan_id session : string) (w : W)
    : Result ExecutionReport * option ExecutionSession * W :=
  match cache !! plan_id with
  | None =>
      (Raise (mkException DesktopAgentError ("Plan " ++ plan_id ++ " non trouvé")), None, w)
  | Some p =>
      match observe collab w with
      | (Raise e, w0) => (Raise e, None, w0)
      | (Ok _, w0) =>
          let s := {| session_id := session; plan := p;
                      session_status := StepStatus.RUNNING; step_results := [] |} in
          let l := run_loop (length (actions p)) p session (loop_start w0) in
          let s1 := with_results s StepStatus.RUNNING (results l) in
          let s2 := with_results s (final_status s1) (results l) in
          match observe collab (world l) with
          | (Raise e, w1) =>
              (Raise e, Some (with_results s StepStatus.FAILED (results l)), w1)
          | (Ok _, w1) =>
              let ok := bool_decide (session_status s2 = StepStatus.SUCCESS) in
              (Ok {| report_success := ok;
                     report_session_id := session;
                     report_success_rate := success_rate s2;
                     steps_completed := length (step_results s2) |},
               Some s2, w1)
          end
      end
  end.

End Execution.

Arguments Loop : clear implicits.

(** One call of [skill_manager.execute_skill]: the skill name, the skill
    parameters and the timeout it was given. *)
Definition Invocation : Type := Py.Value * Py.Value * Q.

(** The call that [_execute_action] makes for an action, if any. *)
Definition invocation (action : Action) : option Invocation :=
  match Py.get (parameters action) "skill_name" with
  | Some skill_name =>
      Some (skill_name,
            Py.get_default (parameters action) "skill_parameters" (Py.VDict []),
            timeout action)
  | None => None
  end.


End AgentService.

(** ** Concrete inputs *)

Module Examples.
Import Skills Guardrails PlanGenerator PlannerManager AgentService.

(** A host on which paths are absolute already, [~] is [/home/user], and
    no pattern matches (the examples never scan a content); the texts of the
    examples are ASCII, where [Py.lower] is the lower case. *)
Definition example_host : Host.t :=
  {| Host.resolve := fun v =>
       match v with
       | Py.VStr p => Ok p
       | _ => Raise (type_error "expected str, bytes or os.PathLike object")
       end;
     Host.expand_resolve := fun p => Ok (Py.replace p "~" "/home/user");
     Host.is_under := fun path root =>
       String.eqb path root || String.prefix (root ++ "/") path;
     Host.re_search := fun _ _ => false;
     Host.repr := fun _ => "";
     Host.lower := Py.lower |}.

Definition is_space (c : ascii) : bool :=
  let n := nat_of_ascii c in
  (Nat.leb 9 n && Nat.leb n 13) || (Nat.leb 28 n && Nat.leb n 32).

Fixpoint is_blank (s : string) : bool :=
  match s with
  | EmptyString => true
  | String c s' => is_space c && is_blank s'
  end.

(** [OpenAppSkill.validate_parameters] and [SaveFileSkill.validate_parameters]
    and [WriteTextFileSkill.validate_parameters] on the dict of skill
    parameters a generated plan carries. *)
Definition OpenAppSkill : BaseSkill :=
  {| skill_info := Ok tt;
     validate_parameters := fun params =>
       match params with
       | Py.VDict d =>
           Ok match Py.get d "app_name" with
              | Some (Py.VStr app) => negb (is_blank app)
              | _ => false
              end
       | _ => Raise (type_error "parameters is not a dict")
       end |}.

Definition SaveFileSkill : BaseSkill :=
  {| skill_info := Ok tt; validate_parameters := fun _ => Ok true |}.

Definition WriteTextFileSkill : BaseSkill :=
  {| skill_info := Ok tt;
     validate_parameters := fun params =>
       match params with
       | Py.VDict d =>
           Ok match Py.get d "content" with
              | Some (Py.VStr _) => true
              | _ => false
              end
       | _ => Raise (type_error "parameters is not a dict")
       end |}.

Definition registry : SkillManager :=
  <["open_app" := OpenAppSkill]>
    (<["save_file" := SaveFileSkill]>
       (<["write_text_file" := WriteTextFileSkill]> ∅)).

Definition example_env : Env :=
  {| skill_manager := registry;
     security := Settings.default_security;
     host := example_host |}.

(** "Open Notepad". *)
Definition open_notepad : Intent :=
  {| intent_type := IntentType.OPEN_APP;
     confidence := 95 # 100;
     slots := [("app_name", Py.VStr "Notepad")];
     original_text := "open Notepad";
     normalized_text := None |}.

(** A request to write a text file for which no content was extracted. *)
Definition write_without_content : Intent :=
  {| intent_type := IntentType.WRITE_TEXT_FILE;
     confidence := 9 # 10;
     slots := [];
     original_text := "write a file";
     normalized_text := None |}.

(** A request that was not understood. *)
Definition not_understood : Intent :=
  {| intent_type := IntentType.UNKNOWN;
     confidence := 3 # 10;
     slots := [];
     original_text := "commande incompréhensible";
     normalized_text := None |}.

(** A universal rule of the given severity that always fails. *)
Definition always_fails (sev : string) : GuardrailRule :=
  stateless "custom" "always fails" sev [] (fun _ _ => Ok (fail "no" [])).

(** A plan of one primitive action. *)
Definition wait_plan : Plan :=
  {| id := "plan-wait";
     intent := open_notepad;
     actions := [ {| action_type := ActionType.WAIT;
                     parameters := [("duration", Py.VFloat 2)];
                     description := "Attente";
                     timeout := default_timeout |} ];
     summary := "Attendre";
     requires_confirmation := false;
     estimated_duration := 2;
     risk_level := "low" |}.

(** Collaborators over a world that counts the dispatches: every skill
    succeeds and every observation is available. *)
Definition counting : Collaborators nat :=
  {| dispatch := fun n _ _ _ =>
       (Ok {| success := true; error := None; data := [] |}, S n);
     observe := fun n => (Ok tt, n) |}.

(** The same plan, marked as requiring confirmation. *)
Definition confirm_plan : Plan :=
  {| id := "plan-confirm";
     intent := open_notepad;
     actions := actions wait_plan;
     summary := "Attendre";
     requires_confirmation := true;
     estimated_duration := 2;
     risk_level := "low" |}.

(** A plan of three skill invocations, and collaborators whose second
    dispatch fails. *)
Definition invoke (skill_name : string) : Action :=
  {| action_type := ActionType.SCREENSHOT;
     parameters := [("skill_name", Py.VStr skill_name);
                    ("skill_parameters", Py.VDict [])];
     description := skill_name;
     timeout := default_timeout |}.

Definition three_skills : Plan :=
  {| id := "plan-3";
     intent := open_notepad;
     actions := [invoke "open_app"; invoke "type_text"; invoke "save_file"];
     summary := "Trois étapes";
     requires_confirmation := false;
     estimated_duration := 3;
     risk_level := "low" |}.

Definition second_fails : Collaborators nat :=
  {| dispatch := fun n _ _ _ =>
       (Ok {| success := negb (Nat.eqb n 1);
              error := if Nat.eqb n 1 then Some "échec" else None;
              data := [] |}, S n);
     observe := fun n => (Ok tt, n) |}.

(** Three consecutive text entries. *)
Definition type_text (text : string) : Action :=
  {| action_type := ActionType.TYPE_TEXT;
     parameters := [("text", Py.VStr text)];
     description := "Saisie";
     timeout := default_timeout |}.

Definition three_entries : list Action :=
  [type_text "a"; type_text "b"; type_text "c"].

(** A session with one successful and one failed step. *)
Definition half_done : ExecutionSession :=
  {| session_id := "s";
     plan := three_skills;
     session_status := StepStatus.FAILED;
     step_results :=
       [ {| step_id := "s_0"; status := StepStatus.SUCCESS;
            error_message := None; output := Some [] |};
         {| step_id := "s_1"; status := StepStatus.FAILED;
            error_message := Some "échec"; output := Some [] |} ] |}.

End Examples.

(** ** Further views of the guardrails engine *)

Module Engine.
Import Guardrails.

(** The entry a rule leaves in [rule_results]: one per applicable rule,
    whether its check returned or raised. *)
Definition result_entries (plan : Plan) (context : option Py.Dict) (now : Q)
    (rule : GuardrailRule) : list RuleInfo :=
  match checked rule plan context now with
  | Some (Ok res) => [rule_info rule res]
  | Some (Raise e) => [error_info rule e]
  | None => []
  end.

(** The attributes of a rule that no check changes. *)
Definition attributes (rule : GuardrailRule) : string * string * list IntentType.t :=
  (name rule, severity rule, applies_to rule).

Definition named (rule_name : string) (rule : GuardrailRule) : Prop :=
  name rule = rule_name.

End Engine.

(** ** Further views of the plan generator *)

Module Plans.
Import Skills PlanGenerator.

(** A slot dict whose values are all strings. *)
Definition string_slots (slots : Py.Dict) : Prop :=
  Forall (fun kv => exists s, kv.2 = Py.VStr s) slots.

(** Whether an action invokes a skill: its parameters have a
    ["skill_name"] entry. *)
Definition invokes_skill (a : Action) : bool :=
  Py.contains_key (parameters a) "skill_name".

(** The write intents of [_should_require_confirmation]. *)
Definition is_write_intent (t : IntentType.t) : bool :=
  bool_decide (t ∈ [IntentType.SAVE_FILE; IntentType.WRITE_TEXT_FILE]).

(** An action that is neither a capture nor a text entry by its type. *)
Definition is_other (a : Action) : bool :=
  negb (is_screenshot a) && negb (is_type_text a).

(** No two neighbours are both of type [SCREENSHOT]. *)
Fixpoint no_adjacent_screenshots (acts : list Action) : bool :=
  match acts with
  | [] => true
  | a :: tl =>
      match tl with
      | [] => true
      | b :: _ => negb (is_screenshot a && is_screenshot b) && no_adjacent_screenshots tl
      end
  end.

(** What [_validate_action] demands of an action: a text entry has a text,
    and a skill invocation names a registered skill that accepts the
    parameters. *)
Definition action_ok (env : Env) (a : Action) : Prop :=
  (is_type_text a = true ->
   Py.truthy (Py.get_default (parameters a) "text" (Py.VStr "")) = true)
  /\ (forall v,
        Py.get (parameters a) "skill_name" = Some v ->
        exists s sk,
          v = Py.VStr s
          /\ skill_manager env !! s = Some sk
          /\ validate_parameters sk
               (Py.get_default (parameters a) "skill_parameters" (Py.VDict []))
             = Ok true).

(** The template parameters of an action definition after substitution. *)
Definition substituted_parameters (env : Env) (slots : Py.Dict) (action_def : ActionDef)
    : Py.Dict :=
  default []
    ((fun d : Py.Dict => (fun kv => (kv.1, substitute_value env slots kv.2)) <$> d)
       <$> def_parameters action_def).

(** A step of a template that is primitive has one of the types the
    built-in templates use and no ["skill_name"] parameter. *)
Definition primitive_step_is_plain (d : ActionDef) : Prop :=
  match def_skill d with
  | Some _ => True
  | None =>
      (exists ty, def_type d = Some ty
                  /\ ty ∈ [ActionType.SCREENSHOT; ActionType.WAIT; ActionType.KEY_PRESS])
      /\ Py.get (default [] (def_parameters d)) "skill_name" = None
  end.

End Plans.

(** ** Further operations of the planner manager *)

Module Planner.
Import Guardrails PlanGenerator PlannerManager.

(** The dict of [PlannerManager.get_planner_stats], without the statistics
    of the skill manager. *)
Record Stats := mkStats {
  stats_plans_generated : nat;
  stats_plans_approved : nat;
  stats_plans_rejected : nat;
  approval_rate : Q;
  cached_plans : nat;
  active_rules : nat
}.

Definition get_planner_stats (st : State) : Stats :=
  {| stats_plans_generated := plans_generated st;
     stats_plans_approved := plans_approved st;
     stats_plans_rejected := plans_rejected st;
     approval_rate :=
       if Nat.ltb 0 (plans_generated st)
       then (inject_Z (Z.of_nat (plans_approved st))
             / inject_Z (Z.of_nat (plans_generated st)))%Q
       else 0%Q;
     cached_plans := size (plan_cache st);
     active_rules := length (rules st) |}.

(** The calls that change a planner manager. *)
Inductive Call :=
| CreatePlan (plan_id : string) (now : Q) (i : Intent) (context : option Py.Dict)
    (optimize : bool)
| ClearPlanCache
| ResetStats.

Definition call (env : Env) (st : State) (c : Call) : State :=
  match c with
  | CreatePlan plan_id now i context optimize =>
      (create_plan env plan_id now st i context optimize).2
  | ClearPlanCache => clear_plan_cache st
  | ResetStats => reset_stats st
  end.

(** A manager after a sequence of calls. *)
Definition after (env : Env) (cs : list Call) : State :=
  fold_left (call env) cs (init env).

(** What every such manager satisfies: each attempt is counted once, as
    approved or as rejected; a cached plan sits under its own identifier and
    passes validation; and no rule is of severity critical. *)
Definition coherent (env : Env) (st : State) : Prop :=
  plans_generated st = plans_approved st + plans_rejected st
  /\ (forall k p, get_plan_by_id st k = Some p ->
                  id p = k /\ valid (validate_plan env p) = true)
  /\ Forall (fun r => severity r <> "critical") (rules st)
  /\ length (rules st) = 4.

End Planner.

(** ** Commands ([apps/agent/services.py]) *)

Module Commands.
Import Guardrails PlanGenerator PlannerManager AgentService.

(** [Command], as far as [process_command] reads it. *)
Record Command := mkCommand {
  command_id : string;
  text : string;
  command_require_confirmation : bool
}.

(** The entry ["intent"] of the dict that [nlu_manager.understand] returns:
    an [Intent] object, which is what [create_plan] reads, or a dict, which
    is what [NLUManager.understand] of [packages/nlu] builds. *)
Inductive IntentEntry :=
| IntentObject (i : Intent)
| IntentDict (d : Py.Dict).

Record NluResult := mkNluResult {
  ready_for_execution : bool;
  nlu_intent : IntentEntry
}.

(** What the service asks of the language side: [understand w text] is
    [self.nlu_manager.understand(text)], and [context_of w] the dict that
    [_get_execution_context] builds from the observation taken in [w], empty
    when building it fails. *)
Record Frontend (W : Type) := mkFrontend {
  understand : W -> string -> Result NluResult * W;
  context_of : W -> Py.Dict
}.
Arguments understand {W} _ _ _.
Arguments context_of {W} _ _.

(** The stages of the dicts returned by [process_command]. *)
Inductive Stage := NLU | PLANNING | CONFIRMATION_REQUIRED | COMPLETED | ERROR.

#[global] Instance Stage_eq_dec : EqDecision Stage.
Proof. solve_decision. Defined.

(** The dict returned by [process_command]; an entry that the dict of a
    stage does not have is [None]. *)
Record CommandResult := mkCommandResult {
  command_success : bool;
  stage : Stage;
  command_message : string;
  command_plan_id : option string;
  command_session_id : option string;
  command_blocking_reasons : option (list string);
  command_error : option string
}.

(** The dict returned by [execute_plan_by_id]. *)
Record Outcome := mkOutcome {
  outcome_success : bool;
  outcome_message : string;
  outcome_session_id : option string;
  outcome_error : option string
}.

(** The attributes of an [AgentService] that commands change. *)
Record Service := mkService {
  commands_processed : nat;
  commands_successful : nat;
  active_sessions : gmap string ExecutionSession;
  planner_manager : PlannerManager.State
}.

(** [AgentService.__init__], with a new planner manager. *)
Definition new_service (env : Env) : Service :=
  {| commands_processed := 0;
     commands_successful := 0;
     active_sessions := ∅;
     planner_manager := PlannerManager.init env |}.

Definition with_planner (sv : Service) (st : PlannerManager.State) : Service :=
  {| commands_processed := commands_processed sv;
     commands_successful := commands_successful sv;
     active_sessions := active_sessions sv;
     planner_manager := st |}.

(** [self._active_sessions[session.id] = session]; the registry holds the
    session object, so it shows the session as the execution leaves it. *)
Definition register (sv : Service) (s : option ExecutionSession) : Service :=
  {| commands_processed := commands_processed sv;
     commands_successful := commands_successful sv;
     active_sessions :=
       match s with
       | Some s => <[session_id s := s]> (active_sessions sv)
       | None => active_sessions sv
       end;
     planner_manager := planner_manager sv |}.

(** [AgentService._cleanup_session], once its delay has passed. *)
Definition cleanup_session (sv : Service) (session : string) : Service :=
  {| commands_processed := commands_processed sv;
     commands_successful := commands_successful sv;
     active_sessions := delete session (active_sessions sv);
     planner_manager := planner_manager sv |}.

(** [create_plan] on the entry of the language result.  On a dict the first
    statement that reads [intent.type] raises an [AttributeError] inside the
    [try] of [create_plan], after the counter of generated plans was
    incremented. *)
Definition create_plan_from (env : Env) (plan_id : string) (now : Q)
    (st : PlannerManager.State) (entry : IntentEntry) (context : option Py.Dict)
    : Result PlanningResult * PlannerManager.State :=
  match entry with
  | IntentObject i => create_plan env plan_id now st i context true
  | IntentDict _ =>
      (Raise (mkException PlannerError
                ("Erreur planification: "
                 ++ "'dict' object has no attribute 'type'")),
       {| plans_generated := S (plans_generated st);
          plans_approved := plans_approved st;
          plans_rejected := S (plans_rejected st);
          plan_cache := plan_cache st;
          rules := rules st |})
  end.

(** [require_confirmation or ... or command.require_confirmation] *)
Definition needs_confirmation (require_confirmation : option bool)
    (decision : Decision) (command : Command) : bool :=
  match require_confirmation with Some true => true | _ => false end
  || decision_requires_confirmation decision
  || command_require_confirmation command.

Definition execution_message (ok : bool) : string :=
  "Exécution " ++ (if ok then "réussie" else "échouée").

(** The dict of the [except] branch of [process_command]. *)
Definition command_failed (e : Exception) : CommandResult :=
  {| command_success := false;
     stage := ERROR;
     command_message := "Erreur traitement: " ++ str_exc e;
     command_plan_id := None;
     command_session_id := None;
     command_blocking_reasons := None;
     command_error := Some (str_exc e) |}.

(** The dict of the [except] branch of [execute_plan_by_id]. *)
Definition execution_failed (e : Exception) : Outcome :=
  {| outcome_success := false;
     outcome_message := "Erreur exécution: " ++ str_exc e;
     outcome_session_id := None;
     outcome_error := Some (str_exc e) |}.

Section Processing.
Context {W : Type} (env : Env) (collab : Collaborators W) (front : Frontend W).

(** [AgentService._get_execution_context]: a failed observation gives the
    empty dict. *)
Definition get_execution_context (w : W) : Py.Dict * W :=
  match observe collab w with
  | (Ok _, w') => (context_of front w', w')
  | (Raise _, w') => ([], w')
  end.

(** [_execute_plan] together with the registry of sessions.  [session] is
    the fresh identifier of the session. *)
Definition execute_plan_registered (sv : Service) (plan_id session : string) (w : W)
    : Result ExecutionReport * Service * W :=
  let '(out, s, w') :=
    execute_plan collab (plan_cache (planner_manager sv)) plan_id session w in
  (out, register sv s, w').

(** [AgentService.execute_plan_by_id]; it raises nothing. *)
Definition execute_plan_by_id (sv : Service) (plan_id session : string) (w : W)
    : Outcome * Service * W :=
  match get_plan_by_id (planner_manager sv) plan_id with
  | None =>
      (execution_failed
         (mkException DesktopAgentError ("Plan " ++ plan_id ++ " non trouvé")),
       sv, w)
  | Some _ =>
      match execute_plan_registered sv plan_id session w with
      | (Ok report, sv', w') =>
          ({| outcome_success := report_success report;
              outcome_message := execution_message (report_success report);
              outcome_session_id := Some (report_session_id report);
              outcome_error := None |}, sv', w')
      | (Raise e, sv', w') => (execution_failed e, sv', w')
      end
  end.

(** [AgentService.process_command]; it raises nothing.  [plan_id] and
    [session] are the fresh identifiers of the plan and of the session, and
    [now] the clock reading of the guardrail check.  Publishing events
    never raises and is left out, as is the measured duration. *)
Definition process_command (plan_id : string) (now : Q) (session : string)
    (sv : Service) (w : W) (command : Command) (require_confirmation : option bool)
    : CommandResult * Service * W :=
  let sv :=
    {| commands_processed := S (commands_processed sv);
       commands_successful := commands_successful sv;
       active_sessions := active_sessions sv;
       planner_manager := planner_manager sv |} in
  match understand front w (text command) with
  | (Raise e, w1) => (command_failed e, sv, w1)
  | (Ok nlu_result, w1) =>
      if negb (ready_for_execution nlu_result) then
        ({| command_success := false;
            stage := NLU;
            command_message := "Commande non comprise ou incomplète";
            command_plan_id := None;
            command_session_id := None;
            command_blocking_reasons := None;
            command_error := None |}, sv, w1)
      else
        let '(context, w2) := get_execution_context w1 in
        match create_plan_from env plan_id now (planner_manager sv)
                (nlu_intent nlu_result) (Some context) with
        | (Raise e, st') => (command_failed e, with_planner sv st', w2)
        | (Ok plan_result, st') =>
            let sv := with_planner sv st' in
            let decision := result_execution_decision plan_result in
            if negb (approved decision) then
              ({| command_success := false;
                  stage := PLANNING;
                  command_message := "Plan rejeté par les guardrails de sécurité";
                  command_plan_id := None;
                  command_session_id := None;
                  command_blocking_reasons := Some (blocking_reasons decision);
                  command_error := None |}, sv, w2)
            else if needs_confirmation require_confirmation decision command then
              ({| command_success := true;
                  stage := CONFIRMATION_REQUIRED;
                  command_message := "Confirmation requise avant exécution";
                  command_plan_id := Some (id (result_plan plan_result));
                  command_session_id := None;
                  command_blocking_reasons := None;
                  command_error := None |}, sv, w2)
            else
              match execute_plan_registered sv (id (result_plan plan_result))
                      session w2 with
              | (Raise e, sv', w3) => (command_failed e, sv', w3)
              | (Ok report, sv', w3) =>
                  ({| command_success := report_success report;
                      stage := COMPLETED;
                      command_message := execution_message (report_success report);
                      command_plan_id := None;
                      command_session_id := Some (report_session_id report);
                      command_blocking_reasons := None;
                      command_error := None |},
                   {| commands_processed := commands_processed sv';
                      commands_successful :=
                        if report_success report then S (commands_successful sv')
                        else commands_successful sv';
                      active_sessions := active_sessions sv';
                      planner_manager := planner_manager sv' |},
                   w3)
              end
        end
  end.

(** The calls that change a service.  *)
Inductive Call :=
| ProcessCommand (plan_id : string) (now : Q) (session : string) (command : Command)
    (require_confirmation : option bool)
| ExecutePlanById (plan_id session : string)
| CleanupSession (session : string).

Definition call (x : Service * W) (c : Call) : Service * W :=
  match c with
  | ProcessCommand plan_id now session command require_confirmation =>
      let '(_, sv, w) :=
        process_command plan_id now session x.1 x.2 command require_confirmation in
      (sv, w)
  | ExecutePlanById plan_id session =>
      let '(_, sv, w) := execute_plan_by_id x.1 plan_id session x.2 in (sv, w)
  | CleanupSession session => (cleanup_session x.1 session, x.2)
  end.

(** A new service after a sequence of calls, from the world [w]. *)
Definition after (cs : list Call) (w : W) : Service * W :=
  fold_left call cs (new_service env, w).

End Processing.

(** What holds of a service between calls: no more commands succeeded than
    were processed; the planner manager is coherent; and a registered
    session sits under its own identifier, is over, and is the execution of
    a plan that passes validation. *)
Definition coherent (env : Env) (sv : Service) : Prop :=
  commands_successful sv <= commands_processed sv
  /\ Planner.coherent env (planner_manager sv)
  /\ forall k s,
       active_sessions sv !! k = Some s ->
       session_id s = k
       /\ session_status s ∈ [StepStatus.SUCCESS; StepStatus.FAILED]
       /\ valid (validate_plan env (plan s)) = true
       /\ length (step_results s) <= length (actions (plan s)).

End Commands.

(** ** Validation of an intent ([packages/planner/planner_manager.py]) *)

Module IntentValidation.
Import Guardrails PlanGenerator PlannerManager.

(** The dict returned by [validate_intent_for_planning]. *)
Record IntentCheck := mkIntentCheck {
  intent_valid : bool;
  intent_errors : list string;
  intent_warnings : list string;
  suggestions : list string
}.

(** [PlannerManager._get_required_slots] *)
Definition get_required_slots (t : IntentType.t) : list string :=
  match t with
  | IntentType.OPEN_APP => ["app_name"]
  | IntentType.FOCUS_APP => ["app_name"]
  | IntentType.CLICK_TEXT => ["text"]
  | IntentType.TYPE_TEXT => ["text"]
  | IntentType.WEB_SEARCH => ["query"]
  | IntentType.WRITE_TEXT_FILE => ["content"]
  | _ => []
  end.

(** [PlannerManager._get_slot_suggestions] *)
Definition get_slot_suggestions (missing_slots : list string) : list string :=
  flat_map (fun slot =>
    if String.eqb slot "app_name"
    then ["Spécifiez le nom de l'application (ex: Chrome, Notepad)"]
    else if String.eqb slot "text" then ["Précisez le texte à utiliser"]
    else if String.eqb slot "query" then ["Indiquez votre requête de recherche"]
    else if String.eqb slot "content" then ["Spécifiez le contenu du fichier"]
    else []) missing_slots.

(** [d.update(slots)] *)
Definition update (d slots : Py.Dict) : Py.Dict :=
  fold_left (fun acc kv => Py.set acc kv.1 kv.2) slots d.

(** [GuardrailsEngine.simulate_check]: the verdict and the rules as the
    check leaves them.  [plan_id] is the fresh identifier of the plan made
    for the simulation. *)
Definition simulate_check (rules : list GuardrailRule) (plan_id : string)
    (i : Intent) (slots : Py.Dict) (now : Q) : Verdict * list GuardrailRule :=
  let dummy_plan :=
    {| id := plan_id;
       intent := {| intent_type := intent_type i;
                    confidence := confidence i;
                    slots := update (Models.slots i) slots;
                    original_text := original_text i;
                    normalized_text := normalized_text i |};
       actions := [];
       summary := "Simulation";
       requires_confirmation := false;
       estimated_duration := 0;
       risk_level := "low" |} in
  check_plan rules dummy_plan None now.

(** [slot not in intent.slots or not intent.slots[slot]] *)
Definition slot_missing (slots : Py.Dict) (slot : string) : bool :=
  match Py.get slots slot with
  | None => true
  | Some v => negb (Py.truthy v)
  end.

(** [PlannerManager.validate_intent_for_planning]; nothing in its [try]
    raises.  [format_2f] is the text of a float with two decimals. *)
Definition validate_intent_for_planning (format_2f : Q -> string)
    (st : PlannerManager.State) (plan_id : string) (now : Q) (i : Intent)
    : IntentCheck * PlannerManager.State :=
  let low := Qltb (confidence i) (5 # 10) in
  let warnings0 :=
    if low then ["Confiance faible pour l'intention: " ++ format_2f (confidence i)]
    else [] in
  let suggestions0 :=
    if low then ["Reformulez votre demande pour améliorer la compréhension"]
    else [] in
  let missing_slots :=
    List.filter (slot_missing (slots i)) (get_required_slots (intent_type i)) in
  match missing_slots with
  | _ :: _ =>
      ({| intent_valid := false;
          intent_errors := ["Paramètres manquants: " ++ String.concat ", " missing_slots];
          intent_warnings := warnings0;
          suggestions := (suggestions0 ++ get_slot_suggestions missing_slots)%list |},
       st)
  | [] =>
      let '(security_sim, rules') := simulate_check (rules st) plan_id i (slots i) now in
      let st' :=
        {| plans_generated := plans_generated st;
           plans_approved := plans_approved st;
           plans_rejected := plans_rejected st;
           plan_cache := plan_cache st;
           rules := rules' |} in
      if negb (overall_passed security_sim) then
        let warnings1 := (warnings0 ++ (info_message <$> errors security_sim))%list in
        if negb (can_execute security_sim) then
          ({| intent_valid := false;
              intent_errors := ["Plan bloqué par les guardrails de sécurité"];
              intent_warnings := warnings1;
              suggestions := suggestions0 |}, st')
        else
          ({| intent_valid := true;
              intent_errors := [];
              intent_warnings := warnings1;
              suggestions := suggestions0 |}, st')
      else
        ({| intent_valid := true;
            intent_errors := [];
            intent_warnings := warnings0;
            suggestions := suggestions0 |}, st')
  end.

End IntentValidation.

(** ** Rectangles ([packages/common/models.py]) *)

Module Geometry.

Record BoundingBox := mkBoundingBox {
  x : Z;
  y : Z;
  width : Z;
  height : Z
}.

(** [BoundingBox(x=..., y=..., width=..., height=...)]: the fields [width]
    and [height] are declared with [ge=0], and the validation of the model
    raises when one of them is negative ([None] here). *)
Definition BoundingBox_init (x y width height : Z) : option BoundingBox :=
  if (width <? 0)%Z || (height <? 0)%Z then None
  else Some {| x := x; y := y; width := width; height := height |}.

(** [BoundingBox.center], [right] and [bottom]; [//] rounds down. *)
Definition center (b : BoundingBox) : Z * Z :=
  ((x b + width b / 2)%Z, (y b + height b / 2)%Z).

Definition right (b : BoundingBox) : Z := (x b + width b)%Z.

Definition bottom (b : BoundingBox) : Z := (y b + height b)%Z.

End Geometry.

(** ** More sample inputs *)

Module Scenarios.
Import Commands.

(** A plan without actions for an intent, as the simulation builds it. *)
Definition plan_of (i : Intent) : Plan :=
  {| id := "plan-0";
     intent := i;
     actions := [];
     summary := "Simulation";
     requires_confirmation := false;
     estimated_duration := 0;
     risk_level := "low" |}.

(** A request to type a command line, and one whose text is a number. *)
Definition type_command_line : Intent :=
  {| intent_type := IntentType.TYPE_TEXT;
     confidence := 9 # 10;
     slots := [("text", Py.VStr "sudo reboot")];
     original_text := "tape sudo reboot";
     normalized_text := None |}.

Definition type_number : Intent :=
  {| intent_type := IntentType.TYPE_TEXT;
     confidence := 9 # 10;
     slots := [("text", Py.VInt 5)];
     original_text := "tape 5";
     normalized_text := None |}.

(** A language side that understands every text as the request to open
    the notepad. *)
Definition notepad_frontend : Frontend nat :=
  {| understand := fun w _ =>
       (Ok {| ready_for_execution := true;
              nlu_intent := IntentObject Examples.open_notepad |}, w);
     context_of := fun _ => [] |}.

Definition open_command : Command :=
  {| command_id := "command-1";
     text := "ouvre le bloc-notes";
     command_require_confirmation := false |}.

End Scenarios.


(** * Properties *)

Import Guardrails PlanGenerator PlannerManager AgentService.
Local Open Scope list_scope.

(** ** Rationals *)

Lemma Qltb_lt (x y : Q) : Qltb x y = true <-> (x < y)%Q.
Proof.
  unfold Qltb. rewrite negb_true_iff, <- not_true_iff_false, Qle_bool_iff.
  split; [apply Qnot_le_lt | apply Qlt_not_le].
Qed.

Lemma ratio_bounds (a b : nat) :
  a <= b -> 0 < b ->
  (0 <= inject_Z (Z.of_nat a) / inject_Z (Z.of_nat b) <= 1)%Q.
Proof.
  intros Hab Hb.
  assert (Hpos : (0 < inject_Z (Z.of_nat b))%Q).
  { change 0%Q with (inject_Z 0). rewrite <- Zlt_Qlt. lia. }
  split.
  - apply Qle_shift_div_l; [exact Hpos|]. rewrite Qmult_0_l.
    change 0%Q with (inject_Z 0). rewrite <- Zle_Qle. lia.
  - apply Qle_shift_div_r; [exact Hpos|]. rewrite Qmult_1_l.
    rewrite <- Zle_Qle. lia.
Qed.

(** ** The success rate of a session *)

Lemma successful_le (rs : list StepResult) : successful rs <= length rs.
Proof. apply List.filter_length_le. Qed.

(** The code's count of successes is the number of step results whose
    status is SUCCESS. *)
Lemma successful_count (rs : list StepResult) :
  successful rs = count_occ StepStatus.eq_dec (status <$> rs) StepStatus.SUCCESS.
Proof.
  unfold successful. induction rs as [|r rs IH]; [reflexivity|].
  cbn [List.filter fmap list_fmap count_occ]. unfold is_success at 1.
  destruct (StepStatus.eq_dec (status r) StepStatus.SUCCESS) as [Hr|Hr].
  - rewrite bool_decide_eq_true_2 by exact Hr. cbn [length]. f_equal. exact IH.
  - rewrite bool_decide_eq_false_2 by exact Hr. exact IH.
Qed.

Lemma count_occ_full {A} (dec : forall x y : A, {x = y} + {x <> y}) (l : list A) (a : A) :
  count_occ dec l a = length l <-> Forall (fun x => x = a) l.
Proof.
  induction l as [|x l IH]; cbn [count_occ length].
  - split; [constructor | reflexivity].
  - pose proof (count_occ_bound dec a l) as Hb.
    destruct (dec x a) as [->|Hx]; split.
    + intros [= H]. constructor; [reflexivity | apply IH, H].
    + intros H. f_equal. apply IH. apply List.Forall_inv_tail in H. exact H.
    + intros H. lia.
    + intros H. apply List.Forall_inv in H. contradiction.
Qed.

Lemma ratio_one (a b : nat) :
  0 < b -> (inject_Z (Z.of_nat a) / inject_Z (Z.of_nat b) == 1)%Q <-> a = b.
Proof.
  intros Hb. unfold Qeq, Qdiv, Qmult, Qinv, inject_Z. cbn.
  destruct (Z.of_nat b) as [|pb|pb] eqn:Eb; try lia. cbn. lia.
Qed.

Lemma ratio_zero (a b : nat) :
  0 < b -> (inject_Z (Z.of_nat a) / inject_Z (Z.of_nat b) == 0)%Q <-> a = 0.
Proof.
  intros Hb. unfold Qeq, Qdiv, Qmult, Qinv, inject_Z. cbn.
  destruct (Z.of_nat b) as [|pb|pb] eqn:Eb; try lia. cbn. lia.
Qed.

(** C8. The success rate of a session is 0 when no step ran, is otherwise
    the number of step results with status SUCCESS divided by the number of
    step results, and always lies between 0 and 1; it is 1 exactly when
    every step result is SUCCESS and there is one, and 0 exactly when no
    step result is SUCCESS. *)
Theorem success_rate_spec (s : ExecutionSession) :
  let successes :=
    count_occ StepStatus.eq_dec (status <$> step_results s) StepStatus.SUCCESS in
  (step_results s = [] -> success_rate s = 0%Q)
  /\ (step_results s <> [] ->
      success_rate s
      = (inject_Z (Z.of_nat successes)
         / inject_Z (Z.of_nat (length (step_results s))))%Q)
  /\ (0 <= success_rate s <= 1)%Q
  /\ ((success_rate s == 1)%Q
      <-> step_results s <> []
          /\ Forall (fun r => status r = StepStatus.SUCCESS) (step_results s))
  /\ ((success_rate s == 0)%Q
      <-> Forall (fun r => status r <> StepStatus.SUCCESS) (step_results s)).
Proof.
  cbn zeta. unfold success_rate. rewrite successful_count.
  destruct (step_results s) as [|r rs] eqn:E.
  - split; [reflexivity|]. split; [congruence|]. split; [split; discriminate|].
    split; [split; [discriminate | intros [H _]; congruence]|].
    split; [constructor | reflexivity].
  - set (rs' := r :: rs).
    assert (Hpos : 0 < length rs') by (cbn; lia).
    pose proof (count_occ_bound StepStatus.eq_dec StepStatus.SUCCESS (status <$> rs')) as Hle.
    rewrite length_fmap in Hle.
    split; [discriminate|]. split; [reflexivity|].
    split; [apply ratio_bounds; [exact Hle | exact Hpos]|]. split.
    + rewrite (ratio_one _ _ Hpos), <- (length_fmap status rs'), count_occ_full.
      rewrite List.Forall_forall. split.
      * intros H. split; [discriminate|]. apply List.Forall_forall. intros x Hx.
        apply H, in_map, Hx.
      * intros [_ H] x Hx. apply in_map_iff in Hx as (r0 & <- & Hr0).
        rewrite List.Forall_forall in H. apply H, Hr0.
    + rewrite (ratio_zero _ _ Hpos), <- count_occ_not_In, List.Forall_forall. split.
      * intros H x Hx Hs. apply H. rewrite <- Hs. apply in_map, Hx.
      * intros H Hin. apply in_map_iff in Hin as (r0 & Hs & Hr0). exact (H r0 Hr0 Hs).
Qed.

(** ** The rate limit rule *)

Lemma within_last_minute_lt (now ts : Q) :
  within_last_minute now ts = true <-> (now - ts < 60)%Q.
Proof. apply Qltb_lt. Qed.

Lemma in_window_drop_middle (h : list Q) (t : Q) (rest : list Q) :
  in_window (h ++ t :: rest) -> in_window (h ++ rest).
Proof.
  intros Hw i j ti tj Hij Hi Hj.
  assert (Hup : forall k x, (h ++ rest) !! k = Some x ->
            (h ++ t :: rest) !! (if decide (k < length h) then k else S k) = Some x).
  { intros k x Hk. destruct (decide (k < length h)).
    - rewrite lookup_app_l in Hk by lia. rewrite lookup_app_l by lia. exact Hk.
    - rewrite lookup_app_r in Hk by lia. rewrite lookup_app_r by lia.
      replace (S k - length h) with (S (k - length h)) by lia. exact Hk. }
  apply (Hw _ _ ti tj) with (2 := Hup _ _ Hi) (3 := Hup _ _ Hj).
  destruct (decide (i < length h)), (decide (j < length h)); lia.
Qed.

(** Nothing is discarded from a history whose entries all lie in the window
    of the current call. *)
Lemma kept_all (h : list Q) (t : Q) (rest : list Q) :
  in_window (h ++ t :: rest) -> List.filter (within_last_minute t) h = h.
Proof.
  intros Hw. apply List.forallb_filter_id, List.forallb_forall.
  intros ts Hin. apply within_last_minute_lt.
  apply list_elem_of_In, list_elem_of_lookup in Hin as [i Hi].
  apply (Hw i (length h) ts t).
  - eapply lookup_lt_Some, Hi.
  - rewrite lookup_app_l; [exact Hi | eapply lookup_lt_Some, Hi].
  - rewrite lookup_app_r by lia. now rewrite Nat.sub_diag.
Qed.

Lemma checks_in_window (times : list Q) : forall (h : list Q) (limit : Z),
  in_window (h ++ times) ->
  (RateLimitRule_checks (mkRateLimitState h limit) times).1
  = expected_pass h limit <$> seq 0 (length times).
Proof.
  induction times as [|t rest IH]; intros h limit Hw; [reflexivity|].
  cbn [RateLimitRule_checks]. unfold RateLimitRule_check.
  cbn [execution_history max_executions_per_minute].
  rewrite (kept_all h t rest Hw).
  destruct (Z.leb_spec limit (Z.of_nat (length h))) as [Hfull|Hfree].
  - specialize (IH h limit (in_window_drop_middle h t rest Hw)).
    destruct (RateLimitRule_checks _ rest) as [rs st2] eqn:E. cbn [fst] in *.
    rewrite IH. cbn [length seq fmap list_fmap passed]. f_equal.
    + unfold expected_pass. rewrite bool_decide_eq_false_2; [done | lia].
    + rewrite <- seq_shift, <- list_fmap_compose.
      apply list_fmap_ext. intros _ k _. unfold expected_pass; cbn.
      rewrite !bool_decide_eq_false_2; [done | lia | lia].
  - specialize (IH (h ++ [t]) limit).
    destruct (RateLimitRule_checks _ rest) as [rs st2] eqn:E. cbn [fst] in *.
    rewrite IH by (rewrite <- app_assoc; exact Hw).
    cbn [length seq fmap list_fmap passed]. f_equal.
    + unfold expected_pass. rewrite bool_decide_eq_true_2; [done | lia].
    + rewrite <- seq_shift, <- list_fmap_compose.
      apply list_fmap_ext. intros _ k _. unfold expected_pass; cbn.
      rewrite length_app; cbn. apply bool_decide_ext. lia.
Qed.

(** C7 as stated fails at the boundary: ten timestamps that are exactly 60
    seconds old, none of them older than 60 seconds, do not make the check
    fail at limit 10; and of 11 checks of a new rule made within 60 seconds,
    the last one exactly 60 seconds after the first, all pass. *)
Lemma rate_limit_passes_at_sixty_seconds :
  (exists res,
     (RateLimitRule_check {| execution_history := replicate 10 0%Q;
                             max_executions_per_minute := 10 |} 60).1 = Ok res
     /\ passed res = true
     /\ Forall (fun ts => ~ (60 < 60 - ts)%Q) (replicate 10 0%Q))
  /\ (RateLimitRule_checks RateLimitRule_init
        [0; 6; 12; 18; 24; 30; 36; 42; 48; 54; 60]%Q).1 = replicate 11 true.
Proof.
  split.
  - eexists. split; [vm_compute; reflexivity|]. split; [reflexivity|].
    repeat constructor; intros H; vm_compute in H; discriminate H.
  - vm_compute. reflexivity.
Qed.

(** C7, amended. A check of the rate limit rule keeps the timestamps of its
    history that are less than 60 seconds old and discards those that are 60
    seconds old or older, fails exactly when the timestamps kept are at
    least as many as the configured maximum (10 for a new rule), and records
    the current timestamp after the kept ones only when it passes; so of 11
    checks of a new rule, each made less than 60 seconds after each earlier
    one, the first 10 pass and the 11th fails. *)
Theorem rate_limit_rolling_window :
  (forall (st : RateLimitState) (now : Q),
     let kept := List.filter (within_last_minute now) (execution_history st) in
     let after := (RateLimitRule_check st now).2 in
     (forall ts, In ts kept <-> In ts (execution_history st) /\ (now - ts < 60)%Q)
     /\ (forall ts, (60 <= now - ts)%Q -> ~ In ts kept)
     /\ exists res,
          (RateLimitRule_check st now).1 = Ok res
          /\ (passed res = false
              <-> (max_executions_per_minute st <= Z.of_nat (length kept))%Z)
          /\ execution_history after = (if passed res then kept ++ [now] else kept)
          /\ max_executions_per_minute after = max_executions_per_minute st)
  /\ max_executions_per_minute RateLimitRule_init = 10%Z
  /\ (forall times : list Q,
        length times = 11 -> in_window times ->
        (RateLimitRule_checks RateLimitRule_init times).1 = replicate 10 true ++ [false]).
Proof.
  split; [|split; [reflexivity|]].
  - intros st now kept after. split; [|split].
    + intros ts. unfold kept. rewrite List.filter_In, within_last_minute_lt. tauto.
    + intros ts Hold. unfold kept. rewrite List.filter_In, within_last_minute_lt.
      intros [_ Hnew]. exact (Qlt_not_le _ _ Hnew Hold).
    + unfold after, RateLimitRule_check. fold kept.
      destruct (Z.leb_spec (max_executions_per_minute st) (Z.of_nat (length kept)))
        as [Hfull|Hfree]; eexists; (split; [reflexivity|]); cbn.
      * repeat split; auto.
      * repeat split; auto; [discriminate | lia].
  - intros times Hlen Hw. unfold RateLimitRule_init.
    rewrite (checks_in_window times [] 10 Hw), Hlen. reflexivity.
Qed.

Lemma rate_limit_rolling_window_witness :
  (RateLimitRule_checks RateLimitRule_init
     [0; 5; 10; 15; 20; 25; 30; 35; 40; 45; 50]%Q).1
  = replicate 10 true ++ [false].
Proof.
  apply (proj2 (proj2 rate_limit_rolling_window)); [reflexivity|].
  intros i j ti tj Hij Hi Hj.
  do 11 (destruct i as [|i]; [injection Hi as <-;
    do 11 (destruct j as [|j]; [first [lia | injection Hj as <-; reflexivity]|]);
    discriminate Hj|]).
  discriminate Hi.
Defined.

(** ** The guardrails engine *)

Section CheckPlan.
Context (plan : Plan) (context : option Py.Dict) (now : Q).

Lemma severity_cases (s : string) :
  (s ∈ ["error"; "critical"] <-> s = "error" \/ s = "critical").
Proof. rewrite !elem_of_cons, elem_of_nil. tauto. Qed.

(** The effect of one iteration of the loop on each field of the verdict. *)
Lemma check_rule_fields (rule : GuardrailRule) (v : Verdict) :
  let v' := (check_rule plan context now rule v).1 in
  can_execute v' = can_execute v && negb (blocks plan context now rule)
  /\ overall_passed v' = overall_passed v && is_nil (error_entries plan context now rule)
  /\ verdict_requires_confirmation v'
     = verdict_requires_confirmation v || negb (is_nil (warning_entries plan context now rule))
  /\ errors v' = errors v ++ error_entries plan context now rule
  /\ warnings v' = warnings v ++ warning_entries plan context now rule.
Proof.
  unfold check_rule, blocks, error_entries, warning_entries, checked.
  destruct (is_rule_applicable rule plan); cbn zeta.
  2:{ cbn. rewrite !andb_true_r, !orb_false_r, !app_nil_r. auto. }
  destruct (run_check rule plan context now) as [[res|e] rule']; cbn [fst].
  2:{ cbn. rewrite !andb_true_r, !orb_false_r, !andb_false_r, !app_nil_r. auto. }
  unfold categorize. destruct (passed res); cbn [negb andb].
  { cbn. rewrite !andb_true_r, !orb_false_r, !app_nil_r. auto. }
  repeat case_bool_decide; subst; cbn;
    rewrite ?andb_true_r, ?orb_false_r, ?andb_false_r, ?orb_true_r, ?app_nil_r;
    try (repeat split; reflexivity);
    exfalso;
    repeat match goal with
           | H : _ ∈ _ |- _ => apply severity_cases in H
           | H : ¬ _ ∈ _ |- _ => rewrite severity_cases in H
           end;
    try match goal with H : severity _ = _ |- _ => rewrite H in * end;
    intuition congruence.
Qed.

(** The same for the whole loop, from any verdict [v] accumulated so far. *)
Lemma check_rules_fields (rules : list GuardrailRule) : forall v : Verdict,
  let v' := (check_rules plan context now rules v).1 in
  can_execute v' = can_execute v && forallb (fun r => negb (blocks plan context now r)) rules
  /\ overall_passed v'
     = overall_passed v && forallb (fun r => is_nil (error_entries plan context now r)) rules
  /\ verdict_requires_confirmation v'
     = verdict_requires_confirmation v
       || existsb (fun r => negb (is_nil (warning_entries plan context now r))) rules
  /\ errors v' = errors v ++ flat_map (error_entries plan context now) rules
  /\ warnings v' = warnings v ++ flat_map (warning_entries plan context now) rules.
Proof.
  induction rules as [|rule rest IH]; intros v; cbn zeta.
  { cbn. rewrite !andb_true_r, !orb_false_r, !app_nil_r. auto. }
  cbn [check_rules forallb existsb flat_map].
  pose proof (check_rule_fields rule v) as Hone. cbn zeta in Hone.
  destruct (check_rule plan context now rule v) as [v1 rule'] eqn:E1.
  specialize (IH v1). cbn zeta in IH.
  destruct (check_rules plan context now rest v1) as [v2 rest'] eqn:E2.
  cbn [fst] in *.
  destruct Hone as (H1 & H2 & H3 & H4 & H5), IH as (I1 & I2 & I3 & I4 & I5).
  rewrite I1, I2, I3, I4, I5, H1, H2, H3, H4, H5.
  rewrite !andb_assoc, !orb_assoc, <- !app_assoc. auto.
Qed.

Lemma forallb_false {A} (f : A -> bool) (l : list A) :
  forallb f l = false -> exists x, In x l /\ f x = false.
Proof.
  induction l as [|a l IH]; cbn; [discriminate|].
  destruct (f a) eqn:E; cbn.
  - intros H. destruct (IH H) as (x & Hin & Hx). eauto.
  - eauto.
Qed.

Lemma is_nil_flat_map {A B} (f : A -> list B) (l : list A) :
  is_nil (flat_map f l) = negb (existsb (fun a => negb (is_nil (f a))) l).
Proof.
  induction l as [|a l IH]; [reflexivity|].
  cbn. destruct (f a); cbn; [exact IH | reflexivity].
Qed.

Lemma fails_with_checked (rule : GuardrailRule) (res : RuleResult) :
  fails_with rule plan context now res ->
  checked rule plan context now = Some (Ok res) /\ passed res = false.
Proof.
  intros (Happ & Hrun & Hfail). unfold checked. now rewrite Happ, Hrun.
Qed.

Lemma blocks_fails (rule : GuardrailRule) :
  blocks plan context now rule = true ->
  exists res, fails_with rule plan context now res /\ severity rule = "critical".
Proof.
  unfold blocks, checked, fails_with.
  destruct (is_rule_applicable rule plan); [|discriminate].
  destruct (run_check rule plan context now).1 as [res|e]; [|discriminate].
  intros [Hp Hs]%andb_true_iff. apply negb_true_iff in Hp.
  apply bool_decide_eq_true in Hs. eauto.
Qed.

End CheckPlan.

(** C1. In every plan check, a failing rule of severity critical sets
    canExecute to false (and is an error); a failing rule of severity error
    is added to errors and sets overallPassed to false; a failing rule of
    severity warning is added to warnings and sets requiresConfirmation to
    true.  Failing rules of severity error do not set canExecute to false:
    canExecute is false only if some rule of severity critical fails. *)
Theorem check_plan_severity_effects (rules : list GuardrailRule) (plan : Plan)
    (context : option Py.Dict) (now : Q) :
  let v := (check_plan rules plan context now).1 in
  (forall rule res,
     In rule rules -> fails_with rule plan context now res ->
     (severity rule = "critical" ->
        can_execute v = false
        /\ In (rule_info rule res) (errors v) /\ overall_passed v = false)
     /\ (severity rule = "error" ->
          In (rule_info rule res) (errors v) /\ overall_passed v = false)
     /\ (severity rule = "warning" ->
          In (rule_info rule res) (warnings v)
          /\ verdict_requires_confirmation v = true))
  /\ (can_execute v = false ->
      exists rule res,
        In rule rules /\ fails_with rule plan context now res
        /\ severity rule = "critical").
Proof.
  cbn zeta. unfold check_plan.
  destruct (check_rules_fields plan context now rules (initial_verdict plan))
    as (Hcan & Hall & Hconf & Herr & Hwarn).
  cbn zeta in *. cbn [initial_verdict can_execute overall_passed errors warnings
                      verdict_requires_confirmation app andb] in *.
  split.
  - intros rule res Hin Hfails.
    destruct (fails_with_checked plan context now rule res Hfails) as [Hchk Hp].
    assert (Herrors : severity rule ∈ ["error"; "critical"] ->
              In (rule_info rule res) (errors (check_rules plan context now rules
                                                 (initial_verdict plan)).1)
              /\ overall_passed (check_rules plan context now rules
                                   (initial_verdict plan)).1 = false).
    { intros Hsev.
      assert (He : error_entries plan context now rule = [rule_info rule res]).
      { unfold error_entries. rewrite Hchk, Hp. cbn.
        now rewrite bool_decide_eq_true_2. }
      split.
      - rewrite Herr. apply in_flat_map. exists rule. rewrite He. split; [done|now left].
      - rewrite Hall. apply not_true_is_false. intros Hf.
        rewrite forallb_forall in Hf. specialize (Hf rule Hin).
        rewrite He in Hf. discriminate. }
    split; [intros Hs | split; intros Hs].
    + split.
      * rewrite Hcan. apply not_true_is_false. intros Hf.
        rewrite forallb_forall in Hf. specialize (Hf rule Hin).
        unfold blocks in Hf. rewrite Hchk, Hp in Hf. cbn in Hf.
        rewrite bool_decide_eq_true_2 in Hf; [discriminate | assumption].
      * apply Herrors. rewrite Hs. apply severity_cases. now right.
    + apply Herrors. rewrite Hs. apply severity_cases. now left.
    + assert (Hw : warning_entries plan context now rule = [rule_info rule res]).
      { unfold warning_entries. rewrite Hchk, Hp. cbn.
        now rewrite bool_decide_eq_true_2 by assumption. }
      split.
      * rewrite Hwarn. apply in_flat_map. exists rule. rewrite Hw.
        split; [done | now left].
      * rewrite Hconf. apply orb_true_iff. right.
        apply existsb_exists. exists rule. rewrite Hw. split; [done | reflexivity].
  - rewrite Hcan. intros Hf.
    destruct (forallb_false _ _ Hf) as (rule & Hin & Hb).
    apply negb_false_iff in Hb.
    destruct (blocks_fails plan context now rule Hb) as (res & Hfails & Hsev).
    eauto.
Qed.

(** C9. The verdict of a plan check starts from the plan's own
    requires_confirmation flag; if the plan requires confirmation, so does
    the verdict, whatever the rules say; the verdict requires confirmation
    exactly when the plan does or a warning was recorded; and no rule
    evaluation turns the flag from true to false. *)
Theorem check_plan_keeps_plan_confirmation (rules : list GuardrailRule) (plan : Plan)
    (context : option Py.Dict) (now : Q) :
  let v := (check_plan rules plan context now).1 in
  verdict_requires_confirmation (initial_verdict plan) = requires_confirmation plan
  /\ (requires_confirmation plan = true -> verdict_requires_confirmation v = true)
  /\ verdict_requires_confirmation v
     = requires_confirmation plan || negb (is_nil (warnings v))
  /\ (forall rule v0,
        verdict_requires_confirmation v0 = true ->
        verdict_requires_confirmation (check_rule plan context now rule v0).1 = true).
Proof.
  cbn zeta. unfold check_plan.
  destruct (check_rules_fields plan context now rules (initial_verdict plan))
    as (_ & _ & Hconf & _ & Hwarn).
  cbn zeta in *. cbn [initial_verdict warnings verdict_requires_confirmation app] in *.
  split; [reflexivity|]. split; [|split].
  - intros Hp. rewrite Hconf, Hp. reflexivity.
  - rewrite Hconf, Hwarn, is_nil_flat_map, negb_involutive. reflexivity.
  - intros rule v0 H0.
    destruct (check_rule_fields plan context now rule v0) as (_ & _ & H & _).
    cbn zeta in H. rewrite H, H0. reflexivity.
Qed.

(** ** Validation and the execution decision *)

Lemma is_nil_snoc {A} (l : list A) (x : A) : is_nil (l ++ [x]) = false.
Proof. destruct l; reflexivity. Qed.

Lemma add_error_consistent (msg : string) (v : Validation) :
  consistent (add_error msg v).
Proof. unfold consistent. cbn. now rewrite is_nil_snoc. Qed.

Lemma add_warning_consistent (msg : string) (v : Validation) :
  consistent v -> consistent (add_warning msg v).
Proof. intros H. exact H. Qed.

Lemma validate_action_consistent (env : Env) (action : Action) (av : Validation) :
  validate_action env action = Ok av -> consistent av.
Proof.
  unfold validate_action.
  set (v0 := {| valid := true; validation_errors := []; validation_warnings := [] |}).
  assert (H0 : consistent v0) by reflexivity.
  set (v1 := if String.eqb (description action) "" then _ else v0).
  assert (H1 : consistent v1).
  { unfold v1. destruct (String.eqb _ _); [apply add_warning_consistent|]; exact H0. }
  set (v2 := if is_type_text action && _ then _ else v1).
  assert (H2 : consistent v2).
  { unfold v2. destruct (_ && _); [apply add_error_consistent | exact H1]. }
  clearbody v2. clear v0 v1 H0 H1.
  destruct (Py.get (parameters action) "skill_name") as [skill_name|].
  2:{ intros [= <-]. exact H2. }
  destruct (Skills.get_skill _ _) as [[sk|]|e]; cbn.
  - destruct (Skills.validate_parameters sk _) as [[|]|e]; cbn.
    + intros [= <-]. exact H2.
    + intros [= <-]. apply add_error_consistent.
    + discriminate.
  - intros [= <-]. apply add_error_consistent.
  - discriminate.
Qed.

Lemma merge_action_validation_consistent (i : nat) (av v : Validation) :
  consistent av -> consistent v -> consistent (merge_action_validation i av v).
Proof.
  unfold consistent, merge_action_validation. cbn. intros Hav Hv.
  rewrite Hav, Hv. destruct (validation_errors av) as [|e es]; cbn.
  - now rewrite andb_true_r.
  - rewrite andb_false_r. now destruct (validation_errors v).
Qed.

Lemma validate_actions_consistent (env : Env) (acts : list Action) :
  forall (i : nat) (v : Validation),
    consistent v -> consistent (validate_actions env i acts v).1.
Proof.
  induction acts as [|a rest IH]; intros i v Hv; cbn; [exact Hv|].
  destruct (validate_action env a) as [av|e] eqn:E; cbn; [|exact Hv].
  apply IH, merge_action_validation_consistent; [|exact Hv].
  eapply validate_action_consistent, E.
Qed.

(** [validate_plan] is valid exactly when it reports no error. *)
Lemma validate_plan_consistent (env : Env) (p : Plan) :
  consistent (validate_plan env p).
Proof.
  unfold validate_plan.
  set (v0 := match actions p with [] => _ | _ :: _ => _ end).
  assert (H0 : consistent v0).
  { unfold v0. destruct (actions p); [apply add_error_consistent | reflexivity]. }
  pose proof (validate_actions_consistent env (actions p) 0 v0 H0) as H.
  destruct (validate_actions env 0 (actions p) v0) as [v [e|]]; cbn in *.
  - apply add_error_consistent.
  - exact H.
Qed.

(** The decision taken from a consistent validation. *)
Lemma make_execution_decision_blocking (pv : Validation) (sc : Verdict) :
  consistent pv ->
  let d := make_execution_decision pv sc in
  blocking_reasons d
  = validation_errors pv
    ++ (if can_execute sc then [] else info_message <$> errors sc)
  /\ (approved d = true <-> blocking_reasons d = []).
Proof.
  intros Hpv. cbn zeta. unfold make_execution_decision.
  assert (Hv : (if valid pv then [] else validation_errors pv) = validation_errors pv).
  { rewrite Hpv. now destruct (validation_errors pv). }
  rewrite Hv.
  destruct (validation_errors pv ++ _) as [|b bs] eqn:E; cbn.
  - split; [reflexivity | tauto].
  - split; [reflexivity|]. split; discriminate.
Qed.

(** What [create_plan] returns when it returns. *)
Lemma create_plan_result (env : Env) (plan_id : string) (now : Q) (st : State)
    (i : Intent) (context : option Py.Dict) (optimize : bool)
    (result : PlanningResult) (st' : State) :
  create_plan env plan_id now st i context optimize = (Ok result, st') ->
  result_validation result = validate_plan env (result_plan result)
  /\ result_security_check result
     = (check_plan (rules st) (result_plan result) context now).1
  /\ result_execution_decision result
     = make_execution_decision (result_validation result) (result_security_check result).
Proof.
  unfold create_plan, plan_and_decide.
  destruct (generate_plan env plan_id i context) as [p|e]; cbn; [|discriminate].
  destruct (check_plan _ _ _ _) as [sc engine'] eqn:E. cbn.
  intros [= <- _]. cbn. rewrite E. auto.
Qed.

(** C2. For every decision that [create_plan] returns, the blocking reasons
    are the validation errors followed by the messages of the guardrail
    errors, the latter only when the verdict's canExecute is false, and the
    decision is approved if and only if there is no blocking reason. *)
Theorem approved_iff_no_blocking_reason (env : Env) (plan_id : string) (now : Q)
    (st : State) (i : Intent) (context : option Py.Dict) (optimize : bool)
    (result : PlanningResult) (st' : State) :
  create_plan env plan_id now st i context optimize = (Ok result, st') ->
  let d := result_execution_decision result in
  blocking_reasons d
  = validation_errors (result_validation result)
    ++ (if can_execute (result_security_check result) then []
        else info_message <$> errors (result_security_check result))
  /\ (approved d = true <-> blocking_reasons d = []).
Proof.
  intros H. destruct (create_plan_result _ _ _ _ _ _ _ _ _ H) as (Hv & _ & Hd).
  cbn zeta. rewrite Hd.
  apply make_execution_decision_blocking. rewrite Hv. apply validate_plan_consistent.
Qed.

(** C6 as stated fails: a request to write a text file without a content
    is rejected (the skill refuses its parameters); the verdict requires
    confirmation, as the plan does, yet the decision does not. *)
Lemma rejected_decision_requires_no_confirmation :
  exists result,
    (create_plan Examples.example_env "plan-1" 0 (init Examples.example_env)
       Examples.write_without_content None true).1 = Ok result
    /\ approved (result_execution_decision result) = false
    /\ decision_requires_confirmation (result_execution_decision result) = false
    /\ (verdict_requires_confirmation (result_security_check result)
        || negb (is_nil (decision_warnings (result_execution_decision result)))) = true.
Proof. eexists. split; [vm_compute; reflexivity|]. repeat split. Qed.

(** C6, amended. An approved decision requires confirmation exactly when the
    verdict does or the decision carries a warning; a rejected decision
    never requires confirmation. *)
Theorem confirmation_of_decision (pv : Validation) (sc : Verdict) :
  let d := make_execution_decision pv sc in
  decision_warnings d = validation_warnings pv ++ (info_message <$> warnings sc)
  /\ decision_requires_confirmation d
     = approved d
       && (verdict_requires_confirmation sc || negb (is_nil (decision_warnings d))).
Proof.
  cbn zeta. unfold make_execution_decision.
  destruct (_ ++ _) as [|b bs]; cbn; (split; [reflexivity|]); [|reflexivity].
  f_equal. now destruct (validation_warnings pv ++ _).
Qed.

(** ** Intents without a template *)

(** C5 as stated fails: for an intent that was not understood,
    [create_plan] raises a [PlannerError] that is not a
    [PlanGenerationError]. *)
Lemma create_plan_raises_planner_error :
  exists e,
    (create_plan Examples.example_env "plan-1" 0 (init Examples.example_env)
       Examples.not_understood None true).1 = Raise e
    /\ exc_class e = PlannerError
    /\ isinstance e PlanGenerationError = false.
Proof. eexists. split; [vm_compute; reflexivity|]. split; reflexivity. Qed.

(** C5, amended. For an intent whose type has no template, [generate_plan]
    raises a [PlanGenerationError]; [create_plan] raises a [PlannerError]
    whose message carries that of the [PlanGenerationError], counts the
    attempt as generated and as rejected, and leaves the plan cache, the
    approved count and the guardrail rules as they were. *)
Theorem create_plan_without_template (env : Env) (plan_id : string) (now : Q)
    (st : State) (i : Intent) (context : option Py.Dict) (optimize : bool) :
  templates (intent_type i) = None ->
  exists e_gen e st',
    generate_plan env plan_id i context = Raise e_gen
    /\ exc_class e_gen = PlanGenerationError
    /\ create_plan env plan_id now st i context optimize = (Raise e, st')
    /\ exc_class e = PlannerError
    /\ exc_message e = ("Erreur planification: " ++ str_exc e_gen)%string
    /\ plans_rejected st' = S (plans_rejected st)
    /\ plans_generated st' = S (plans_generated st)
    /\ plans_approved st' = plans_approved st
    /\ plan_cache st' = plan_cache st
    /\ rules st' = rules st.
Proof.
  intros Hnone.
  assert (Hgen : generate_plan env plan_id i context
                 = Raise (mkException PlanGenerationError
                            ("Erreur génération plan: "
                             ++ ("Pas de template pour "
                                 ++ IntentType.value (intent_type i)))%string)).
  { unfold generate_plan, generate_plan_body. rewrite Hnone. reflexivity. }
  do 3 eexists. split; [exact Hgen|]. split; [reflexivity|].
  unfold create_plan, plan_and_decide. rewrite Hgen. cbn.
  repeat split; reflexivity.
Qed.

Lemma create_plan_without_template_witness :
  exists e st',
    create_plan Examples.example_env "plan-1" 0 (init Examples.example_env)
      Examples.not_understood None true = (Raise e, st')
    /\ plans_rejected st' = 1
    /\ plan_cache st' = ∅.
Proof.
  destruct (create_plan_without_template Examples.example_env "plan-1" 0
              (init Examples.example_env) Examples.not_understood None true
              eq_refl)
    as (e_gen & e & st' & _ & _ & Hc & _ & _ & Hr & _ & _ & Hk & _).
  exists e, st'. split; [exact Hc|]. split; [exact Hr | exact Hk].
Defined.

(** ** Optimisation *)

(** C3 fails on the plan generated for "open Notepad": its second action
    invokes the skill [open_app], and the optimised plan has no action that
    invokes a skill. *)
Lemma optimize_plan_drops_skill_invocation :
  exists p invocation,
    generate_plan Examples.example_env "plan-1" Examples.open_notepad None = Ok p
    /\ actions p !! 1 = Some invocation
    /\ Py.get (parameters invocation) "skill_name" = Some (Py.VStr "open_app")
    /\ action_type <$> actions (optimize_plan p None)
       = [ActionType.SCREENSHOT; ActionType.WAIT]
    /\ forallb (fun a => negb (Py.contains_key (parameters a) "skill_name"))
         (actions (optimize_plan p None)) = true.
Proof.
  do 2 eexists. split; [vm_compute; reflexivity|].
  split; [reflexivity|]. split; [reflexivity|]. split; vm_compute; reflexivity.
Qed.

(** The merge works on pairs: of three consecutive text entries the first
    two are merged and the third is kept as it is. *)
Lemma merge_similar_actions_is_pairwise :
  exists merged,
    merge_similar_actions Examples.three_entries = Ok merged
    /\ map (fun a => Py.get (parameters a) "text") merged
       = [Some (Py.VStr "ab"); Some (Py.VStr "c")].
Proof. eexists. split; [vm_compute; reflexivity | reflexivity]. Qed.

(** ** The execution loop *)

Section ExecutionLoop.
Context {W : Type} (collab : Collaborators W).

Lemma loop_step_next (p : Plan) (session : string) (l l' : Loop W) :
  loop_step collab p session l = Some l' ->
  broken l = false
  /\ exists action,
       actions p !! next_index l = Some action
       /\ l' = {| next_index := S (next_index l);
                  results := results l
                             ++ [(execute_action collab (world l) action session
                                    (next_index l)).1];
                  broken := bool_decide
                              (status (execute_action collab (world l) action session
                                         (next_index l)).1 = StepStatus.FAILED);
                  world := (execute_action collab (world l) action session
                              (next_index l)).2 |}.
Proof.
  unfold loop_step. destruct (broken l); [discriminate|].
  destruct (actions p !! next_index l) as [action|]; [|discriminate].
  destruct (execute_action _ _ _ _ _) as [r w'] eqn:E.
  intros [= <-]. split; [reflexivity|]. exists action. rewrite E. split; reflexivity.
Qed.

(** Executing one more action after a list of actions. *)
Lemma execute_actions_snoc (session : string) (acts : list Action) (action : Action) :
  forall (w : W) (i : nat),
    execute_actions collab w (acts ++ [action]) session i
    = (let rw := execute_actions collab w acts session i in
       let rw' := execute_action collab rw.2 action session (i + length acts) in
       (rw.1 ++ [rw'.1], rw'.2)).
Proof.
  induction acts as [|a rest IH]; intros w i; cbn [app execute_actions length].
  - rewrite Nat.add_0_r. cbn. destruct (execute_action _ _ _ _ _). reflexivity.
  - destruct (execute_action collab w a session i) as [r w1].
    rewrite IH. cbn zeta.
    destruct (execute_actions collab w1 rest session (S i)) as [rs w2]. cbn.
    replace (i + S (length rest)) with (S i + length rest) by lia.
    destruct (execute_action collab w2 action session _). reflexivity.
Qed.

Lemma loop_invariant_start (p : Plan) (session : string) (w : W) :
  loop_invariant collab p w session (loop_start w).
Proof.
  unfold loop_invariant; cbn.
  split; [reflexivity|]. split; [lia|]. split; [reflexivity|]. split; [split|].
  - discriminate.
  - intros (r & Hr & _). discriminate.
  - intros k r Hk. rewrite lookup_nil in Hk. discriminate.
Qed.

Lemma loop_invariant_step (p : Plan) (session : string) (w : W) (l l' : Loop W) :
  loop_invariant collab p w session l -> loop_step collab p session l = Some l' ->
  loop_invariant collab p w session l'.
Proof.
  intros (Hidx & Hlen & Hrun & Hbrk & Hprev) Hstep.
  destruct (loop_step_next p session l l' Hstep) as (Hnb & action & Hact & ->).
  set (r := (execute_action collab (world l) action session (next_index l)).1).
  unfold loop_invariant; cbn [next_index results broken world].
  rewrite length_app; cbn [length].
  split; [lia|]. split; [apply lookup_lt_Some in Hact; lia|]. split; [|split].
  - rewrite Nat.add_1_r. rewrite Hidx in Hact.
    rewrite (take_S_r _ _ _ Hact), execute_actions_snoc. cbn zeta.
    rewrite <- Hrun. cbn [fst snd].
    rewrite length_take, Nat.min_l by (apply lookup_lt_Some in Hact; lia).
    unfold r. rewrite Hidx, Nat.add_0_l. reflexivity.
  - rewrite last_snoc, bool_decide_eq_true. split.
    + intros H. exists r. auto.
    + intros (r' & [= <-] & H). exact H.
  - intros k r' Hk Hlt.
    assert (Hk' : results l !! k = Some r') by (rewrite lookup_app_l in Hk by lia; exact Hk).
    destruct (decide (S k < length (results l))) as [Hin|Hlast]; [eauto|].
    intros Hfail. assert (Hb : broken l = true); [|congruence].
    apply Hbrk. exists r'. split; [|exact Hfail].
    rewrite last_lookup. replace (pred (length (results l))) with k by lia. exact Hk'.
Qed.

Lemma loop_reaches_invariant (p : Plan) (session : string) (w : W) (l : Loop W) :
  loop_reaches collab p session w l -> loop_invariant collab p w session l.
Proof.
  induction 1 as [|l l' _ IH Hstep].
  - apply loop_invariant_start.
  - eapply loop_invariant_step; eassumption.
Qed.

Lemma run_loop_reaches (p : Plan) (session : string) (w : W) (fuel : nat) :
  forall l, loop_reaches collab p session w l ->
            loop_reaches collab p session w (run_loop collab fuel p session l).
Proof.
  induction fuel as [|fuel IH]; intros l Hl; cbn; [exact Hl|].
  destruct (loop_step collab p session l) as [l'|] eqn:E; [|exact Hl].
  apply IH. eapply reaches_step; eassumption.
Qed.

(** With one unit of fuel per remaining action the loop runs to its end. *)
Lemma run_loop_ends (p : Plan) (session : string) (fuel : nat) :
  forall l, length (actions p) <= next_index l + fuel ->
            loop_step collab p session (run_loop collab fuel p session l) = None.
Proof.
  induction fuel as [|fuel IH]; intros l Hfuel; cbn.
  - unfold loop_step. destruct (broken l); [reflexivity|].
    rewrite lookup_ge_None_2 by lia. reflexivity.
  - destruct (loop_step collab p session l) as [l'|] eqn:E; [|exact E].
    apply IH. destruct (loop_step_next p session l l' E) as (_ & a & _ & ->). cbn. lia.
Qed.

(** At the end of the loop, fewer results than actions means that the loop
    was broken. *)
Lemma loop_end_short (p : Plan) (session : string) (w : W) (l : Loop W) :
  loop_invariant collab p w session l -> loop_step collab p session l = None ->
  length (results l) < length (actions p) -> broken l = true.
Proof.
  intros (Hidx & _) Hend Hshort. unfold loop_step in Hend.
  destruct (broken l); [reflexivity|].
  destruct (actions p !! next_index l) as [a|] eqn:E.
  - destruct (execute_action _ _ _ _ _). discriminate.
  - apply lookup_ge_None_1 in E. lia.
Qed.

(** The steps an execution can take from its start, put together. *)
Lemma run_loop_final (p : Plan) (session : string) (w : W) :
  let l := run_loop collab (length (actions p)) p session (loop_start w) in
  loop_reaches collab p session w l
  /\ loop_step collab p session l = None
  /\ (length (results l) < length (actions p) ->
      exists r, last (results l) = Some r /\ status r = StepStatus.FAILED).
Proof.
  cbn zeta.
  assert (Hreach : loop_reaches collab p session w
                     (run_loop collab (length (actions p)) p session (loop_start w))).
  { apply run_loop_reaches, reaches_start. }
  assert (Hend : loop_step collab p session
                   (run_loop collab (length (actions p)) p session (loop_start w)) = None).
  { apply run_loop_ends. cbn. lia. }
  split; [exact Hreach|]. split; [exact Hend|]. intros Hshort.
  pose proof (loop_reaches_invariant p session w _ Hreach) as Hinv.
  pose proof (loop_end_short p session w _ Hinv Hend Hshort) as Hb.
  destruct Hinv as (_ & _ & _ & Hbrk & _). apply Hbrk, Hb.
Qed.

(** The session that [execute_plan] leaves holds the results of the loop
    run from the world after the first observation, and the world returned
    is the one that the last observation leaves. *)
Lemma execute_plan_session (cache : gmap string Plan) (plan_id session : string)
    (w : W) (out : Result ExecutionReport) (s : ExecutionSession) (w' : W) :
  execute_plan collab cache plan_id session w = (out, Some s, w') ->
  exists p w0,
    cache !! plan_id = Some p
    /\ plan s = p
    /\ step_results s
       = results (run_loop collab (length (actions p)) p session (loop_start w0))
    /\ w0 = (observe collab w).2
    /\ w' = (observe collab
               (world (run_loop collab (length (actions p)) p session (loop_start w0)))).2.
Proof.
  unfold execute_plan.
  destruct (cache !! plan_id) as [p|]; [|discriminate].
  destruct (observe collab w) as [[[]|e] w0]; [|discriminate].
  destruct (observe collab (world _)) as [[[]|e] w1] eqn:E; intros [= _ <- <-];
    exists p, w0; (repeat split; try reflexivity); rewrite E; reflexivity.
Qed.

(** *** Primitive actions *)

Lemma execute_action_primitive (w : W) (action : Action) (session : string) (i : nat) :
  is_primitive action ->
  execute_action collab w action session i = (skipped session i, w).
Proof. unfold execute_action, is_primitive. intros ->. reflexivity. Qed.

Lemma primitive_loop_invariant (p : Plan) (session : string) (w : W) (l : Loop W) :
  Forall is_primitive (actions p) ->
  loop_reaches collab p session w l ->
  Forall (fun r => status r = StepStatus.SKIPPED) (results l)
  /\ broken l = false /\ world l = w.
Proof.
  intros Hprim. induction 1 as [|l l' _ (Hres & Hb & Hw) Hstep].
  - cbn. auto.
  - destruct (loop_step_next p session l l' Hstep) as (_ & action & Hact & ->).
    rewrite execute_action_primitive.
    2:{ eapply Forall_lookup_1; eassumption. }
    cbn. split; [|split; [reflexivity | exact Hw]].
    apply Forall_app. split; [exact Hres|]. constructor; [reflexivity | constructor].
Qed.

Lemma no_success_rate (s : ExecutionSession) :
  Forall (fun r => status r = StepStatus.SKIPPED) (step_results s) ->
  final_status s = StepStatus.FAILED.
Proof.
  intros Hall. unfold final_status.
  destruct (Qltb (8 # 10) (success_rate s)) eqn:E; [|reflexivity].
  exfalso. apply Qltb_lt in E. revert E. apply Qle_not_lt.
  assert (Hz : successful (step_results s) = 0).
  { unfold successful. induction Hall as [|r rs Hr _ IH]; [reflexivity|].
    cbn. unfold is_success at 1. rewrite Hr. cbn. exact IH. }
  unfold success_rate. destruct (step_results s); [discriminate|].
  rewrite Hz. cbn [Z.of_nat]. unfold Qdiv. rewrite Qmult_0_l. discriminate.
Qed.

(** C10. An action whose parameters have no [skill_name] entry yields a
    SKIPPED step result and leaves the world untouched, whatever the skill
    collaborator is: it is never dispatched.  A step that ends SKIPPED does
    not break the loop, and does not count as a success.  So the execution
    of a plan made of such actions only runs every step, none of which is
    FAILED, and leaves the session FAILED. *)
Theorem primitive_actions_are_skipped (p : Plan) (session : string) (w : W) :
  (forall w0 action i,
     is_primitive action ->
     execute_action collab w0 action session i = (skipped session i, w0))
  /\ (forall l l' r,
        loop_step collab p session l = Some l' ->
        last (results l') = Some r -> status r = StepStatus.SKIPPED ->
        broken l' = false /\ next_index l' = S (next_index l))
  /\ (forall r rs,
        status r = StepStatus.SKIPPED ->
        is_success r = false /\ successful (rs ++ [r]) = successful rs)
  /\ (forall cache plan_id,
        cache !! plan_id = Some p ->
        Forall is_primitive (actions p) ->
        (forall w0, (observe collab w0).1 = Ok tt) ->
        exists report s w',
          execute_plan collab cache plan_id session w = (Ok report, Some s, w')
          /\ session_status s = StepStatus.FAILED
          /\ report_success report = false
          /\ length (step_results s) = length (actions p)
          /\ Forall (fun r => status r = StepStatus.SKIPPED) (step_results s)
          /\ Forall (fun r => status r <> StepStatus.FAILED) (step_results s)).
Proof.
  split; [|split; [|split]].
  - intros w0 action i Hprim. apply execute_action_primitive, Hprim.
  - intros l l' r Hstep Hlast Hskip.
    destruct (loop_step_next p session l l' Hstep) as (_ & action & _ & ->).
    cbn in *. rewrite last_snoc in Hlast. injection Hlast as ->.
    rewrite Hskip. split; reflexivity.
  - intros r rs Hskip. unfold successful, is_success.
    assert (Hr : bool_decide (status r = StepStatus.SUCCESS) = false)
      by (rewrite Hskip; reflexivity).
    split; [exact Hr|].
    rewrite List.filter_app, length_app. cbn [List.filter]. rewrite Hr. cbn. lia.
  - intros cache plan_id Hcache Hprim Hobs.
    unfold execute_plan. rewrite Hcache.
    pose proof (Hobs w) as Ho. destruct (observe collab w) as [[[]|e] w0]; [|discriminate].
    clear Ho.
    destruct (run_loop_final p session w0) as (Hreach & Hend & _).
    set (l := run_loop collab (length (actions p)) p session (loop_start w0)) in *.
    pose proof (loop_reaches_invariant p session w0 l Hreach) as Hinv.
    destruct (primitive_loop_invariant p session w0 l Hprim Hreach) as (Hall & Hb & _).
    assert (Hlen : length (results l) = length (actions p)).
    { destruct (decide (length (results l) < length (actions p))) as [Hshort|Hfull].
      - pose proof (loop_end_short p session w0 l Hinv Hend Hshort). congruence.
      - destruct Hinv as (_ & Hle & _). lia. }
    pose proof (Hobs (world l)) as Ho.
    destruct (observe collab (world l)) as [[[]|e] w1]; [|discriminate].
    assert (Hfinal : final_status
                       (with_results
                          {| session_id := session; plan := p;
                             session_status := StepStatus.RUNNING; step_results := [] |}
                          StepStatus.RUNNING (results l)) = StepStatus.FAILED).
    { apply no_success_rate. exact Hall. }
    do 3 eexists. split; [reflexivity|]. cbn. rewrite Hfinal.
    split; [reflexivity|]. split; [reflexivity|]. split; [exact Hlen|].
    split; [exact Hall|].
    eapply Forall_impl; [exact Hall|]. intros r ->. discriminate.
Qed.

End ExecutionLoop.

(** *** Fail-fast *)





(** ** The properties on concrete inputs *)

Lemma success_rate_spec_witness :
  success_rate Examples.half_done = (inject_Z 1 / inject_Z 2)%Q.
Proof.
  apply (proj1 (proj2 (success_rate_spec Examples.half_done))). discriminate.
Defined.

Lemma check_plan_severity_effects_witness :
  can_execute (check_plan [Examples.always_fails "critical"]
                 Examples.wait_plan None 0).1 = false.
Proof.
  refine (proj1 (proj1 (proj1 (check_plan_severity_effects
                                 [Examples.always_fails "critical"]
                                 Examples.wait_plan None 0)
                          (Examples.always_fails "critical") (fail "no" []) _ _) _)).
  - left. reflexivity.
  - split; [reflexivity|]. split; reflexivity.
  - reflexivity.
Defined.

Lemma check_plan_keeps_plan_confirmation_witness :
  verdict_requires_confirmation
    (check_plan [RateLimitRule RateLimitRule_init] Examples.confirm_plan None 0).1 = true.
Proof.
  apply (proj1 (proj2 (check_plan_keeps_plan_confirmation
                         [RateLimitRule RateLimitRule_init]
                         Examples.confirm_plan None 0))).
  reflexivity.
Defined.

Lemma approved_iff_no_blocking_reason_witness :
  exists result,
    (create_plan Examples.example_env "plan-1" 0 (init Examples.example_env)
       Examples.open_notepad None true).1 = Ok result
    /\ (approved (result_execution_decision result) = true
        <-> blocking_reasons (result_execution_decision result) = []).
Proof.
  destruct (create_plan Examples.example_env "plan-1" 0 (init Examples.example_env)
              Examples.open_notepad None true) as [[result|e] st'] eqn:E.
  - exists result. split; [reflexivity|].
    apply (approved_iff_no_blocking_reason _ _ _ _ _ _ _ _ _ E).
  - exfalso. apply (f_equal fst) in E. vm_compute in E. discriminate E.
Defined.


Lemma primitive_actions_are_skipped_witness :
  exists report s w',
    execute_plan Examples.counting {[ "plan-wait" := Examples.wait_plan ]}
      "plan-wait" "s" 0 = (Ok report, Some s, w')
    /\ session_status s = StepStatus.FAILED
    /\ Forall (fun r => status r <> StepStatus.FAILED) (step_results s).
Proof.
  destruct (proj2 (proj2 (proj2 (primitive_actions_are_skipped Examples.counting
                                   Examples.wait_plan "s" 0)))
              {[ "plan-wait" := Examples.wait_plan ]} "plan-wait")
    as (report & s & w' & Hexec & Hfailed & _ & _ & _ & Hnone).
  - reflexivity.
  - repeat constructor.
  - intros w0. reflexivity.
  - exists report, s, w'. auto.
Defined.

(** * Further properties of the code *)

Import Engine.

(** ** The rate limit rule over time *)

Lemma RateLimitRule_check_limit (st : RateLimitState) (now : Q) :
  max_executions_per_minute (RateLimitRule_check st now).2
  = max_executions_per_minute st.
Proof.
  unfold RateLimitRule_check. destruct (_ <=? _)%Z; reflexivity.
Qed.

Lemma RateLimitRule_check_length (st : RateLimitState) (now : Q) :
  (Z.of_nat (length (execution_history (RateLimitRule_check st now).2))
   <= Z.max (max_executions_per_minute st)
            (Z.of_nat (length (execution_history st))))%Z.
Proof.
  unfold RateLimitRule_check.
  pose proof (List.filter_length_le (within_last_minute now) (execution_history st)) as Hle.
  destruct (Z.leb_spec (max_executions_per_minute st)
              (Z.of_nat (length (List.filter (within_last_minute now)
                                   (execution_history st))))) as [Hfull|Hfree]; cbn.
  - lia.
  - rewrite length_app. cbn. lia.
Qed.

(** X1. Whatever the clock readings, a rate limit rule never stores more
    timestamps than its limit, or than it held at the start if that was
    more; its limit never changes.  A new rule never holds more than 10. *)
Theorem rate_limit_history_is_bounded (times : list Q) :
  (forall st : RateLimitState,
     let st' := (RateLimitRule_checks st times).2 in
     max_executions_per_minute st' = max_executions_per_minute st
     /\ (Z.of_nat (length (execution_history st'))
         <= Z.max (max_executions_per_minute st)
                  (Z.of_nat (length (execution_history st))))%Z)
  /\ length (execution_history (RateLimitRule_checks RateLimitRule_init times).2) <= 10.
Proof.
  assert (Hgen : forall st : RateLimitState,
            max_executions_per_minute (RateLimitRule_checks st times).2
            = max_executions_per_minute st
            /\ (Z.of_nat (length (execution_history (RateLimitRule_checks st times).2))
                <= Z.max (max_executions_per_minute st)
                         (Z.of_nat (length (execution_history st))))%Z).
  { induction times as [|t rest IH]; intros st; cbn [RateLimitRule_checks].
    - cbn. split; [reflexivity | lia].
    - pose proof (RateLimitRule_check_limit st t) as Hl.
      pose proof (RateLimitRule_check_length st t) as Hn.
      destruct (RateLimitRule_check st t) as [r st1]. cbn [snd] in *.
      specialize (IH st1).
      destruct (RateLimitRule_checks st1 rest) as [rs st2]. cbn [snd] in *.
      destruct IH as [IH1 IH2]. split; [congruence|]. rewrite Hl in IH2. lia. }
  split; [exact Hgen|].
  destruct (Hgen RateLimitRule_init) as [_ H]. cbn in H. lia.
Qed.

Lemma Qminus_self_lt (now : Q) : (now - now < 60)%Q.
Proof.
  unfold Qminus. rewrite Qplus_opp_r. reflexivity.
Qed.

(** X2. If all the timestamps a rate limit rule holds are 60 seconds old or
    more and its limit is positive, the check passes, however full the
    history was, and the history becomes just the current timestamp: the
    rule recovers after a quiet minute. *)
Theorem rate_limit_recovers (st : RateLimitState) (now : Q) :
  Forall (fun ts => (60 <= now - ts)%Q) (execution_history st) ->
  (0 < max_executions_per_minute st)%Z ->
  exists res,
    (RateLimitRule_check st now).1 = Ok res
    /\ passed res = true
    /\ execution_history (RateLimitRule_check st now).2 = [now].
Proof.
  intros Hold Hpos. unfold RateLimitRule_check.
  assert (Hkept : List.filter (within_last_minute now) (execution_history st) = []).
  { induction Hold as [|ts rest Hts _ IH]; [reflexivity|]. cbn.
    destruct (within_last_minute now ts) eqn:E; [|exact IH].
    apply within_last_minute_lt in E. exfalso. revert E. apply Qle_not_lt, Hts. }
  rewrite Hkept. cbn [length].
  destruct (Z.leb_spec (max_executions_per_minute st) (Z.of_nat 0)); [lia|].
  eexists. split; [reflexivity|]. split; reflexivity.
Qed.

Lemma rate_limit_recovers_witness :
  exists res,
    (RateLimitRule_check
       {| execution_history := [0; 1; 2; 3; 4; 5; 6; 7; 8; 9]%Q;
          max_executions_per_minute := 10 |} 70).1 = Ok res
    /\ passed res = true.
Proof.
  destruct (rate_limit_recovers
              {| execution_history := [0; 1; 2; 3; 4; 5; 6; 7; 8; 9]%Q;
                 max_executions_per_minute := 10 |} 70) as (res & H1 & H2 & _).
  - repeat constructor; discriminate.
  - reflexivity.
  - exists res. split; assumption.
Defined.

(** X3. After a check at [now], passed or not, every timestamp the rule
    still holds is less than 60 seconds old. *)
Theorem rate_limit_history_is_fresh (st : RateLimitState) (now : Q) :
  Forall (fun ts => (now - ts < 60)%Q) (execution_history (RateLimitRule_check st now).2).
Proof.
  assert (Hkept : Forall (fun ts => (now - ts < 60)%Q)
                    (List.filter (within_last_minute now) (execution_history st))).
  { apply List.Forall_forall. intros ts [_ H]%List.filter_In.
    apply within_last_minute_lt, H. }
  unfold RateLimitRule_check. destruct (_ <=? _)%Z; cbn; [exact Hkept|].
  apply Forall_app. split; [exact Hkept|]. constructor; [apply Qminus_self_lt | constructor].
Qed.

(** ** The verdict of the engine *)

Section Verdicts.
Context (plan : Plan) (context : option Py.Dict) (now : Q).

Lemma check_rule_results (rule : GuardrailRule) (v : Verdict) :
  rule_results (check_rule plan context now rule v).1
  = rule_results v ++ result_entries plan context now rule.
Proof.
  unfold check_rule, result_entries, checked.
  destruct (is_rule_applicable rule plan); [|cbn; now rewrite app_nil_r].
  destruct (run_check rule plan context now) as [[res|e] rule']; cbn [fst].
  - unfold categorize. destruct (passed res); [reflexivity|].
    repeat case_bool_decide; reflexivity.
  - reflexivity.
Qed.

Lemma check_rules_results (rules : list GuardrailRule) : forall v : Verdict,
  rule_results (check_rules plan context now rules v).1
  = rule_results v ++ flat_map (result_entries plan context now) rules.
Proof.
  induction rules as [|rule rest IH]; intros v; cbn [check_rules flat_map].
  - cbn. now rewrite app_nil_r.
  - pose proof (check_rule_results rule v) as H1.
    destruct (check_rule plan context now rule v) as [v1 rule'].
    specialize (IH v1).
    destruct (check_rules plan context now rest v1) as [v2 rest'].
    cbn [fst] in *. now rewrite IH, H1, <- app_assoc.
Qed.

(** A check leaves the name, the severity and the scope of a rule alone. *)
Lemma check_rule_attributes (rule : GuardrailRule) (v : Verdict) :
  attributes (check_rule plan context now rule v).2 = attributes rule.
Proof.
  unfold check_rule, run_check.
  destruct (is_rule_applicable rule plan); [|reflexivity].
  destruct (check rule (state rule) plan context now) as [r st]. reflexivity.
Qed.

Lemma check_rules_attributes (rules : list GuardrailRule) : forall v : Verdict,
  map attributes (check_rules plan context now rules v).2 = map attributes rules.
Proof.
  induction rules as [|rule rest IH]; intros v; cbn [check_rules]; [reflexivity|].
  pose proof (check_rule_attributes rule v) as H1.
  destruct (check_rule plan context now rule v) as [v1 rule'].
  specialize (IH v1).
  destruct (check_rules plan context now rest v1) as [v2 rest'].
  cbn [snd map] in *. now rewrite IH, H1.
Qed.

Lemma forallb_is_nil {A B} (f : A -> list B) (l : list A) :
  forallb (fun a => is_nil (f a)) l = is_nil (flat_map f l).
Proof.
  induction l as [|a l IH]; [reflexivity|].
  cbn. destruct (f a); cbn; [exact IH | reflexivity].
Qed.

Lemma blocks_error_entries (rule : GuardrailRule) :
  blocks plan context now rule = true ->
  is_nil (error_entries plan context now rule) = false.
Proof.
  unfold blocks, error_entries.
  destruct (checked rule plan context now) as [[res|e]|]; try discriminate.
  intros [Hp Hs]%andb_true_iff. rewrite Hp. apply bool_decide_eq_true in Hs.
  rewrite bool_decide_eq_true_2; [reflexivity|]. rewrite Hs. apply severity_cases. now right.
Qed.

Lemma entries_in_results (rule : GuardrailRule) :
  incl (error_entries plan context now rule) (result_entries plan context now rule)
  /\ incl (warning_entries plan context now rule) (result_entries plan context now rule).
Proof.
  unfold error_entries, warning_entries, result_entries.
  destruct (checked rule plan context now) as [[res|e]|]; split;
    try apply incl_refl; try apply incl_nil_l;
    destruct (_ && _); try apply incl_refl; apply incl_nil_l.
Qed.

Lemma length_result_entries (rule : GuardrailRule) :
  length (result_entries plan context now rule)
  = if is_rule_applicable rule plan then 1 else 0.
Proof.
  unfold result_entries, checked. destruct (is_rule_applicable rule plan); [|reflexivity].
  now destruct (run_check rule plan context now).1.
Qed.

Lemma length_results (rules : list GuardrailRule) :
  length (flat_map (result_entries plan context now) rules)
  = length (List.filter (fun r => is_rule_applicable r plan) rules).
Proof.
  induction rules as [|r rest IH]; [reflexivity|].
  cbn [flat_map List.filter]. rewrite length_app, length_result_entries, IH.
  destruct (is_rule_applicable r plan); reflexivity.
Qed.

End Verdicts.

(** X4. In the verdict of a plan check, overall_passed is true exactly when
    errors is empty; a verdict that forbids execution has an error; there is
    one entry in rule_results per applicable rule, in the order of the
    rules; and every error and every warning is one of the rule results. *)
Theorem verdict_is_coherent (rules : list GuardrailRule) (plan : Plan)
    (context : option Py.Dict) (now : Q) :
  let v := (check_plan rules plan context now).1 in
  overall_passed v = is_nil (errors v)
  /\ (can_execute v = false -> errors v <> [])
  /\ rule_results v = flat_map (result_entries plan context now) rules
  /\ length (rule_results v)
     = length (List.filter (fun r => is_rule_applicable r plan) rules)
  /\ incl (errors v) (rule_results v)
  /\ incl (warnings v) (rule_results v).
Proof.
  cbn zeta. unfold check_plan.
  destruct (check_rules_fields plan context now rules (initial_verdict plan))
    as (Hcan & Hall & _ & Herr & Hwarn).
  pose proof (check_rules_results plan context now rules (initial_verdict plan)) as Hres.
  cbn zeta in *. cbn [initial_verdict can_execute overall_passed errors warnings
                      rule_results app andb] in *.
  rewrite Hall, Herr, Hwarn, Hres, Hcan. split; [apply forallb_is_nil|].
  split; [|split; [reflexivity|split; [|split]]].
  - intros Hf. destruct (forallb_false _ _ Hf) as (rule & Hin & Hb).
    apply negb_false_iff, (blocks_error_entries plan context now) in Hb.
    intros Hnil.
    assert (He : error_entries plan context now rule = []).
    { destruct (error_entries plan context now rule) as [|x xs] eqn:E; [reflexivity|].
      assert (Hx : In x (flat_map (error_entries plan context now) rules)).
      { apply in_flat_map. exists rule. rewrite E. split; [exact Hin | now left]. }
      rewrite Hnil in Hx. destruct Hx. }
    rewrite He in Hb. discriminate.
  - apply length_results.
  - intros x (r & Hin & Hx)%in_flat_map. apply in_flat_map. exists r.
    split; [exact Hin|]. apply (proj1 (entries_in_results plan context now r)), Hx.
  - intros x (r & Hin & Hx)%in_flat_map. apply in_flat_map. exists r.
    split; [exact Hin|]. apply (proj2 (entries_in_results plan context now r)), Hx.
Qed.

(** X5. A rule whose check raises is reported as an error of severity
    "error" carrying the exception's text, and makes overall_passed false;
    it does not forbid execution, whatever its own severity: an engine whose
    rules all raise still answers can_execute = true. *)
Theorem raising_rule_is_reported_not_blocking (rules : list GuardrailRule) (plan : Plan)
    (context : option Py.Dict) (now : Q) :
  let v := (check_plan rules plan context now).1 in
  (forall rule e,
     In rule rules -> is_rule_applicable rule plan = true ->
     (run_check rule plan context now).1 = Raise e ->
     In (error_info rule e) (errors v)
     /\ In (error_info rule e) (rule_results v)
     /\ info_severity (error_info rule e) = "error"%string
     /\ info_message (error_info rule e) = ("Erreur vérification: " ++ str_exc e)%string
     /\ overall_passed v = false
     /\ blocks plan context now rule = false)
  /\ ((forall rule, In rule rules ->
        exists e, (run_check rule plan context now).1 = Raise e) ->
      can_execute v = true).
Proof.
  cbn zeta. unfold check_plan.
  destruct (check_rules_fields plan context now rules (initial_verdict plan))
    as (Hcan & Hall & _ & Herr & _).
  pose proof (check_rules_results plan context now rules (initial_verdict plan)) as Hres.
  cbn zeta in *. cbn [initial_verdict can_execute overall_passed errors warnings
                      rule_results app andb] in *.
  split.
  - intros rule e Hin Happ Hraise.
    assert (Hchk : checked rule plan context now = Some (Raise e)).
    { unfold checked. now rewrite Happ, Hraise. }
    assert (He : error_entries plan context now rule = [error_info rule e]).
    { unfold error_entries. now rewrite Hchk. }
    split; [|split; [|split; [reflexivity|split; [reflexivity|split]]]].
    + rewrite Herr. apply in_flat_map. exists rule. rewrite He. split; [exact Hin | now left].
    + rewrite Hres. apply in_flat_map. exists rule. unfold result_entries. rewrite Hchk.
      split; [exact Hin | now left].
    + rewrite Hall. apply not_true_is_false. intros Hf.
      rewrite forallb_forall in Hf. specialize (Hf rule Hin). rewrite He in Hf. discriminate.
    + unfold blocks. now rewrite Hchk.
  - intros Hraise. rewrite Hcan. apply forallb_forall. intros rule Hin.
    destruct (Hraise rule Hin) as [e He]. unfold blocks, checked.
    destruct (is_rule_applicable rule plan); [|reflexivity]. now rewrite He.
Qed.

Lemma raising_rule_is_reported_not_blocking_witness :
  overall_passed (check_plan [ContentSecurityRule Examples.example_host]
                    (Scenarios.plan_of Scenarios.type_number) None 0).1 = false.
Proof.
  refine (proj1 (proj2 (proj2 (proj2 (proj2
            (proj1 (raising_rule_is_reported_not_blocking
                      [ContentSecurityRule Examples.example_host]
                      (Scenarios.plan_of Scenarios.type_number) None 0)
               (ContentSecurityRule Examples.example_host)
               (type_error "expected string or bytes-like object, got 'int'") _ _ _)))))).
  - left. reflexivity.
  - reflexivity.
  - reflexivity.
Defined.

(** An engine without a rule of severity critical. *)
Lemma noncritical_can_execute (rules : list GuardrailRule)
    (plan : Plan) (context : option Py.Dict) (now : Q) :
  Forall (fun r => severity r <> "critical"%string) rules ->
  can_execute (check_plan rules plan context now).1 = true.
Proof.
  intros Hnc. unfold check_plan.
  destruct (check_rules_fields plan context now rules (initial_verdict plan))
    as (Hcan & _).
  cbn zeta in Hcan. cbn [initial_verdict can_execute andb] in Hcan.
  rewrite Hcan. apply forallb_forall. intros rule Hin.
  rewrite List.Forall_forall in Hnc. specialize (Hnc rule Hin).
  unfold blocks. destruct (checked rule plan context now) as [[res|e]|]; try reflexivity.
  rewrite bool_decide_eq_false_2 by exact Hnc. now rewrite andb_false_r.
Qed.

Lemma check_plan_attributes (rules : list GuardrailRule)
    (plan : Plan) (context : option Py.Dict) (now : Q) :
  map attributes (check_plan rules plan context now).2 = map attributes rules.
Proof. apply check_rules_attributes. Qed.

Lemma noncritical_stays (rules : list GuardrailRule)
    (plan : Plan) (context : option Py.Dict) (now : Q) :
  Forall (fun r => severity r <> "critical"%string) rules ->
  Forall (fun r => severity r <> "critical"%string) (check_plan rules plan context now).2.
Proof.
  intros Hnc.
  assert (Hsev : map severity (check_plan rules plan context now).2 = map severity rules).
  { pose proof (check_plan_attributes rules plan context now) as Hattr.
    apply (f_equal (map (fun a : string * string * list IntentType.t => a.1.2))) in Hattr.
    rewrite !map_map in Hattr. exact Hattr. }
  apply List.Forall_forall. intros r Hr.
  apply (in_map severity) in Hr. rewrite Hsev in Hr.
  apply in_map_iff in Hr as (r0 & Heq & Hin0).
  rewrite List.Forall_forall in Hnc. rewrite <- Heq. apply Hnc, Hin0.
Qed.

(** X6. A plan check changes neither the names, nor the severities, nor the
    scopes, nor the order of the rules, whatever the rules are.  An engine
    without a rule of severity critical never forbids execution, and stays
    such an engine.  The four built-in rules form such an engine, on any
    host and with any settings. *)
Theorem engine_without_critical_rule_never_blocks (rules : list GuardrailRule)
    (plan : Plan) (context : option Py.Dict) (now : Q) :
  map attributes (check_plan rules plan context now).2 = map attributes rules
  /\ (Forall (fun r => severity r <> "critical"%string) rules ->
      can_execute (check_plan rules plan context now).1 = true
      /\ Forall (fun r => severity r <> "critical"%string)
           (check_plan rules plan context now).2)
  /\ (forall h sec,
        length (initialize_rules h sec) = 4
        /\ Forall (fun r => severity r <> "critical"%string) (initialize_rules h sec)).
Proof.
  split; [apply check_plan_attributes|]. split.
  - intros Hnc. split.
    + apply noncritical_can_execute, Hnc.
    + apply noncritical_stays, Hnc.
  - intros h sec. split; [reflexivity|].
    unfold initialize_rules. repeat constructor; discriminate.
Qed.

Lemma engine_without_critical_rule_never_blocks_witness :
  can_execute (check_plan (initialize_rules Examples.example_host Settings.default_security)
                 Examples.confirm_plan None 0).1 = true.
Proof.
  pose proof (engine_without_critical_rule_never_blocks
                (initialize_rules Examples.example_host Settings.default_security)
                Examples.confirm_plan None 0) as (_ & Hnc & Hbuilt).
  apply Hnc, Hbuilt.
Defined.

(** ** Adding and removing rules *)

Lemma filter_shorter {A} (f : A -> bool) (l : list A) :
  length (List.filter f l) < length l <-> exists x, In x l /\ f x = false.
Proof.
  induction l as [|a l IH]; cbn.
  - split; [lia | intros (x & [] & _)].
  - pose proof (List.filter_length_le f l) as Hle.
    destruct (f a) eqn:E; cbn.
    + rewrite <- Nat.succ_lt_mono, IH. split.
      * intros (x & Hin & Hx). eauto.
      * intros (x & [<-|Hin] & Hx); [congruence | eauto].
    + split; [eauto | lia].
Qed.

(** X7. [remove_rule] answers true exactly when a rule of that name was
    registered; it removes every rule of that name and keeps the others;
    removing the same name again answers false and changes nothing; and
    removing a rule just added under a fresh name gives the former list
    back. *)
Theorem remove_rule_spec (rules : list GuardrailRule) (rule_name : string) :
  ((remove_rule rules rule_name).1 = true
   <-> exists r, In r rules /\ name r = rule_name)
  /\ (forall r, In r (remove_rule rules rule_name).2
               <-> In r rules /\ name r <> rule_name)
  /\ remove_rule (remove_rule rules rule_name).2 rule_name
     = (false, (remove_rule rules rule_name).2)
  /\ (forall r,
        name r = rule_name ->
        Forall (fun r' => name r' <> rule_name) rules ->
        remove_rule (add_custom_rule rules r) rule_name = (true, rules)).
Proof.
  unfold remove_rule, add_custom_rule. cbn [fst snd].
  set (keep := fun r : GuardrailRule => negb (String.eqb (name r) rule_name)).
  assert (Hkeep : forall r, keep r = true <-> name r <> rule_name).
  { intros r. unfold keep. rewrite negb_true_iff. apply String.eqb_neq. }
  assert (Hdrop : forall r, keep r = false <-> name r = rule_name).
  { intros r. unfold keep. rewrite negb_false_iff. apply String.eqb_eq. }
  split; [|split; [|split]].
  - rewrite Nat.ltb_lt, filter_shorter. split; intros (r & Hin & Hr); exists r;
      (split; [exact Hin | apply Hdrop, Hr]).
  - intros r. rewrite List.filter_In, Hkeep. tauto.
  - assert (Hid : List.filter keep (List.filter keep rules) = List.filter keep rules).
    { apply List.forallb_filter_id, List.forallb_forall.
      intros r [_ Hr]%List.filter_In. exact Hr. }
    rewrite Hid, Nat.ltb_irrefl. reflexivity.
  - intros r Hname Hfresh.
    assert (Hid : List.filter keep rules = rules).
    { apply List.forallb_filter_id, List.forallb_forall. intros r' Hin.
      apply Hkeep. rewrite List.Forall_forall in Hfresh. apply Hfresh, Hin. }
    rewrite List.filter_app, Hid. cbn [List.filter].
    rewrite (proj2 (Hdrop r) Hname), app_nil_r, length_app. cbn [length].
    f_equal. apply Nat.ltb_lt. lia.
Qed.

(** ** The built-in rules *)

Lemma traverse_ok {A B} (f : A -> Result B) (l : list A) (bs : list B) :
  traverse f l = Ok bs -> Forall2 (fun a b => f a = Ok b) l bs.
Proof.
  revert bs. induction l as [|a l IH]; cbn; intros bs.
  - intros [= <-]. constructor.
  - destruct (f a) as [b|e] eqn:E; cbn; [|discriminate].
    destruct (traverse f l) as [bs'|e]; cbn; [|discriminate].
    intros [= <-]. constructor; [exact E | apply IH; reflexivity].
Qed.

(** X8. The path rule never raises: whatever the host does, its check
    returns a result.  On a save or write intent with a path, it passes
    exactly when the path resolves, lies under none of the forbidden roots,
    the allowed paths resolve, and the text of one of them is a prefix of
    the text of the resolved path. *)
Theorem path_rule_spec (h : Host.t) (sec : Settings.SecurityConfig) (plan : Plan)
    (context : option Py.Dict) :
  exists res,
    PathSecurityRule_check h sec plan context = Ok res
    /\ (intent_type (intent plan) ∈ [IntentType.SAVE_FILE; IntentType.WRITE_TEXT_FILE] ->
        Py.truthy (Py.get_default (slots (intent plan)) "path" Py.VNone) = true ->
        (passed res = true
         <-> exists path_obj allowed,
               Host.resolve h (Py.get_default (slots (intent plan)) "path" Py.VNone)
               = Ok path_obj
               /\ Forall (fun root => Host.is_under h path_obj root = false) forbidden_paths
               /\ traverse (Host.expand_resolve h) (Settings.allowed_write_paths sec)
                  = Ok allowed
               /\ exists a, In a allowed /\ String.prefix a path_obj = true)).
Proof.
  unfold PathSecurityRule_check.
  case_bool_decide as Htype; cbn [negb].
  2:{ eexists. split; [reflexivity|]. intros H. contradiction. }
  set (path := Py.get_default (slots (intent plan)) "path" Py.VNone).
  destruct (Py.truthy path) eqn:Htruthy; cbn [negb].
  2:{ eexists. split; [reflexivity|]. intros _ H. discriminate. }
  destruct (Host.resolve h path) as [path_obj|e] eqn:Hres; cbn [bind].
  2:{ eexists. split; [reflexivity|]. intros _ _. cbn. split; [discriminate|].
      intros (p & a & H & _). discriminate. }
  destruct (List.find (Host.is_under h path_obj) forbidden_paths) as [root|] eqn:Hfind.
  { eexists. split; [reflexivity|]. intros _ _. cbn. split; [discriminate|].
    intros (p & a & [= <-] & Hno & _).
    apply List.find_some in Hfind as [Hin Hunder].
    rewrite List.Forall_forall in Hno. rewrite (Hno root Hin) in Hunder. discriminate. }
  assert (Hno : Forall (fun root => Host.is_under h path_obj root = false) forbidden_paths).
  { apply List.Forall_forall. intros root Hin. apply (List.find_none _ _ Hfind), Hin. }
  destruct (traverse (Host.expand_resolve h) (Settings.allowed_write_paths sec))
    as [allowed|e] eqn:Htr; cbn [bind].
  2:{ eexists. split; [reflexivity|]. intros _ _. cbn. split; [discriminate|].
      intros (p & a & _ & _ & H & _). discriminate. }
  destruct (existsb (fun a => String.prefix a path_obj) allowed) eqn:Hex.
  - eexists. split; [reflexivity|]. intros _ _. cbn. split; [|reflexivity].
    intros _. exists path_obj, allowed. repeat split; try assumption.
    apply existsb_exists in Hex. exact Hex.
  - eexists. split; [reflexivity|]. intros _ _. cbn. split; [discriminate|].
    intros (p & a & [= <-] & _ & [= <-] & Hsome).
    apply existsb_exists in Hsome. congruence.
Qed.

Lemma find_none_iff {A} (f : A -> bool) (l : list A) :
  List.find f l = None <-> forall x, In x l -> f x = false.
Proof.
  split; [apply List.find_none|].
  intros H. destruct (List.find f l) as [x|] eqn:E; [|reflexivity].
  apply List.find_some in E as [Hin Hx]. rewrite (H x Hin) in Hx. discriminate.
Qed.

(** X9. On an open or focus intent whose application name is a string
    whose lower case is not empty, the application rule returns a result,
    and passes exactly when the name in lower case contains none of the
    blocked applications in lower case and none of the critical system
    tools; the lower case is that of [str.lower].  On a name that is not a
    string the check raises an [AttributeError]. *)
Theorem application_rule_spec (h : Host.t) (sec : Settings.SecurityConfig) (plan : Plan)
    (context : option Py.Dict) :
  intent_type (intent plan) ∈ [IntentType.OPEN_APP; IntentType.FOCUS_APP] ->
  (forall raw,
     Py.get_default (slots (intent plan)) "app_name" (Py.VStr "") = Py.VStr raw ->
     Host.lower h raw <> ""%string ->
     exists res,
       ApplicationSecurityRule_check h sec plan context = Ok res
       /\ (passed res = true
           <-> (forall blocked, In blocked (Settings.blocked_apps sec) ->
                  Py.contains (Host.lower h blocked) (Host.lower h raw) = false)
               /\ (forall critical, In critical critical_apps ->
                     Py.contains critical (Host.lower h raw) = false)))
  /\ ((forall raw,
         Py.get_default (slots (intent plan)) "app_name" (Py.VStr "") <> Py.VStr raw) ->
      exists e,
        ApplicationSecurityRule_check h sec plan context = Raise e
        /\ exc_class e = Builtin "AttributeError").
Proof.
  intros Htype. unfold ApplicationSecurityRule_check.
  rewrite bool_decide_eq_true_2 by exact Htype. cbn [negb].
  split.
  - intros raw -> Hne.
    destruct (String.eqb_spec (Host.lower h raw) "") as [|_]; [contradiction|].
    destruct (List.find _ (Host.lower h <$> Settings.blocked_apps sec)) as [b|] eqn:Hb.
    { eexists. split; [reflexivity|]. cbn. split; [discriminate|].
      intros [Hnone _]. apply List.find_some in Hb as [Hin Hc].
      apply in_map_iff in Hin as (b0 & <- & Hin0).
      rewrite (Hnone b0 Hin0) in Hc. discriminate. }
    assert (Hnob : forall blocked, In blocked (Settings.blocked_apps sec) ->
              Py.contains (Host.lower h blocked) (Host.lower h raw) = false).
    { intros blocked Hin. apply (List.find_none _ _ Hb). apply in_map, Hin. }
    destruct (List.find _ critical_apps) as [c|] eqn:Hc.
    { eexists. split; [reflexivity|]. cbn. split; [discriminate|].
      intros [_ Hnone]. apply List.find_some in Hc as [Hin Hcc].
      rewrite (Hnone c Hin) in Hcc. discriminate. }
    eexists. split; [reflexivity|]. cbn. split; [|reflexivity].
    intros _. split; [exact Hnob|]. apply (List.find_none _ _ Hc).
  - intros Hnot.
    destruct (Py.get_default (slots (intent plan)) "app_name" (Py.VStr "")) eqn:E;
      try (eexists; split; reflexivity).
    exfalso. eapply Hnot. reflexivity.
Qed.

Lemma application_rule_spec_witness :
  exists res,
    ApplicationSecurityRule_check Examples.example_host Settings.default_security
      Examples.wait_plan None = Ok res
    /\ passed res = true.
Proof.
  destruct (proj1 (application_rule_spec Examples.example_host Settings.default_security
                     Examples.wait_plan None ltac:(constructor)) "Notepad"%string eq_refl)
    as (res & Hres & Hpass).
  - discriminate.
  - exists res. split; [exact Hres|]. apply Hpass. split.
    + intros b Hin. cbn in Hin.
      repeat (destruct Hin as [<-|Hin]; [reflexivity|]). destruct Hin.
    + intros c Hin. cbn in Hin.
      repeat (destruct Hin as [<-|Hin]; [reflexivity|]). destruct Hin.
Defined.

Lemma filter_nil_iff {A} (f : A -> bool) (l : list A) :
  List.filter f l = [] <-> forall x, In x l -> f x = false.
Proof.
  induction l as [|a l IH]; cbn.
  - split; [intros _ x [] | reflexivity].
  - destruct (f a) eqn:E.
    + split; [discriminate|]. intros H. specialize (H a (or_introl eq_refl)). congruence.
    + rewrite IH. split.
      * intros H x [<-|Hin]; [exact E | apply H, Hin].
      * intros H x Hin. apply H. now right.
Qed.

(** X10. On a type-text or write-file intent whose content is a string that
    is not empty, the content rule returns a result, and passes exactly when
    none of the sensitive patterns matches the content and the content in
    lower case contains none of the system commands; the lower case is that
    of [str.lower]. *)
Theorem content_rule_spec (h : Host.t) (plan : Plan) (context : option Py.Dict)
    (text : string) :
  intent_type (intent plan) ∈ [IntentType.TYPE_TEXT; IntentType.WRITE_TEXT_FILE] ->
  (if bool_decide (intent_type (intent plan) = IntentType.TYPE_TEXT)
   then Py.get_default (slots (intent plan)) "text" (Py.VStr "")
   else Py.get_default (slots (intent plan)) "content" (Py.VStr "")) = Py.VStr text ->
  text <> ""%string ->
  exists res,
    ContentSecurityRule_check h plan context = Ok res
    /\ (passed res = true
        <-> (forall p, In p sensitive_patterns -> Host.re_search h p.2 text = false)
            /\ (forall c, In c system_commands ->
                  Py.contains c (Host.lower h text) = false)).
Proof.
  intros Htype Hcontent Hne. unfold ContentSecurityRule_check. cbn zeta.
  rewrite bool_decide_eq_true_2 by exact Htype. cbn [negb].
  rewrite Hcontent. cbn [Py.truthy].
  destruct (String.eqb_spec text "") as [|_]; [contradiction|]. cbn [negb].
  pose proof (filter_nil_iff (fun p : string * string => Host.re_search h p.2 text)
                sensitive_patterns) as Hp.
  pose proof (filter_nil_iff (fun c => Py.contains c (Host.lower h text)) system_commands)
    as Hc.
  cbn beta in Hp, Hc.
  destruct (List.filter _ sensitive_patterns) as [|p ps]; cbn [fmap list_fmap app].
  - destruct (List.filter _ system_commands) as [|c cs]; cbn [fmap list_fmap].
    + eexists. split; [reflexivity|]. cbn. split; [|reflexivity].
      intros _. split; [apply Hp | apply Hc]; reflexivity.
    + eexists. split; [reflexivity|]. cbn. split; [discriminate|].
      intros [_ H]. apply Hc in H. discriminate.
  - eexists. split; [reflexivity|]. cbn. split; [discriminate|].
    intros [H _]. apply Hp in H. discriminate.
Qed.

Lemma content_rule_spec_witness :
  exists res,
    ContentSecurityRule_check Examples.example_host
      (Scenarios.plan_of Scenarios.type_command_line) None = Ok res
    /\ (passed res = true
        <-> (forall p, In p sensitive_patterns ->
               Host.re_search Examples.example_host p.2 "sudo reboot" = false)
            /\ (forall c, In c system_commands ->
                  Py.contains c (Host.lower Examples.example_host "sudo reboot") = false)).
Proof.
  apply (content_rule_spec Examples.example_host
           (Scenarios.plan_of Scenarios.type_command_line) None "sudo reboot").
  - cbn. rewrite elem_of_cons. left. reflexivity.
  - reflexivity.
  - discriminate.
Defined.

(** ** Generated plans *)

Import Plans.

Lemma string_slots_get (slots : Py.Dict) (k dflt : string) :
  string_slots slots -> exists s, Py.get_default slots k (Py.VStr dflt) = Py.VStr s.
Proof.
  unfold Py.get_default. induction 1 as [|[k' v] rest [s Hs] _ IH]; cbn.
  - eauto.
  - destruct (String.eqb k k'); [cbn in *; eauto | exact IH].
Qed.

Lemma generate_actions_length (env : Env) (defs : list ActionDef) (slots : Py.Dict)
    (context : option Py.Dict) :
  length (generate_actions_from_template env defs slots context) <= length defs.
Proof.
  induction defs as [|d rest IH]; cbn; [lia|].
  destruct (bind _ _); cbn; lia.
Qed.

Lemma template_confirmation (env : Env) (t : IntentType.t) (template : PlanTemplate)
    (slots : Py.Dict) :
  templates t = Some template ->
  should_require_confirmation env template slots = is_write_intent t
  /\ template_intent_type template = t.
Proof.
  destruct t; cbn; intros [= <-]; split; reflexivity.
Qed.

Lemma generate_plan_header (env : Env) (plan_id : string) (i : Intent)
    (context : option Py.Dict) (p : Plan) :
  generate_plan env plan_id i context = Ok p ->
  id p = plan_id /\ intent p = i
  /\ requires_confirmation p = is_write_intent (intent_type i).
Proof.
  unfold generate_plan, generate_plan_body.
  destruct (templates (intent_type i)) as [template|] eqn:Htpl; [|discriminate].
  destruct (generate_plan_summary _ _ _) as [summ|e]; cbn [bind]; [|discriminate].
  destruct (estimate_duration _ _) as [d|e]; cbn [bind]; [|discriminate].
  intros [= <-]. cbn. split; [reflexivity|]. split; [reflexivity|].
  apply (template_confirmation env _ template (slots i) Htpl).
Qed.

(** X11. For an intent that has a template and whose slot values are all
    strings, [generate_plan] returns a plan: it carries the given identifier
    and the intent, takes its risk level from the template, has at most as
    many actions as the template has steps, and requires confirmation
    exactly when the intent is a save or a write, whatever the security
    settings and the path. *)
Theorem generate_plan_succeeds_on_string_slots (env : Env) (plan_id : string)
    (i : Intent) (context : option Py.Dict) (template : PlanTemplate) :
  templates (intent_type i) = Some template ->
  string_slots (slots i) ->
  exists p,
    generate_plan env plan_id i context = Ok p
    /\ id p = plan_id
    /\ intent p = i
    /\ risk_level p = template_risk_level template
    /\ length (actions p) <= length (template_actions template)
    /\ requires_confirmation p = is_write_intent (intent_type i).
Proof.
  intros Htpl Hstr. unfold generate_plan, generate_plan_body. rewrite Htpl.
  unfold generate_plan_summary.
  destruct (string_slots_get (slots i) "text" "" Hstr) as [text Htext].
  rewrite Htext. cbn [slice50 bind].
  destruct (template_confirmation env _ template (slots i) Htpl) as [Hconf Hty].
  assert (Hdur : exists d, estimate_duration template (slots i) = Ok d).
  { unfold estimate_duration. rewrite Hty.
    destruct (string_slots_get (slots i) "content" "" Hstr) as [content Hcontent].
    destruct (intent_type i); try (eexists; reflexivity).
    - rewrite Htext. cbn. eexists; reflexivity.
    - rewrite Hcontent. cbn. eexists; reflexivity. }
  destruct Hdur as [d Hd]. rewrite Hd. cbn [bind].
  eexists. split; [reflexivity|]. cbn.
  split; [reflexivity|]. split; [reflexivity|]. split; [reflexivity|].
  split; [apply generate_actions_length | exact Hconf].
Qed.

Lemma generate_plan_succeeds_on_string_slots_witness :
  exists p,
    generate_plan Examples.example_env "plan-1" Examples.open_notepad None = Ok p
    /\ id p = "plan-1"%string
    /\ requires_confirmation p = false.
Proof.
  destruct (generate_plan_succeeds_on_string_slots Examples.example_env "plan-1"
              Examples.open_notepad None _ eq_refl)
    as (p & Hp & Hid & _ & _ & _ & Hc).
  - repeat constructor. eexists; reflexivity.
  - exists p. split; [exact Hp|]. split; [exact Hid | exact Hc].
Defined.

(** *** Dicts *)

Lemma get_set_eq (d : Py.Dict) (k : string) (v : Py.Value) :
  Py.get (Py.set d k v) k = Some v.
Proof.
  induction d as [|[k' v'] d IH]; cbn.
  - now rewrite String.eqb_refl.
  - destruct (String.eqb k k') eqn:E; cbn; rewrite E; [reflexivity | exact IH].
Qed.

Lemma get_set_ne (d : Py.Dict) (k k' : string) (v : Py.Value) :
  k <> k' -> Py.get (Py.set d k v) k' = Py.get d k'.
Proof.
  intros Hne. induction d as [|[k0 v0] d IH]; cbn.
  - destruct (String.eqb_spec k' k); [congruence | reflexivity].
  - destruct (String.eqb_spec k k0) as [->|Hk]; cbn.
    + destruct (String.eqb_spec k' k0); [congruence | reflexivity].
    + destruct (String.eqb_spec k' k0); [reflexivity | exact IH].
Qed.

Lemma get_fmap_values (f : Py.Value -> Py.Value) (d : Py.Dict) (k : string) :
  Py.get ((fun kv => (kv.1, f kv.2)) <$> d) k = f <$> Py.get d k.
Proof.
  induction d as [|[k' v'] d IH]; cbn; [reflexivity|].
  destruct (String.eqb k k'); [reflexivity | exact IH].
Qed.

Lemma get_not_key (d : Py.Dict) (k : string) :
  k ∉ d.*1 -> Py.get d k = None.
Proof.
  induction d as [|[k' v'] d IH]; cbn; [reflexivity|].
  intros Hnot. destruct (String.eqb_spec k k') as [->|Hne].
  - exfalso. apply Hnot. left.
  - apply IH. intros Hin. apply Hnot. now right.
Qed.

(** [d.update(slots)] key by key: a key of [slots] reads as in [slots], any
    other key as before. *)
Lemma get_update (slots : Py.Dict) : forall (d : Py.Dict) (k : string),
  NoDup slots.*1 ->
  Py.get (fold_left (fun d kv => Py.set d kv.1 kv.2) slots d) k
  = match Py.get slots k with
    | Some v => Some v
    | None => Py.get d k
    end.
Proof.
  induction slots as [|[k0 v0] rest IH]; intros d k Hnd; cbn; [reflexivity|].
  apply NoDup_cons in Hnd as [Hfresh Hnd]. rewrite (IH _ _ Hnd).
  destruct (String.eqb_spec k k0) as [->|Hne].
  - rewrite (get_not_key rest k0 Hfresh). apply get_set_eq.
  - destruct (Py.get rest k); [reflexivity|]. apply get_set_ne. congruence.
Qed.

(** X12. The step of a template that invokes a registered skill passes
    every slot of the intent on to the skill: in the processed definition a
    slot name reads as the slot's value, also when the template gives that
    parameter a value of its own, and the other template parameters keep
    their substituted values.  For a skill that is not registered no slot
    is passed on. *)
Theorem slots_are_passed_to_registered_skills (env : Env) (action_def : ActionDef)
    (slots : Py.Dict) (context : option Py.Dict) (skill_name : string) :
  def_skill action_def = Some skill_name ->
  NoDup slots.*1 ->
  (Skills.get_skill_info (skill_manager env) skill_name = Ok (Some tt) ->
   exists processed params,
     process_action_definition env action_def slots context = Ok processed
     /\ def_parameters processed = Some params
     /\ forall k,
          Py.get params k
          = match Py.get slots k with
            | Some v => Some v
            | None => Py.get (substituted_parameters env slots action_def) k
            end)
  /\ (Skills.get_skill_info (skill_manager env) skill_name = Ok None ->
      exists processed,
        process_action_definition env action_def slots context = Ok processed
        /\ def_parameters processed = Some (substituted_parameters env slots action_def)).
Proof.
  intros Hskill Hnd. unfold process_action_definition. rewrite Hskill.
  fold (substituted_parameters env slots action_def). split; intros ->; cbn [bind].
  - do 2 eexists. split; [reflexivity|]. split; [reflexivity|].
    intros k. apply get_update, Hnd.
  - eexists. split; reflexivity.
Qed.

Lemma slots_are_passed_to_registered_skills_witness :
  exists processed params,
    process_action_definition Examples.example_env
      (skill "open_app" (Some [("app_name", Py.VStr "Google Chrome")])
         "Ouverture du navigateur")
      [("app_name", Py.VStr "Notepad")] None = Ok processed
    /\ def_parameters processed = Some params
    /\ Py.get params "app_name" = Some (Py.VStr "Notepad").
Proof.
  destruct (proj1 (slots_are_passed_to_registered_skills Examples.example_env
                     (skill "open_app" (Some [("app_name", Py.VStr "Google Chrome")])
                        "Ouverture du navigateur")
                     [("app_name", Py.VStr "Notepad")] None "open_app" eq_refl
                     ltac:(apply NoDup_singleton)) eq_refl)
    as (processed & params & H1 & H2 & H3).
  exists processed, params. split; [exact H1|]. split; [exact H2|]. apply (H3 "app_name"%string).
Defined.

(** *** The actions of a generated plan *)

(** The action built from an action definition, when one is built. *)
Lemma generated_action_shape (env : Env) (action_def : ActionDef) (slots : Py.Dict)
    (context : option Py.Dict) (a : Action) :
  (processed <- process_action_definition env action_def slots context ;;
   make_action processed) = Ok a ->
  timeout a = default_timeout
  /\ match def_skill action_def with
     | Some s =>
         action_type a = ActionType.SCREENSHOT
         /\ Py.get (parameters a) "skill_name" = Some (Py.VStr s)
     | None =>
         def_type action_def = Some (action_type a)
         /\ parameters a = substituted_parameters env slots action_def
     end.
Proof.
  unfold process_action_definition.
  destruct (def_skill action_def) as [s|]; cbn [bind].
  - destruct (Skills.get_skill_info _ _) as [info|e]; cbn [bind]; [|discriminate].
    unfold make_action. cbn [def_skill def_description].
    destruct (substitute env slots <$> def_description action_def); cbn; [|discriminate].
    intros [= <-]. cbn. auto.
  - unfold make_action. cbn [def_skill def_type def_description def_parameters].
    destruct (def_type action_def) as [ty|]; cbn; [|discriminate].
    destruct (substitute env slots <$> def_description action_def); cbn; [|discriminate].
    intros [= <-]. cbn. auto.
Qed.

Ltac forall_list :=
  lazymatch goal with
  | |- Forall _ [] => apply List.Forall_nil
  | |- Forall _ (_ :: _) => apply List.Forall_cons; [ | forall_list ]
  end.

Lemma templates_are_plain (t : IntentType.t) (template : PlanTemplate) :
  templates t = Some template -> Forall primitive_step_is_plain (template_actions template).
Proof.
  destruct t; intros [= <-]; cbn [template_actions]; forall_list;
    unfold primitive_step_is_plain, primitive, skill; cbn [def_skill def_type def_parameters];
    try exact I;
    (split; [eexists; split; [reflexivity | repeat constructor] | reflexivity]).
Qed.

Lemma generated_actions_are_plain (env : Env) (defs : list ActionDef) (slots : Py.Dict)
    (context : option Py.Dict) :
  Forall primitive_step_is_plain defs ->
  Forall (fun a =>
            timeout a = default_timeout
            /\ action_type a ∈ [ActionType.SCREENSHOT; ActionType.WAIT; ActionType.KEY_PRESS]
            /\ (invokes_skill a = true -> action_type a = ActionType.SCREENSHOT))
    (generate_actions_from_template env defs slots context).
Proof.
  induction 1 as [|d rest Hd _ IH]; cbn; [constructor|].
  destruct (bind _ _) as [a|e] eqn:E; [|exact IH].
  constructor; [|exact IH].
  destruct (generated_action_shape env d slots context a E) as [Ht Hshape].
  split; [exact Ht|]. unfold primitive_step_is_plain in Hd.
  destruct (def_skill d) as [s|].
  - destruct Hshape as [-> _]. split; [constructor | reflexivity].
  - destruct Hshape as [Hty Hpar], Hd as [(ty & Hty' & Hin) Hnone].
    assert (ty = action_type a) as <- by congruence.
    split; [exact Hin|]. unfold invokes_skill, Py.contains_key.
    rewrite Hpar. unfold substituted_parameters.
    destruct (def_parameters d) as [params|]; cbn in *.
    + rewrite get_fmap_values, Hnone. discriminate.
    + discriminate.
Qed.

(** X13. In every plan that [generate_plan] returns, each action has the
    default timeout and the type SCREENSHOT, WAIT or KEY_PRESS, and an
    action that invokes a skill has the type SCREENSHOT: no generated action
    has the type TYPE_TEXT, so the merge of text entries never applies to a
    generated plan. *)
Theorem generated_actions_have_plain_types (env : Env) (plan_id : string) (i : Intent)
    (context : option Py.Dict) (p : Plan) :
  generate_plan env plan_id i context = Ok p ->
  Forall (fun a =>
            timeout a = default_timeout
            /\ action_type a ∈ [ActionType.SCREENSHOT; ActionType.WAIT; ActionType.KEY_PRESS]
            /\ (invokes_skill a = true -> action_type a = ActionType.SCREENSHOT)
            /\ is_type_text a = false)
    (actions p).
Proof.
  unfold generate_plan, generate_plan_body.
  destruct (templates (intent_type i)) as [template|] eqn:Htpl; [|discriminate].
  destruct (generate_plan_summary _ _ _) as [summ|e]; cbn [bind]; [|discriminate].
  destruct (estimate_duration _ _) as [d|e]; cbn [bind]; [|discriminate].
  intros [= <-]. cbn [actions].
  eapply Forall_impl.
  - apply generated_actions_are_plain, (templates_are_plain _ _ Htpl).
  - intros a (Ht & Hty & Hsk). repeat split; try assumption.
    unfold is_type_text. apply bool_decide_eq_false. intros Heq. rewrite Heq in Hty.
    rewrite !elem_of_cons, elem_of_nil in Hty. intuition discriminate.
Qed.

Lemma generated_actions_have_plain_types_witness :
  exists p,
    generate_plan Examples.example_env "plan-1" Examples.open_notepad None = Ok p
    /\ Forall (fun a => is_type_text a = false) (actions p).
Proof.
  destruct (generate_plan Examples.example_env "plan-1" Examples.open_notepad None)
    as [p|e] eqn:E.
  - exists p. split; [reflexivity|].
    eapply Forall_impl; [apply (generated_actions_have_plain_types _ _ _ _ _ E)|].
    intros a (_ & _ & _ & H). exact H.
  - exfalso. vm_compute in E. discriminate E.
Defined.

(** ** Optimisation *)

Lemma drop_consecutive_screenshots_length (todo : list Action) : forall acc,
  length (drop_consecutive_screenshots acc todo) <= length acc + length todo.
Proof.
  induction todo as [|a rest IH]; intros acc; cbn; [lia|].
  destruct (_ && _).
  - specialize (IH acc). lia.
  - specialize (IH (acc ++ [a])). rewrite length_app in IH. cbn in IH. lia.
Qed.

Lemma drop_consecutive_screenshots_keeps (g : Action -> bool) (todo : list Action) :
  (forall a, g a = true -> is_screenshot a = false) ->
  forall acc,
    List.filter g (drop_consecutive_screenshots acc todo)
    = List.filter g acc ++ List.filter g todo.
Proof.
  intros Hg. induction todo as [|a rest IH]; intros acc; cbn.
  - now rewrite app_nil_r.
  - destruct (is_screenshot a) eqn:Hss; cbn [andb].
    + assert (Hga : g a = false).
      { destruct (g a) eqn:E; [|reflexivity]. apply Hg in E. congruence. }
      rewrite Hga.
      destruct (match last acc with Some p => is_screenshot p | None => false end).
      * apply IH.
      * rewrite IH, List.filter_app. cbn. rewrite Hga. now rewrite app_nil_r.
    + rewrite IH, List.filter_app, <- app_assoc. cbn. now destruct (g a).
Qed.

Lemma no_adjacent_screenshots_snoc (acc : list Action) (a : Action) :
  no_adjacent_screenshots (acc ++ [a])
  = no_adjacent_screenshots acc
    && negb (match last acc with Some p => is_screenshot p | None => false end
             && is_screenshot a).
Proof.
  induction acc as [|x tl IH]; [reflexivity|].
  destruct tl as [|y tl'].
  - cbn. now rewrite andb_true_r.
  - change ((x :: y :: tl') ++ [a]) with (x :: (y :: tl') ++ [a]).
    change (no_adjacent_screenshots (x :: (y :: tl') ++ [a]))
      with (negb (is_screenshot x && is_screenshot y)
            && no_adjacent_screenshots ((y :: tl') ++ [a])).
    rewrite IH.
    change (no_adjacent_screenshots (x :: y :: tl'))
      with (negb (is_screenshot x && is_screenshot y)
            && no_adjacent_screenshots (y :: tl')).
    change (last (x :: y :: tl')) with (last (y :: tl')).
    now rewrite andb_assoc.
Qed.

Lemma drop_consecutive_screenshots_apart (todo : list Action) : forall acc,
  no_adjacent_screenshots acc = true ->
  no_adjacent_screenshots (drop_consecutive_screenshots acc todo) = true.
Proof.
  induction todo as [|a rest IH]; intros acc Hacc; cbn; [exact Hacc|].
  destruct (is_screenshot a && _) eqn:E.
  - apply IH, Hacc.
  - apply IH. rewrite no_adjacent_screenshots_snoc, Hacc. cbn.
    rewrite andb_comm, E. reflexivity.
Qed.

Lemma merge_pair_type (a b m : Action) :
  merge_pair a b = Ok m -> is_type_text m = true /\ is_screenshot m = false.
Proof.
  unfold merge_pair. destruct (Py.add _ _) as [v|e]; cbn; [|discriminate].
  destruct (Py.len v); cbn; [|discriminate]. intros [= <-]. split; reflexivity.
Qed.

Lemma no_adjacent_screenshots_tail (a : Action) (tl : list Action) :
  no_adjacent_screenshots (a :: tl) = true -> no_adjacent_screenshots tl = true.
Proof.
  destruct tl as [|b tl']; [reflexivity|].
  change (no_adjacent_screenshots (a :: b :: tl'))
    with (negb (is_screenshot a && is_screenshot b) && no_adjacent_screenshots (b :: tl')).
  intros [_ H]%andb_true_iff. exact H.
Qed.

Lemma merge_similar_actions_cons (a b : Action) (rest : list Action) :
  merge_similar_actions (a :: b :: rest)
  = if is_type_text a && is_type_text b
    then merged_action <- merge_pair a b ;;
         merged <- merge_similar_actions rest ;;
         Ok (merged_action :: merged)
    else merged <- merge_similar_actions (b :: rest) ;;
         Ok (a :: merged).
Proof. reflexivity. Qed.

(** What a successful merge keeps. *)
Lemma merge_similar_actions_keeps (n : nat) : forall acts merged,
  length acts <= n ->
  merge_similar_actions acts = Ok merged ->
  length merged <= length acts
  /\ (forall g, (forall a, g a = true -> is_type_text a = false) ->
                List.filter g merged = List.filter g acts)
  /\ (no_adjacent_screenshots acts = true -> no_adjacent_screenshots merged = true)
  /\ (forall m, head merged = Some m -> is_screenshot m = true -> head acts = Some m).
Proof.
  induction n as [|n IH]; intros acts merged Hlen.
  - destruct acts; [|cbn in Hlen; lia]. intros [= <-]. cbn. auto.
  - destruct acts as [|a [|b rest]].
    + intros [= <-]. cbn. auto.
    + intros [= <-]. cbn. auto.
    + rewrite merge_similar_actions_cons.
      destruct (is_type_text a && is_type_text b) eqn:Hboth.
      * destruct (merge_pair a b) as [m|e] eqn:Hm; cbn [bind]; [|discriminate].
        destruct (merge_similar_actions rest) as [ms|e] eqn:Hms; cbn [bind]; [|discriminate].
        intros [= <-].
        destruct (IH rest ms ltac:(cbn in Hlen; lia) Hms) as (Hl & Hf & Hn & _).
        destruct (merge_pair_type a b m Hm) as [Hmt Hmn].
        apply andb_true_iff in Hboth as [Ha Hb].
        split; [cbn; lia|]. split; [|split].
        -- intros g Hg. cbn.
           assert (Hfalse : forall x, is_type_text x = true -> g x = false).
           { intros x Hx. destruct (g x) eqn:E; [|reflexivity]. apply Hg in E. congruence. }
           rewrite (Hfalse m Hmt), (Hfalse a Ha), (Hfalse b Hb). apply Hf, Hg.
        -- intros Hno. apply no_adjacent_screenshots_tail, no_adjacent_screenshots_tail in Hno.
           specialize (Hn Hno). destruct ms as [|x ms']; [reflexivity|].
           change (no_adjacent_screenshots (m :: x :: ms'))
             with (negb (is_screenshot m && is_screenshot x)
                   && no_adjacent_screenshots (x :: ms')).
           now rewrite Hmn, Hn.
        -- cbn. intros m' [= <-] Hss. congruence.
      * destruct (merge_similar_actions (b :: rest)) as [ms|e] eqn:Hms; cbn [bind];
          [|discriminate].
        intros [= <-].
        destruct (IH (b :: rest) ms ltac:(cbn in *; lia) Hms) as (Hl & Hf & Hn & Hh).
        split; [cbn in *; lia|]. split; [|split].
        -- intros g Hg. cbn [List.filter]. rewrite (Hf g Hg). reflexivity.
        -- intros Hno. pose proof (no_adjacent_screenshots_tail _ _ Hno) as Htl.
           specialize (Hn Htl). destruct ms as [|x ms']; [reflexivity|].
           change (no_adjacent_screenshots (a :: x :: ms'))
             with (negb (is_screenshot a && is_screenshot x)
                   && no_adjacent_screenshots (x :: ms')).
           rewrite Hn, andb_true_r.
           destruct (is_screenshot x) eqn:Hx; [|now rewrite andb_false_r].
           specialize (Hh x eq_refl Hx). injection Hh as <-.
           change (no_adjacent_screenshots (a :: b :: rest))
             with (negb (is_screenshot a && is_screenshot b)
                   && no_adjacent_screenshots (b :: rest)) in Hno.
           apply andb_true_iff in Hno as [Hno _]. now rewrite Hx in Hno.
        -- cbn. intros m' [= <-] _. reflexivity.
Qed.

(** The two passes of [optimize_plan] over the actions, when the merge
    goes through. *)
Lemma optimized_actions_keep (acts merged : list Action) :
  merge_similar_actions (drop_consecutive_screenshots [] acts) = Ok merged ->
  length merged <= length acts
  /\ List.filter is_other merged = List.filter is_other acts
  /\ no_adjacent_screenshots merged = true.
Proof.
  intros Hm.
  destruct (merge_similar_actions_keeps _ _ _ (Nat.le_refl _) Hm) as (Hl & Hf & Hn & _).
  pose proof (drop_consecutive_screenshots_length acts []) as Hd. cbn in Hd.
  split; [lia|]. split.
  - rewrite (Hf is_other).
    + rewrite (drop_consecutive_screenshots_keeps is_other); [reflexivity|].
      intros a [H _]%andb_true_iff. now apply negb_true_iff.
    + intros a [_ H]%andb_true_iff. now apply negb_true_iff.
  - apply Hn, drop_consecutive_screenshots_apart. reflexivity.
Qed.

Lemma optimize_plan_header (p : Plan) (context : option Py.Dict) :
  id (optimize_plan p context) = id p
  /\ intent (optimize_plan p context) = intent p
  /\ requires_confirmation (optimize_plan p context) = requires_confirmation p.
Proof.
  unfold optimize_plan.
  destruct (merge_similar_actions _) as [merged|e]; cbn [bind]; [|auto].
  destruct (recalculate_duration merged) as [d|e]; cbn [bind]; auto.
Qed.

(** X14. [optimize_plan] keeps the identifier, the intent, the summary, the
    confirmation flag and the risk level of the plan; it never adds an
    action; and the actions whose type is neither SCREENSHOT nor TYPE_TEXT
    come out the same, in the same order. *)
Theorem optimize_plan_preserves (p : Plan) (context : option Py.Dict) :
  let q := optimize_plan p context in
  id q = id p
  /\ intent q = intent p
  /\ summary q = summary p
  /\ requires_confirmation q = requires_confirmation p
  /\ risk_level q = risk_level p
  /\ length (actions q) <= length (actions p)
  /\ List.filter is_other (actions q) = List.filter is_other (actions p).
Proof.
  cbn zeta. unfold optimize_plan.
  destruct (merge_similar_actions _) as [merged|e] eqn:Hm; cbn [bind].
  2:{ repeat split; lia. }
  destruct (recalculate_duration merged) as [d|e]; cbn [bind].
  2:{ repeat split; lia. }
  destruct (optimized_actions_keep _ _ Hm) as (Hl & Hf & _).
  cbn. repeat split; assumption.
Qed.

(** X15. The plan that [optimize_plan] returns either is the plan it was
    given, unchanged, or has no two neighbouring actions of type
    SCREENSHOT. *)
Theorem optimize_plan_separates_screenshots (p : Plan) (context : option Py.Dict) :
  optimize_plan p context = p
  \/ no_adjacent_screenshots (actions (optimize_plan p context)) = true.
Proof.
  unfold optimize_plan.
  destruct (merge_similar_actions _) as [merged|e] eqn:Hm; cbn [bind]; [|now left].
  destruct (recalculate_duration merged) as [d|e]; cbn [bind]; [|now left].
  right. cbn. apply (optimized_actions_keep _ _ Hm).
Qed.

(** ** Validation *)

Lemma validate_action_ok (env : Env) (a : Action) :
  (exists av, validate_action env a = Ok av /\ valid av = true) <-> action_ok env a.
Proof.
  unfold validate_action, action_ok.
  set (v1 := if String.eqb (description a) "" then _ else _).
  assert (H1 : valid v1 = true) by (unfold v1; destruct (String.eqb _ _); reflexivity).
  set (text_ok := Py.truthy (Py.get_default (parameters a) "text" (Py.VStr ""))).
  set (v2 := if is_type_text a && negb text_ok then _ else v1).
  assert (H2 : valid v2 = true <-> (is_type_text a = true -> text_ok = true)).
  { unfold v2. destruct (is_type_text a), text_ok; cbn; rewrite ?H1; intuition congruence. }
  clearbody v2 text_ok. clear v1 H1.
  destruct (Py.get (parameters a) "skill_name") as [v|].
  2:{ split.
      - intros (av & [= <-] & Hv). split; [apply H2, Hv | discriminate].
      - intros [Ht _]. exists v2. split; [reflexivity | apply H2, Ht]. }
  split.
  - intros (av & Hav & Hvalid).
    destruct v as [| | | |s| |]; cbn in Hav;
      try (injection Hav as <-; discriminate Hvalid); try discriminate Hav.
    destruct (skill_manager env !! s) as [sk|] eqn:Hsk;
      [|injection Hav as <-; discriminate Hvalid].
    destruct (Skills.validate_parameters sk _) as [[|]|e] eqn:Hvp; cbn in Hav;
      [|injection Hav as <-; discriminate Hvalid | discriminate Hav].
    injection Hav as <-. split; [apply H2, Hvalid|].
    intros v' [= <-]. exists s, sk. auto.
  - intros [Ht Hsk]. destruct (Hsk v eq_refl) as (s & sk & -> & Hreg & Hvp).
    cbn. rewrite Hreg, Hvp. cbn. exists v2. split; [reflexivity | apply H2, Ht].
Qed.

Lemma validate_actions_valid (env : Env) (acts : list Action) : forall (i : nat) (v : Validation),
  ((validate_actions env i acts v).2 = None /\ valid (validate_actions env i acts v).1 = true)
  <-> (valid v = true /\ Forall (action_ok env) acts).
Proof.
  induction acts as [|a rest IH]; intros i v; cbn [validate_actions].
  - cbn. split; [intros [_ H]; split; [exact H | constructor] | intros [H _]; auto].
  - pose proof (validate_action_ok env a) as Hok.
    destruct (validate_action env a) as [av|e]; cbn [fst snd].
    + rewrite IH. cbn [merge_action_validation valid]. rewrite andb_true_iff, Forall_cons.
      assert (Hav : valid av = true <-> action_ok env a).
      { rewrite <- Hok. split; [eauto|]. intros (av' & [= <-] & H). exact H. }
      tauto.
    + split; [intros [H _]; discriminate|].
      intros [_ Hall]. apply Forall_cons in Hall as [Ha _].
      apply Hok in Ha as (av & Hav & _). discriminate.
Qed.

(** X16. [validate_plan] declares a plan valid exactly when the plan has at
    least one action, every action of type TYPE_TEXT has a text, and every
    action that invokes a skill names a registered skill whose own check
    accepts the skill parameters; a valid plan comes with no error.  A skill
    check that raises makes the plan invalid, it does not make
    [validate_plan] raise. *)
Theorem validate_plan_valid_iff (env : Env) (p : Plan) :
  (valid (validate_plan env p) = true
   <-> actions p <> [] /\ Forall (action_ok env) (actions p))
  /\ (valid (validate_plan env p) = true -> validation_errors (validate_plan env p) = []).
Proof.
  split.
  - unfold validate_plan.
    set (v0 := match actions p with [] => _ | _ :: _ => _ end).
    assert (H0 : valid v0 = true <-> actions p <> []).
    { unfold v0. destruct (actions p); cbn; split; congruence. }
    pose proof (validate_actions_valid env (actions p) 0 v0) as H.
    destruct (validate_actions env 0 (actions p) v0) as [v [e|]]; cbn [fst snd] in *.
    + cbn. split; [discriminate|]. intros [Hne Hall].
      assert (Hfalse : Some e = None /\ valid v = true) by (apply H; tauto).
      destruct Hfalse. discriminate.
    + cbn. rewrite <- H0. split; [intros Hv; apply H; auto | intros Hr; apply H, Hr].
  - intros Hv. pose proof (validate_plan_consistent env p) as Hc.
    unfold consistent in Hc. rewrite Hv in Hc.
    destruct (validation_errors (validate_plan env p)); [reflexivity | discriminate].
Qed.

(** ** The planner manager over time *)

Import Planner.

Lemma approved_is_valid (pv : Validation) (sc : Verdict) :
  consistent pv ->
  approved (make_execution_decision pv sc) = true -> valid pv = true.
Proof.
  intros Hc. unfold make_execution_decision.
  destruct (valid pv) eqn:Hv; [reflexivity|].
  unfold consistent in Hc. rewrite Hv in Hc.
  destruct (validation_errors pv) as [|e es]; [discriminate|]. cbn. discriminate.
Qed.

Lemma create_plan_state (env : Env) (plan_id : string) (now : Q) (st : State)
    (i : Intent) (context : option Py.Dict) (optimize : bool)
    (result : PlanningResult) (st' : State) :
  create_plan env plan_id now st i context optimize = (Ok result, st') ->
  id (result_plan result) = plan_id
  /\ intent (result_plan result) = i
  /\ requires_confirmation (result_plan result) = is_write_intent (intent_type i)
  /\ rules st' = (check_plan (rules st) (result_plan result) context now).2
  /\ plans_generated st' = S (plans_generated st)
  /\ plans_approved st' + plans_rejected st' = S (plans_approved st + plans_rejected st)
  /\ plan_cache st'
     = if approved (result_execution_decision result)
       then <[plan_id := result_plan result]> (plan_cache st)
       else plan_cache st.
Proof.
  unfold create_plan, plan_and_decide.
  destruct (generate_plan env plan_id i context) as [p|e] eqn:Hgen; cbn [bind];
    [|discriminate].
  destruct (generate_plan_header _ _ _ _ _ Hgen) as (Hid & Hint & Hrc).
  set (p' := if optimize then optimize_plan p context else p).
  assert (Hp' : id p' = plan_id /\ intent p' = i
                /\ requires_confirmation p' = is_write_intent (intent_type i)).
  { unfold p'. destruct optimize; [|auto].
    destruct (optimize_plan_header p context) as (-> & -> & ->). auto. }
  destruct Hp' as (Hid' & Hint' & Hrc').
  destruct (check_plan (rules st) p' context now) as [sc engine'] eqn:Hchk.
  intros [= <- <-]. cbn. rewrite Hchk. cbn.
  repeat split; try assumption.
  - destruct (approved _); lia.
  - rewrite Hid'. reflexivity.
Qed.

(** X17. When [create_plan] approves a plan, looking the plan's identifier
    up right afterwards gives that very plan, and every other identifier
    reads as before; when it rejects the plan, the cache is unchanged.  The
    plan returned carries the identifier and the intent it was made for. *)
Theorem approved_plan_is_cached (env : Env) (plan_id : string) (now : Q) (st : State)
    (i : Intent) (context : option Py.Dict) (optimize : bool)
    (result : PlanningResult) (st' : State) :
  create_plan env plan_id now st i context optimize = (Ok result, st') ->
  id (result_plan result) = plan_id
  /\ intent (result_plan result) = i
  /\ (approved (result_execution_decision result) = true ->
      get_plan_by_id st' plan_id = Some (result_plan result)
      /\ forall k, k <> plan_id -> get_plan_by_id st' k = get_plan_by_id st k)
  /\ (approved (result_execution_decision result) = false ->
      forall k, get_plan_by_id st' k = get_plan_by_id st k).
Proof.
  intros H. destruct (create_plan_state _ _ _ _ _ _ _ _ _ H)
    as (Hid & Hint & _ & _ & _ & _ & Hcache).
  unfold get_plan_by_id. rewrite Hcache.
  split; [exact Hid|]. split; [exact Hint|]. split; intros ->.
  - split; [apply lookup_insert_eq|]. intros k Hk. apply lookup_insert_ne. congruence.
  - reflexivity.
Qed.

Lemma approved_plan_is_cached_witness :
  exists result st',
    create_plan Examples.example_env "plan-1" 0 (init Examples.example_env)
      Examples.open_notepad None true = (Ok result, st')
    /\ get_plan_by_id st' "plan-1" = Some (result_plan result).
Proof.
  destruct (create_plan Examples.example_env "plan-1" 0 (init Examples.example_env)
              Examples.open_notepad None true) as [[result|e] st'] eqn:E.
  - exists result, st'. split; [reflexivity|].
    apply (approved_plan_is_cached _ _ _ _ _ _ _ _ _ E).
    apply (f_equal (fun r => match r.1 with
                             | Ok res => approved (result_execution_decision res)
                             | Raise _ => false
                             end)) in E.
    cbn in E. rewrite <- E. vm_compute. reflexivity.
  - exfalso. apply (f_equal fst) in E. vm_compute in E. discriminate E.
Defined.

Lemma planner_coherent_init (env : Env) : coherent env (init env).
Proof.
  unfold coherent, init, get_plan_by_id. cbn.
  split; [reflexivity|]. split; [|split; [|reflexivity]].
  - intros k p Hk. rewrite lookup_empty in Hk. discriminate.
  - repeat constructor; discriminate.
Qed.

Lemma planner_coherent_call (env : Env) (st : State) (c : Call) :
  coherent env st -> coherent env (call env st c).
Proof.
  intros (Hcount & Hcache & Hrules & Hlen). destruct c as [plan_id now i context optimize| |].
  - cbn [call].
    destruct (create_plan env plan_id now st i context optimize) as [[result|e] st'] eqn:E.
    + destruct (create_plan_state _ _ _ _ _ _ _ _ _ E)
        as (Hid & _ & _ & Hrules' & Hgen & Hsum & Hc).
      destruct (create_plan_result _ _ _ _ _ _ _ _ _ E) as (Hval & _ & Hdec).
      pose proof (check_plan_attributes (rules st) (result_plan result) context now)
        as Hattr.
      pose proof (noncritical_stays (rules st) (result_plan result) context now Hrules)
        as Hnc.
      cbn [snd]. unfold coherent. rewrite Hrules'.
      split; [lia|]. split; [|split; [exact Hnc|]].
      * intros k p. unfold get_plan_by_id. rewrite Hc.
        destruct (approved (result_execution_decision result)) eqn:Happ; [|apply Hcache].
        assert (Hvalid : valid (validate_plan env (result_plan result)) = true).
        { rewrite <- Hval. rewrite Hdec in Happ.
          apply (approved_is_valid (result_validation result)
                   (result_security_check result)); [|exact Happ].
          rewrite Hval. apply validate_plan_consistent. }
        destruct (decide (plan_id = k)) as [<-|Hne].
        -- rewrite lookup_insert_eq. intros [= <-]. split; [exact Hid|exact Hvalid].
        -- rewrite lookup_insert_ne by exact Hne. apply Hcache.
      * rewrite <- Hlen. rewrite <- (length_map attributes), Hattr. apply length_map.
    + unfold create_plan in E.
      destruct (plan_and_decide _ _ _ _ _ _ _) as [[r eng]|e']; [discriminate|].
      injection E as _ <-. cbn. unfold coherent, get_plan_by_id. cbn.
      split; [lia|]. auto.
  - cbn. unfold coherent, get_plan_by_id. cbn. split; [exact Hcount|].
    split; [|auto]. intros k p Hk. rewrite lookup_empty in Hk. discriminate.
  - cbn. unfold coherent, get_plan_by_id. cbn. auto.
Qed.

Lemma planner_coherent_after (env : Env) (cs : list Call) : coherent env (after env cs).
Proof.
  unfold after. generalize (planner_coherent_init env). generalize (init env).
  induction cs as [|c cs IH]; intros st Hst; cbn; [exact Hst|].
  apply IH, planner_coherent_call, Hst.
Qed.

(** X18. After any sequence of [create_plan], [clear_plan_cache] and
    [reset_stats] calls on a new planner manager: every attempt counted as
    generated is counted once as approved or as rejected; each cached plan
    is stored under its own identifier and passes [validate_plan]; the
    engine still has its four rules, none of severity critical; and the
    approval rate reported by [get_planner_stats] lies between 0 and 1. *)
Theorem planner_manager_stays_coherent (env : Env) (cs : list Call) :
  let st := after env cs in
  plans_generated st = plans_approved st + plans_rejected st
  /\ (forall k p, get_plan_by_id st k = Some p ->
                  id p = k /\ valid (validate_plan env p) = true)
  /\ Forall (fun r => severity r <> "critical"%string) (rules st)
  /\ active_rules (get_planner_stats st) = 4
  /\ (0 <= approval_rate (get_planner_stats st) <= 1)%Q.
Proof.
  cbn zeta. destruct (planner_coherent_after env cs) as (Hcount & Hcache & Hrules & Hlen).
  split; [exact Hcount|]. split; [exact Hcache|]. split; [exact Hrules|].
  split; [exact Hlen|].
  unfold get_planner_stats. cbn [approval_rate].
  destruct (Nat.ltb_spec 0 (plans_generated (after env cs))).
  - apply ratio_bounds; lia.
  - split; discriminate.
Qed.

(** X19. With an engine that has no rule of severity critical, as every
    planner manager has from its creation on, [create_plan] approves a plan
    exactly when the plan passes validation, and the blocking reasons are
    the validation errors alone: the guardrails can add warnings, never a
    refusal. *)
Theorem approval_is_validation (env : Env) (plan_id : string) (now : Q) (st : State)
    (i : Intent) (context : option Py.Dict) (optimize : bool)
    (result : PlanningResult) (st' : State) :
  Forall (fun r => severity r <> "critical"%string) (rules st) ->
  create_plan env plan_id now st i context optimize = (Ok result, st') ->
  approved (result_execution_decision result) = valid (result_validation result)
  /\ blocking_reasons (result_execution_decision result)
     = validation_errors (result_validation result)
  /\ can_execute (result_security_check result) = true.
Proof.
  intros Hrules E.
  destruct (create_plan_result _ _ _ _ _ _ _ _ _ E) as (Hval & Hsec & Hdec).
  pose proof (noncritical_can_execute (rules st) (result_plan result) context now Hrules)
    as Hcan.
  rewrite <- Hsec in Hcan.
  assert (Hc : consistent (result_validation result)).
  { rewrite Hval. apply validate_plan_consistent. }
  destruct (make_execution_decision_blocking _ (result_security_check result) Hc)
    as (Hblock & Happ).
  cbn zeta in Hblock, Happ. rewrite <- Hdec in Hblock, Happ.
  rewrite Hcan, app_nil_r in Hblock.
  split; [|split; [exact Hblock | exact Hcan]].
  rewrite Hblock in Happ. unfold consistent in Hc. rewrite Hc.
  destruct (validation_errors (result_validation result)) as [|e es]; cbn.
  - apply Happ. reflexivity.
  - destruct (approved _); [|reflexivity]. destruct Happ as [Happ _].
    discriminate (Happ eq_refl).
Qed.

Lemma approval_is_validation_witness :
  exists result st',
    create_plan Examples.example_env "plan-1" 0 (init Examples.example_env)
      Examples.write_without_content None true = (Ok result, st')
    /\ approved (result_execution_decision result) = valid (result_validation result).
Proof.
  destruct (create_plan Examples.example_env "plan-1" 0 (init Examples.example_env)
              Examples.write_without_content None true) as [[result|e] st'] eqn:E.
  - exists result, st'. split; [reflexivity|].
    refine (proj1 (approval_is_validation _ _ _ _ _ _ _ _ _ _ E)).
    repeat constructor; discriminate.
  - exfalso. apply (f_equal fst) in E. vm_compute in E. discriminate E.
Defined.

Lemma confirmation_reaches_verdict (rules : list GuardrailRule) (plan : Plan)
    (context : option Py.Dict) (now : Q) :
  requires_confirmation plan = true ->
  verdict_requires_confirmation (check_plan rules plan context now).1 = true.
Proof.
  intros Hrc. unfold check_plan.
  destruct (check_rules_fields plan context now rules (initial_verdict plan))
    as (_ & _ & Hconf & _).
  cbn zeta in Hconf. rewrite Hconf. cbn [initial_verdict verdict_requires_confirmation].
  rewrite Hrc. reflexivity.
Qed.

Lemma confirmation_reaches_decision (pv : Validation) (sc : Verdict) :
  verdict_requires_confirmation sc = true ->
  approved (make_execution_decision pv sc) = true ->
  decision_requires_confirmation (make_execution_decision pv sc) = true.
Proof.
  intros Hv. unfold make_execution_decision.
  destruct (_ ++ _)%list; cbn; [|discriminate]. rewrite Hv. reflexivity.
Qed.

(** X20. For a SAVE_FILE or WRITE_TEXT_FILE intent, whatever the security
    settings say, the plan that [create_plan] returns requires confirmation,
    so does the verdict of the guardrails, and so does the decision whenever
    it approves the plan.  For every other intent the plan itself does not
    require confirmation. *)
Theorem write_intents_require_confirmation (env : Env) (plan_id : string) (now : Q)
    (st : State) (i : Intent) (context : option Py.Dict) (optimize : bool)
    (result : PlanningResult) (st' : State) :
  create_plan env plan_id now st i context optimize = (Ok result, st') ->
  requires_confirmation (result_plan result) = is_write_intent (intent_type i)
  /\ (is_write_intent (intent_type i) = true ->
      verdict_requires_confirmation (result_security_check result) = true
      /\ (approved (result_execution_decision result) = true ->
          decision_requires_confirmation (result_execution_decision result) = true)).
Proof.
  intros E.
  destruct (create_plan_state _ _ _ _ _ _ _ _ _ E) as (_ & _ & Hrc & _).
  destruct (create_plan_result _ _ _ _ _ _ _ _ _ E) as (_ & Hsec & Hdec).
  split; [exact Hrc|]. intros Hw.
  assert (Hv : verdict_requires_confirmation (result_security_check result) = true).
  { rewrite Hsec. apply confirmation_reaches_verdict. rewrite Hrc. exact Hw. }
  split; [exact Hv|]. rewrite Hdec. apply confirmation_reaches_decision, Hv.
Qed.

Lemma write_intents_require_confirmation_witness :
  exists result st',
    create_plan Examples.example_env "plan-1" 0 (init Examples.example_env)
      Examples.write_without_content None true = (Ok result, st')
    /\ requires_confirmation (result_plan result) = true.
Proof.
  destruct (create_plan Examples.example_env "plan-1" 0 (init Examples.example_env)
              Examples.write_without_content None true) as [[result|e] st'] eqn:E.
  - exists result, st'. split; [reflexivity|].
    exact (proj1 (write_intents_require_confirmation _ _ _ _ _ _ _ _ _ E)).
  - exfalso. apply (f_equal fst) in E. vm_compute in E. discriminate E.
Defined.

(** ** Sessions *)

Section Sessions.
Context {W : Type} (collab : Collaborators W).

Lemma above_four_fifths (n m : nat) :
  0 < m ->
  (8 # 10 < inject_Z (Z.of_nat n) / inject_Z (Z.of_nat m))%Q <-> 4 * m < 5 * n.
Proof.
  intros Hm.
  assert (Hpos : (0 < inject_Z (Z.of_nat m))%Q).
  { change 0%Q with (inject_Z 0). rewrite <- Zlt_Qlt. lia. }
  assert (Hmul : ((8 # 10) * inject_Z (Z.of_nat m) < inject_Z (Z.of_nat n))%Q
                 <-> 4 * m < 5 * n).
  { unfold Qlt, Qmult, inject_Z. cbn. lia. }
  rewrite <- Hmul. split; intros H.
  - apply (Qmult_lt_compat_r _ _ (inject_Z (Z.of_nat m)) Hpos) in H.
    unfold Qdiv in H. rewrite <- Qmult_assoc, (Qmult_comm (/ _)), Qmult_inv_r,
      Qmult_1_r in H by (intros Hz; rewrite Hz in Hpos; discriminate).
    exact H.
  - apply Qlt_shift_div_l; assumption.
Qed.

Lemma final_status_success (s : ExecutionSession) :
  final_status s = StepStatus.SUCCESS
  <-> 4 * length (step_results s) < 5 * successful (step_results s).
Proof.
  unfold final_status, success_rate.
  destruct (step_results s) as [|r rs] eqn:E.
  { cbn. split; [discriminate | lia]. }
  pose proof (above_four_fifths (successful (r :: rs)) (length (r :: rs))
                ltac:(cbn; lia)) as Hiff.
  destruct (Qltb (8 # 10) _) eqn:Hq.
  - apply Qltb_lt in Hq. split; [intros _; apply Hiff, Hq | reflexivity].
  - split; [discriminate|]. intros H. apply Hiff, Qltb_lt in H. congruence.
Qed.

Lemma execute_plan_leaves (cache : gmap string Plan) (plan_id session : string)
    (w : W) (out : Result ExecutionReport) (s : ExecutionSession) (w' : W) :
  execute_plan collab cache plan_id session w = (out, Some s, w') ->
  session_id s = session
  /\ session_status s ∈ [StepStatus.SUCCESS; StepStatus.FAILED]
  /\ cache !! plan_id = Some (plan s)
  /\ length (step_results s) <= length (actions (plan s)).
Proof.
  intros E.
  assert (Hlen : length (step_results s) <= length (actions (plan s))).
  { destruct (execute_plan_session collab _ _ _ _ _ _ _ E) as (p & w0 & _ & -> & -> & _).
    destruct (run_loop_final collab p session w0) as (Hreach & _).
    apply (loop_reaches_invariant collab _ _ _ _ Hreach). }
  split; [|split; [|split; [|exact Hlen]]]; clear Hlen; revert E; unfold execute_plan;
    destruct (cache !! plan_id) as [p|]; try discriminate;
    destruct (observe collab w) as [[[]|e] w0]; try discriminate;
    destruct (observe collab (world _)) as [[[]|e] w1]; intros [= _ <- _]; cbn;
    try reflexivity; unfold final_status; try destruct (Qltb _ _);
    rewrite !elem_of_cons; auto.
Qed.

Lemma execute_plan_ok (cache : gmap string Plan) (plan_id session : string)
    (w : W) (report : ExecutionReport) (s : option ExecutionSession) (w' : W) :
  execute_plan collab cache plan_id session w = (Ok report, s, w') ->
  s <> None /\ report_session_id report = session.
Proof.
  unfold execute_plan.
  destruct (cache !! plan_id) as [p|]; [|discriminate].
  destruct (observe collab w) as [[[]|e] w0]; [|discriminate].
  destruct (observe collab (world _)) as [[[]|e] w1]; [|discriminate].
  intros [= <- <- _]. split; [discriminate | reflexivity].
Qed.

Lemma execution_outcome_fields (cache : gmap string Plan)
    (plan_id session : string) (w : W) (report : ExecutionReport)
    (s : ExecutionSession) (w' : W) :
  execute_plan collab cache plan_id session w = (Ok report, Some s, w') ->
  session_status s
  = (if report_success report then StepStatus.SUCCESS else StepStatus.FAILED)
  /\ (report_success report = true
      <-> 4 * length (step_results s) < 5 * successful (step_results s))
  /\ report_session_id report = session.
Proof.
  unfold execute_plan.
  destruct (cache !! plan_id) as [p|]; [|discriminate].
  destruct (observe collab w) as [[[]|e] w0]; [|discriminate].
  set (l := run_loop collab (length (actions p)) p session (loop_start w0)).
  destruct (observe collab (world l)) as [[[]|e] w1]; [|discriminate].
  intros [= <- <- _]. cbn.
  set (s1 := with_results _ StepStatus.RUNNING (results l)).
  pose proof (final_status_success s1) as Hfs. cbn [s1 with_results step_results] in Hfs.
  assert (Hcases : final_status s1 = StepStatus.SUCCESS \/ final_status s1 = StepStatus.FAILED).
  { unfold final_status. destruct (Qltb _ _); auto. }
  split; [destruct Hcases as [-> | ->]; reflexivity|].
  split; [rewrite bool_decide_eq_true; exact Hfs | reflexivity].
Qed.

(** X21. When [_execute_plan] returns, it reports success exactly when more
    than four fifths of the step results of the session are SUCCESS; the
    session is left SUCCESS or FAILED accordingly, under the identifier
    reported, with as many completed steps as it has results.  In
    particular a plan without actions is reported as failed. *)
Theorem execution_succeeds_above_four_fifths (cache : gmap string Plan)
    (plan_id session : string) (w : W) (report : ExecutionReport)
    (s : ExecutionSession) (w' : W) :
  execute_plan collab cache plan_id session w = (Ok report, Some s, w') ->
  (report_success report = true
   <-> 4 * length (step_results s) < 5 * successful (step_results s))
  /\ session_status s
     = (if report_success report then StepStatus.SUCCESS else StepStatus.FAILED)
  /\ session_id s = session
  /\ report_session_id report = session
  /\ steps_completed report = length (step_results s)
  /\ report_success_rate report = success_rate s
  /\ (actions (plan s) = [] -> report_success report = false).
Proof.
  intros E.
  assert (Hlen : length (step_results s) <= length (actions (plan s))).
  { destruct (execute_plan_session collab _ _ _ _ _ _ _ E) as (p & w0 & _ & -> & -> & _).
    destruct (run_loop_final collab p session w0) as (Hreach & _).
    apply (loop_reaches_invariant collab _ _ _ _ Hreach). }
  revert E. unfold execute_plan.
  destruct (cache !! plan_id) as [p|]; [|discriminate].
  destruct (observe collab w) as [[[]|e] w0]; [|discriminate].
  set (l := run_loop collab (length (actions p)) p session (loop_start w0)).
  destruct (observe collab (world l)) as [[[]|e] w1]; [|discriminate].
  intros [= <- <- _]. cbn in Hlen |- *.
  set (s1 := with_results _ StepStatus.RUNNING (results l)).
  pose proof (final_status_success s1) as Hfs. cbn [s1 with_results step_results] in Hfs.
  assert (Hcases : final_status s1 = StepStatus.SUCCESS \/ final_status s1 = StepStatus.FAILED).
  { unfold final_status. destruct (Qltb _ _); auto. }
  split; [rewrite bool_decide_eq_true; exact Hfs|].
  split. { destruct Hcases as [-> | ->]; reflexivity. }
  repeat split; try reflexivity.
  intros Hnil. rewrite Hnil in Hlen. cbn in Hlen.
  pose proof (successful_le (results l)).
  apply bool_decide_eq_false. rewrite Hfs. lia.
Qed.

(** X22. At every point of the execution loop, the step result number [k]
    belongs to the action number [k] of the plan, carries the identifier of
    the session followed by an underscore and [k], and is SUCCESS, FAILED
    or SKIPPED; it is SKIPPED exactly when the action has no [skill_name]
    parameter.  So the identifiers of the step results of a session are
    pairwise different. *)
Theorem step_results_follow_the_actions (p : Plan) (session : string) (w : W)
    (l : Loop W) :
  loop_reaches collab p session w l ->
  (forall k r,
     results l !! k = Some r ->
     exists action,
       actions p !! k = Some action
       /\ step_id r = (session ++ "_" ++ pretty k)%string
       /\ status r ∈ [StepStatus.SUCCESS; StepStatus.FAILED; StepStatus.SKIPPED]
       /\ (status r = StepStatus.SKIPPED <-> is_primitive action))
  /\ NoDup (step_id <$> results l).
Proof.
  intros Hreach.
  assert (Hall : forall k r,
     results l !! k = Some r ->
     exists action,
       actions p !! k = Some action
       /\ step_id r = (session ++ "_" ++ pretty k)%string
       /\ status r ∈ [StepStatus.SUCCESS; StepStatus.FAILED; StepStatus.SKIPPED]
       /\ (status r = StepStatus.SKIPPED <-> is_primitive action)).
  { induction Hreach as [|l l' Hl IH Hstep]; intros k r Hk.
    { cbn in Hk. rewrite lookup_nil in Hk. discriminate. }
    destruct (loop_reaches_invariant collab _ _ _ _ Hl) as (Hidx & _).
    destruct (loop_step_next collab p session l l' Hstep) as (_ & action & Hact & ->).
    cbn [results] in Hk.
    destruct (decide (k < length (results l))) as [Hlt|Hge].
    { rewrite lookup_app_l in Hk by exact Hlt. apply IH, Hk. }
    rewrite lookup_app_r in Hk by lia.
    destruct (k - length (results l)) as [|j] eqn:Hj; [|destruct j; discriminate].
    assert (k = next_index l) as -> by lia.
    injection Hk as <-. exists action. split; [exact Hact|].
    unfold execute_action, is_primitive.
    destruct (Py.get (parameters action) "skill_name") as [skill_name|].
    - destruct (dispatch collab _ _ _ _) as [[res|e] w1]; cbn.
      + split; [reflexivity|]. split.
        * destruct (success res); [left | right; left].
        * split; [destruct (success res)|]; discriminate.
      + split; [reflexivity|]. split; [right; left|]. split; discriminate.
    - cbn. split; [reflexivity|]. split; [right; right; left|]. split; reflexivity. }
  split; [exact Hall|].
  apply NoDup_alt. intros i j sid Hi Hj.
  rewrite list_lookup_fmap in Hi, Hj.
  destruct (results l !! i) as [ri|] eqn:Ei; [|discriminate].
  destruct (results l !! j) as [rj|] eqn:Ej; [|discriminate].
  destruct (Hall i ri Ei) as (_ & _ & Hidi & _).
  destruct (Hall j rj Ej) as (_ & _ & Hidj & _).
  cbn in Hi, Hj. injection Hi as Hi. injection Hj as Hj.
  rewrite Hidi in Hi. rewrite Hidj in Hj. rewrite <- Hj in Hi.
  apply (inj (String.app session)) in Hi. apply (inj (String.app "_")) in Hi.
  apply (inj pretty) in Hi. exact Hi.
Qed.

End Sessions.

Lemma execution_succeeds_above_four_fifths_witness :
  exists report s w',
    execute_plan Examples.counting {[ "plan-3" := Examples.three_skills ]}
      "plan-3" "s" 0 = (Ok report, Some s, w')
    /\ session_status s = StepStatus.SUCCESS.
Proof.
  destruct (execute_plan Examples.counting {[ "plan-3" := Examples.three_skills ]}
              "plan-3" "s" 0) as [[[report|e] [s|]] w'] eqn:E.
  - exists report, s, w'. split; [reflexivity|].
    destruct (execution_succeeds_above_four_fifths _ _ _ _ _ _ _ _ E) as (_ & -> & _).
    apply (f_equal (fun x => match x.1.1 with
                             | Ok r => report_success r
                             | Raise _ => false
                             end)) in E.
    cbn in E. rewrite <- E. vm_compute. reflexivity.
  - exfalso. apply (f_equal (fun x => x.1.2)) in E. vm_compute in E. discriminate E.
  - exfalso. apply (f_equal (fun x => x.1.1)) in E. vm_compute in E. discriminate E.
  - exfalso. apply (f_equal (fun x => x.1.1)) in E. vm_compute in E. discriminate E.
Defined.

Lemma step_results_follow_the_actions_witness :
  NoDup (step_id <$> results (run_loop Examples.second_fails 3 Examples.three_skills
                                "s" (loop_start 0))).
Proof.
  apply (step_results_follow_the_actions Examples.second_fails
           Examples.three_skills "s" 0).
  apply run_loop_reaches, reaches_start.
Defined.

(** ** Commands *)

Import Commands.

Lemma coherent_create_plan_from (env : Env) (plan_id : string) (now : Q)
    (st : PlannerManager.State) (entry : IntentEntry) (context : option Py.Dict) :
  Planner.coherent env st ->
  Planner.coherent env (create_plan_from env plan_id now st entry context).2.
Proof.
  intros Hst. destruct entry as [i|d].
  - apply (planner_coherent_call env st (CreatePlan plan_id now i context true) Hst).
  - destruct Hst as (Hcount & Hcache & Hrules). cbn.
    unfold Planner.coherent, get_plan_by_id. cbn. split; [lia|]. auto.
Qed.

Section CommandProperties.
Context {W : Type} (env : Env) (collab : Collaborators W) (front : Frontend W).

Lemma execute_plan_registered_spec (sv : Service) (plan_id session : string) (w : W)
    (out : Result ExecutionReport) (sv' : Service) (w' : W) :
  execute_plan_registered collab sv plan_id session w = (out, sv', w') ->
  commands_processed sv' = commands_processed sv
  /\ commands_successful sv' = commands_successful sv
  /\ planner_manager sv' = planner_manager sv
  /\ ((active_sessions sv' = active_sessions sv /\ forall report, out <> Ok report)
      \/ exists s,
           active_sessions sv' = <[session := s]> (active_sessions sv)
           /\ session_id s = session
           /\ session_status s ∈ [StepStatus.SUCCESS; StepStatus.FAILED]
           /\ get_plan_by_id (planner_manager sv) plan_id = Some (plan s)
           /\ length (step_results s) <= length (actions (plan s))
           /\ forall report, out = Ok report ->
                report_session_id report = session
                /\ session_status s
                   = (if report_success report then StepStatus.SUCCESS
                      else StepStatus.FAILED)
                /\ (report_success report = true
                    <-> 4 * length (step_results s) < 5 * successful (step_results s))).
Proof.
  unfold execute_plan_registered.
  destruct (execute_plan collab _ plan_id session w) as [[out0 s] w0] eqn:E.
  intros [= <- <- <-]. cbn. repeat (split; [reflexivity|]).
  destruct s as [s|].
  - right. exists s.
    destruct (execute_plan_leaves collab _ _ _ _ _ _ _ E) as (Hid & Hst & Hplan & Hlen).
    rewrite Hid. repeat (split; [assumption || reflexivity|]).
    intros report ->.
    destruct (execution_outcome_fields collab _ _ _ _ _ _ _ E) as (Hs & Hiff & Hr).
    auto.
  - left. split; [reflexivity|]. intros report ->.
    apply (execute_plan_ok collab) in E. destruct E as [E _]. congruence.
Qed.

Ltac command_leaf := intros [= <- <- <-]; cbn.

Ltac command_done :=
  repeat match goal with |- _ /\ _ => split end;
  try reflexivity; try discriminate; auto;
  try (rewrite !elem_of_cons, elem_of_nil; intuition discriminate).

(** X23. [process_command] executes a plan, that is, it reaches the stage
    "completed" or registers a session, only when nobody asked for a
    confirmation: neither the caller nor the command, and the decision of
    the planner neither, which means that the language side gave an
    [Intent] object for an intent that does not write a file, and that its
    plan was approved, passes validation and requires no confirmation.  The
    session of that plan is then registered under the new session
    identifier, and the stage is "completed" or, when the execution raised
    after the session was registered, "error".  In the stage "completed"
    the command succeeds exactly when the session is left SUCCESS. *)
Theorem process_command_executes_only_unconfirmed (plan_id : string) (now : Q)
    (session : string) (sv : Service) (w : W) (command : Command)
    (require_confirmation : option bool)
    (r : CommandResult) (sv' : Service) (w' : W) :
  process_command env collab front plan_id now session sv w command
    require_confirmation = (r, sv', w') ->
  stage r = COMPLETED \/ active_sessions sv' <> active_sessions sv ->
  require_confirmation <> Some true
  /\ command_require_confirmation command = false
  /\ exists nlu w1 i context plan_result s,
       understand front w (text command) = (Ok nlu, w1)
       /\ ready_for_execution nlu = true
       /\ nlu_intent nlu = IntentObject i
       /\ is_write_intent (intent_type i) = false
       /\ create_plan env plan_id now (planner_manager sv) i (Some context) true
          = (Ok plan_result, planner_manager sv')
       /\ approved (result_execution_decision plan_result) = true
       /\ decision_requires_confirmation (result_execution_decision plan_result) = false
       /\ valid (result_validation plan_result) = true
       /\ active_sessions sv' = <[session := s]> (active_sessions sv)
       /\ plan s = result_plan plan_result
       /\ (stage r = COMPLETED \/ stage r = ERROR)
       /\ (stage r = COMPLETED ->
           command_session_id r = Some session
           /\ (command_success r = true <-> session_status s = StepStatus.SUCCESS)).
Proof.
  assert (Hskip : forall (st : Stage) (m : gmap string ExecutionSession) (P : Prop),
            st <> COMPLETED -> st = COMPLETED \/ m <> m -> P).
  { intros st m P Hst [H|H]; [contradiction | exfalso; apply H; reflexivity]. }
  unfold process_command.
  destruct (understand front w (text command)) as [[nlu|e] w1] eqn:Hnlu;
    [|command_leaf; apply Hskip; discriminate].
  destruct (ready_for_execution nlu) eqn:Hready; cbn [negb];
    [|command_leaf; apply Hskip; discriminate].
  destruct (get_execution_context collab front w1) as [context w2].
  destruct (nlu_intent nlu) as [i|d] eqn:Hentry; cbn [create_plan_from];
    [|command_leaf; apply Hskip; discriminate].
  cbn [planner_manager].
  destruct (create_plan env plan_id now (planner_manager sv) i (Some context) true)
    as [[plan_result|e] st'] eqn:Hcp; [|command_leaf; apply Hskip; discriminate].
  destruct (approved (result_execution_decision plan_result)) eqn:Happ; cbn [negb];
    [|command_leaf; apply Hskip; discriminate].
  destruct (needs_confirmation _ _ _) eqn:Hneed;
    [command_leaf; apply Hskip; discriminate|].
  destruct (execute_plan_registered _ _ _ _ _) as [[out sv1] w3] eqn:Hex.
  destruct (execute_plan_registered_spec _ _ _ _ _ _ _ Hex)
    as (_ & _ & Hpl & Hcases).
  destruct (create_plan_state _ _ _ _ _ _ _ _ _ Hcp)
    as (Hid & _ & Hrc & _ & _ & _ & Hcache).
  destruct (create_plan_result _ _ _ _ _ _ _ _ _ Hcp) as (Hval & Hsecurity & Hdecision).
  unfold needs_confirmation in Hneed.
  apply orb_false_iff in Hneed as [Hneed Hcmd].
  apply orb_false_iff in Hneed as [Hcaller Hdec].
  cbn in Hpl, Hcases. rewrite Happ in Hcache.
  assert (Hexecuted : forall sessions' : gmap string ExecutionSession,
            sessions' = active_sessions sv1 ->
            (exists report, out = Ok report) \/ sessions' <> active_sessions sv ->
            exists s,
              sessions' = <[session := s]> (active_sessions sv)
              /\ plan s = result_plan plan_result
              /\ forall report, out = Ok report ->
                   report_session_id report = session
                   /\ session_status s
                      = (if report_success report then StepStatus.SUCCESS
                         else StepStatus.FAILED)).
  { intros sessions' -> Hran.
    destruct Hcases as [[Hsame Hno] | (s & Hs & _ & _ & Hget & _ & Hrep)].
    { exfalso. destruct Hran as [[report ->]|Hne];
        [apply (Hno report); reflexivity | apply Hne, Hsame]. }
    exists s. split; [exact Hs|]. split.
    - unfold get_plan_by_id in Hget. rewrite Hcache, Hid, lookup_insert_eq in Hget.
      congruence.
    - intros report Hout. destruct (Hrep report Hout) as (Hsid & Hst & _). auto. }
  assert (Hconditions :
    require_confirmation <> Some true
    /\ command_require_confirmation command = false
    /\ is_write_intent (intent_type i) = false
    /\ valid (result_validation plan_result) = true).
  { split. { intros ->. discriminate. }
    split; [exact Hcmd|]. split.
    - destruct (is_write_intent (intent_type i)); [|reflexivity].
      pose proof Happ as Happ'. rewrite Hdecision in Happ'.
      apply confirmation_reaches_decision in Happ'.
      + rewrite <- Hdecision, Hdec in Happ'. discriminate.
      + rewrite Hsecurity. apply confirmation_reaches_verdict, Hrc.
    - rewrite Hdecision in Happ.
      apply (approved_is_valid (result_validation plan_result)
               (result_security_check plan_result)); [|exact Happ].
      rewrite Hval. apply validate_plan_consistent. }
  destruct Hconditions as (Hc1 & Hc2 & Hc3 & Hc4).
  destruct out as [report|e]; command_leaf; intros Hran.
  - destruct (Hexecuted _ eq_refl (or_introl (ex_intro _ report eq_refl)))
      as (s & Hs & Hplan & Hrep).
    destruct (Hrep report eq_refl) as (Hsid & Hst).
    split; [exact Hc1|]. split; [exact Hc2|].
    exists nlu, w1, i, context, plan_result, s.
    split; [reflexivity|]. split; [exact Hready|]. split; [exact Hentry|].
    split; [exact Hc3|]. split; [rewrite Hpl; exact Hcp|]. split; [exact Happ|].
    split; [exact Hdec|]. split; [exact Hc4|]. split; [exact Hs|].
    split; [exact Hplan|]. split; [left; reflexivity|]. intros _.
    split; [rewrite Hsid; reflexivity|].
    rewrite Hst. destruct (report_success report); split; congruence.
  - assert (Hne : active_sessions sv1 <> active_sessions sv).
    { destruct Hran as [H|H]; [discriminate H | exact H]. }
    destruct (Hexecuted _ eq_refl (or_intror Hne)) as (s & Hs & Hplan & _).
    split; [exact Hc1|]. split; [exact Hc2|].
    exists nlu, w1, i, context, plan_result, s.
    split; [reflexivity|]. split; [exact Hready|]. split; [exact Hentry|].
    split; [exact Hc3|]. split; [rewrite Hpl; exact Hcp|]. split; [exact Happ|].
    split; [exact Hdec|]. split; [exact Hc4|]. split; [exact Hs|].
    split; [exact Hplan|]. split; [right; reflexivity|]. discriminate.
Qed.

(** X24. [process_command] counts every command as processed, and as
    successful exactly when it reaches the stage "completed" with success.
    It reports success only in the stages "confirmation_required" and
    "completed".  In the stages "nlu", "planning" and
    "confirmation_required" no session is created.  In the stage
    "confirmation_required" the identifier returned is that of the new plan,
    which [get_plan_by_id] finds afterwards. *)
Theorem process_command_bookkeeping (plan_id : string) (now : Q)
    (session : string) (sv : Service) (w : W) (command : Command)
    (require_confirmation : option bool)
    (r : CommandResult) (sv' : Service) (w' : W) :
  process_command env collab front plan_id now session sv w command
    require_confirmation = (r, sv', w') ->
  commands_processed sv' = S (commands_processed sv)
  /\ commands_successful sv'
     = (if bool_decide (stage r = COMPLETED) && command_success r
        then S (commands_successful sv) else commands_successful sv)
  /\ (command_success r = true -> stage r = CONFIRMATION_REQUIRED \/ stage r = COMPLETED)
  /\ (stage r ∈ [NLU; PLANNING; CONFIRMATION_REQUIRED] ->
      active_sessions sv' = active_sessions sv)
  /\ (stage r = NLU -> planner_manager sv' = planner_manager sv /\ w' = (understand front w (text command)).2)
  /\ (stage r = CONFIRMATION_REQUIRED ->
      command_success r = true
      /\ command_plan_id r = Some plan_id
      /\ exists p, get_plan_by_id (planner_manager sv') plan_id = Some p
                   /\ id p = plan_id).
Proof.
  unfold process_command.
  destruct (understand front w (text command)) as [[nlu|e] w1] eqn:Hnlu.
  2:{ command_leaf. command_done. }
  destruct (ready_for_execution nlu) eqn:Hready; cbn [negb].
  2:{ command_leaf. command_done. }
  destruct (get_execution_context collab front w1) as [context w2].
  cbn [planner_manager].
  destruct (create_plan_from env plan_id now (planner_manager sv) (nlu_intent nlu)
              (Some context)) as [[plan_result|e] st'] eqn:Hcp.
  2:{ command_leaf. command_done. }
  destruct (approved (result_execution_decision plan_result)) eqn:Happ; cbn [negb].
  2:{ command_leaf. command_done. }
  destruct (needs_confirmation _ _ _) eqn:Hneed.
  { command_leaf.
    repeat (match goal with |- _ /\ _ => split end; [solve [command_done]|]).
    intros _. split; [reflexivity|]. split.
    - destruct (nlu_intent nlu) as [i|d]; [|discriminate].
      cbn in Hcp. destruct (create_plan_state _ _ _ _ _ _ _ _ _ Hcp) as (-> & _).
      reflexivity.
    - destruct (nlu_intent nlu) as [i|d]; [|discriminate].
      cbn in Hcp.
      destruct (create_plan_state _ _ _ _ _ _ _ _ _ Hcp)
        as (Hid & _ & _ & _ & _ & _ & Hcache).
      rewrite Happ in Hcache. exists (result_plan plan_result).
      unfold get_plan_by_id. rewrite Hcache, lookup_insert_eq. auto. }
  destruct (execute_plan_registered _ _ _ _ _) as [[[report|e] sv1] w3] eqn:Hex.
  - destruct (execute_plan_registered_spec _ _ _ _ _ _ _ Hex) as (Hp & Hs & _).
    command_leaf. cbn in Hp, Hs. rewrite Hp, Hs.
    command_done.
  - destruct (execute_plan_registered_spec _ _ _ _ _ _ _ Hex) as (Hp & Hs & _).
    command_leaf. cbn in Hp, Hs. rewrite Hp, Hs.
    command_done.
Qed.

(** X25. [execute_plan_by_id] changes neither the counters nor the planner
    manager.  On an identifier that is not in the plan cache it fails with
    the message that the plan was not found, and changes nothing at all.  It
    reports success only when it registered, under the new session
    identifier, a session of the cached plan that was left SUCCESS, with
    more than four fifths of its step results SUCCESS. *)
Theorem execute_plan_by_id_spec (sv : Service) (plan_id session : string) (w : W)
    (o : Outcome) (sv' : Service) (w' : W) :
  execute_plan_by_id collab sv plan_id session w = (o, sv', w') ->
  commands_processed sv' = commands_processed sv
  /\ commands_successful sv' = commands_successful sv
  /\ planner_manager sv' = planner_manager sv
  /\ (get_plan_by_id (planner_manager sv) plan_id = None ->
      sv' = sv /\ w' = w /\ outcome_success o = false
      /\ outcome_error o = Some ("Plan " ++ plan_id ++ " non trouvé")%string)
  /\ (outcome_success o = true ->
      exists s,
        active_sessions sv' = <[session := s]> (active_sessions sv)
        /\ get_plan_by_id (planner_manager sv) plan_id = Some (plan s)
        /\ session_status s = StepStatus.SUCCESS
        /\ 4 * length (step_results s) < 5 * successful (step_results s)
        /\ outcome_session_id o = Some session).
Proof.
  unfold execute_plan_by_id.
  destruct (get_plan_by_id (planner_manager sv) plan_id) as [p|] eqn:Hget.
  2:{ command_leaf. repeat split; try reflexivity; discriminate. }
  destruct (execute_plan_registered collab sv plan_id session w)
    as [[[report|e] sv1] w1] eqn:Hex.
  - destruct (execute_plan_registered_spec _ _ _ _ _ _ _ Hex)
      as (Hp & Hs & Hpl & Hcases).
    command_leaf. repeat (split; [assumption|]). split; [discriminate|].
    intros Hok. destruct Hcases as [[_ Hno] | (s & Hsess & _ & _ & Hplan & _ & Hrep)].
    { exfalso. apply (Hno report). reflexivity. }
    destruct (Hrep report eq_refl) as (Hsid & Hst & Hiff). rewrite Hok in Hst.
    exists s. split; [exact Hsess|]. split; [congruence|]. split; [exact Hst|].
    split; [apply Hiff, Hok | rewrite Hsid; reflexivity].
  - destruct (execute_plan_registered_spec _ _ _ _ _ _ _ Hex) as (Hp & Hs & Hpl & _).
    command_leaf. repeat (split; [assumption|]). split; discriminate.
Qed.

Lemma coherent_new_service : Commands.coherent env (new_service env).
Proof.
  split; [reflexivity|]. split; [apply planner_coherent_init|].
  intros k s Hk. cbn in Hk. rewrite lookup_empty in Hk. discriminate.
Qed.

Lemma coherent_execute_plan_registered (sv : Service) (plan_id session : string)
    (w : W) (out : Result ExecutionReport) (sv' : Service) (w' : W) :
  Commands.coherent env sv ->
  execute_plan_registered collab sv plan_id session w = (out, sv', w') ->
  Commands.coherent env sv'.
Proof.
  intros (Hcount & Hplanner & Hsessions) Hex.
  destruct (execute_plan_registered_spec _ _ _ _ _ _ _ Hex)
    as (Hp & Hs & Hpl & Hcases).
  split; [lia|]. split; [rewrite Hpl; exact Hplanner|].
  destruct Hcases as [[-> _] | (s & -> & Hid & Hst & Hget & Hlen & _)];
    [exact Hsessions|].
  intros k s0. destruct (decide (session = k)) as [<-|Hne].
  - rewrite lookup_insert_eq. intros [= <-].
    split; [exact Hid|]. split; [exact Hst|]. split; [|exact Hlen].
    destruct Hplanner as (_ & Hcache & _). apply (Hcache plan_id), Hget.
  - rewrite lookup_insert_ne by exact Hne. apply Hsessions.
Qed.

Lemma service_coherent_call (x : Service * W) (c : Call) :
  Commands.coherent env x.1 -> Commands.coherent env (call env collab front x c).1.
Proof.
  destruct x as [sv w]. cbn [fst]. intros Hsv.
  destruct c as [plan_id now session command require_confirmation
                | plan_id session | session]; cbn [call fst snd].
  - pose proof Hsv as (Hcount & Hplanner & Hsessions).
    unfold process_command.
    destruct (understand front w (text command)) as [[nlu|e] w1].
    2:{ cbn. split; [cbn; lia|]. split; assumption. }
    destruct (ready_for_execution nlu); cbn [negb].
    2:{ cbn. split; [cbn; lia|]. split; assumption. }
    destruct (get_execution_context collab front w1) as [context w2].
    cbn [planner_manager].
    pose proof (coherent_create_plan_from env plan_id now (planner_manager sv)
                  (nlu_intent nlu) (Some context) Hplanner) as Hst'.
    destruct (create_plan_from _ _ _ _ _ _) as [[plan_result|e] st']; cbn [snd] in Hst'.
    2:{ cbn. split; [cbn; lia|]. split; assumption. }
    assert (Hmid : Commands.coherent env
              (with_planner
                 {| commands_processed := S (commands_processed sv);
                    commands_successful := commands_successful sv;
                    active_sessions := active_sessions sv;
                    planner_manager := planner_manager sv |} st')).
    { split; [cbn; lia|]. split; assumption. }
    destruct (approved _); cbn [negb]; [|exact Hmid].
    destruct (needs_confirmation _ _ _); [exact Hmid|].
    destruct (execute_plan_registered _ _ _ _ _) as [[out sv1] w3] eqn:Hex.
    pose proof (coherent_execute_plan_registered _ _ _ _ _ _ _ Hmid Hex)
      as (Hcount1 & Hplanner1 & Hsessions1).
    destruct (execute_plan_registered_spec _ _ _ _ _ _ _ Hex) as (Hp & Hs & _).
    cbn in Hp, Hs.
    destruct out as [report|e]; cbn [fst]; [|split; [lia|split; assumption]].
    split; [|split; assumption]. cbn. destruct (report_success report); lia.
  - unfold execute_plan_by_id.
    destruct (get_plan_by_id _ _); [|exact Hsv].
    destruct (execute_plan_registered _ _ _ _ _) as [[out sv1] w1] eqn:Hex.
    pose proof (coherent_execute_plan_registered _ _ _ _ _ _ _ Hsv Hex).
    destruct out; assumption.
  - destruct Hsv as (Hcount & Hplanner & Hsessions).
    split; [exact Hcount|]. split; [exact Hplanner|].
    intros k s. cbn. intros Hk. apply lookup_delete_Some in Hk as [_ Hk].
    apply Hsessions, Hk.
Qed.

Lemma service_coherent_after (cs : list Call) (w : W) :
  Commands.coherent env (after env collab front cs w).1.
Proof.
  unfold after.
  assert (Hstart : Commands.coherent env (new_service env, w).1)
    by apply coherent_new_service.
  revert Hstart. generalize (new_service env, w).
  induction cs as [|c cs IH]; intros x Hx; cbn; [exact Hx|].
  apply IH, service_coherent_call, Hx.
Qed.

(** X26. After any sequence of [process_command] and [execute_plan_by_id]
    calls and session clean-ups on a new service: no more commands are
    counted as successful than as processed; every registered session is
    stored under its own identifier, is over (SUCCESS or FAILED), has at most
    as many step results as its plan has actions, and is the execution of a
    plan that passes [validate_plan]; and every cached plan is stored under
    its own identifier and passes [validate_plan]. *)
Theorem service_stays_coherent (cs : list Call) (w : W) :
  let sv := (after env collab front cs w).1 in
  commands_successful sv <= commands_processed sv
  /\ (forall k s,
        active_sessions sv !! k = Some s ->
        session_id s = k
        /\ session_status s ∈ [StepStatus.SUCCESS; StepStatus.FAILED]
        /\ valid (validate_plan env (plan s)) = true
        /\ length (step_results s) <= length (actions (plan s)))
  /\ (forall k p,
        get_plan_by_id (planner_manager sv) k = Some p ->
        id p = k /\ valid (validate_plan env p) = true).
Proof.
  cbn zeta. destruct (service_coherent_after cs w) as (Hcount & (_ & Hcache & _) & Hsessions).
  auto.
Qed.

End CommandProperties.

(** ** Validation of an intent *)

Import IntentValidation.

Lemma blocked_verdict_has_failed (rules : list GuardrailRule) (plan : Plan)
    (context : option Py.Dict) (now : Q) :
  overall_passed (check_plan rules plan context now).1 = true ->
  can_execute (check_plan rules plan context now).1 = true.
Proof.
  unfold check_plan.
  destruct (check_rules_fields plan context now rules (initial_verdict plan))
    as (Hcan & Hall & _).
  cbn zeta in *. cbn [initial_verdict can_execute overall_passed andb] in *.
  rewrite Hall, Hcan. intros Hpass.
  destruct (forallb _ rules) eqn:Hf; [reflexivity|].
  destruct (forallb_false _ _ Hf) as (rule & Hin & Hb).
  apply negb_false_iff, (blocks_error_entries plan context now) in Hb.
  rewrite forallb_forall in Hpass. rewrite (Hpass rule Hin) in Hb. discriminate.
Qed.

(** X27. [validate_intent_for_planning] accepts an intent exactly when each
    slot required for its type is present with a value that counts as true
    and the simulated guardrail check allows execution; the result is valid
    exactly when it has no error.  When a required slot is missing, the
    guardrails are not consulted and the manager is unchanged.  With an
    engine that has no rule of severity critical, the presence of the
    required slots alone decides; so an intent of a type without required
    slots, the unknown type included, is always accepted. *)
Theorem validate_intent_for_planning_spec (format_2f : Q -> string)
    (st : PlannerManager.State) (plan_id : string) (now : Q) (i : Intent) :
  let r := validate_intent_for_planning format_2f st plan_id now i in
  let present := fun slot =>
    exists v, Py.get (slots i) slot = Some v /\ Py.truthy v = true in
  (intent_valid r.1 = true
   <-> Forall present (get_required_slots (intent_type i))
       /\ can_execute (simulate_check (rules st) plan_id i (slots i) now).1 = true)
  /\ intent_valid r.1 = is_nil (intent_errors r.1)
  /\ (~ Forall present (get_required_slots (intent_type i)) ->
      r.2 = st /\ intent_valid r.1 = false)
  /\ (Forall (fun rule => severity rule <> "critical"%string) (rules st) ->
      (intent_valid r.1 = true <-> Forall present (get_required_slots (intent_type i)))
      /\ (get_required_slots (intent_type i) = [] -> intent_valid r.1 = true)).
Proof.
  cbn zeta.
  set (present := fun slot => exists v, Py.get (slots i) slot = Some v /\ Py.truthy v = true).
  assert (Hmissing : List.filter (slot_missing (slots i)) (get_required_slots (intent_type i)) = []
                     <-> Forall present (get_required_slots (intent_type i))).
  { rewrite filter_nil_iff, List.Forall_forall. unfold slot_missing, present.
    split; intros H slot Hin; specialize (H slot Hin).
    - destruct (Py.get (slots i) slot) as [v|]; [|discriminate].
      exists v. split; [reflexivity|]. now apply negb_false_iff.
    - destruct H as (v & -> & Hv). now rewrite Hv. }
  assert (Hcore :
    let r := validate_intent_for_planning format_2f st plan_id now i in
    (intent_valid r.1 = true
     <-> Forall present (get_required_slots (intent_type i))
         /\ can_execute (simulate_check (rules st) plan_id i (slots i) now).1 = true)
    /\ intent_valid r.1 = is_nil (intent_errors r.1)
    /\ (~ Forall present (get_required_slots (intent_type i)) ->
        r.2 = st /\ intent_valid r.1 = false)).
  { cbn zeta. unfold validate_intent_for_planning.
    destruct (List.filter _ _) as [|m ms] eqn:Hf.
    - pose proof (proj1 Hmissing eq_refl) as Hall.
      pose proof (blocked_verdict_has_failed (rules st)) as Hpass.
      unfold simulate_check in *.
      match goal with |- context [check_plan (rules st) ?p None now] =>
        specialize (Hpass p None now);
        destruct (check_plan (rules st) p None now) as [sim rules'] end.
      cbn [fst] in *.
      destruct (overall_passed sim); cbn [negb].
      + rewrite (Hpass eq_refl). cbn. split; [tauto|]. split; [reflexivity|]. tauto.
      + destruct (can_execute sim); cbn.
        * split; [tauto|]. split; [reflexivity|]. tauto.
        * split; [split; [discriminate | intros [_ H]; discriminate H]|].
          split; [reflexivity|]. tauto.
    - assert (Hnot : ~ Forall present (get_required_slots (intent_type i))).
      { intros H. apply Hmissing in H. discriminate. }
      cbn. split; [split; [discriminate | tauto]|]. split; [reflexivity|]. auto. }
  cbn zeta in Hcore. destruct Hcore as (Hiff & Hnil & Hno).
  split; [exact Hiff|]. split; [exact Hnil|]. split; [exact Hno|].
  intros Hrules.
  assert (Hcan : can_execute (simulate_check (rules st) plan_id i (slots i) now).1 = true).
  { unfold simulate_check. apply noncritical_can_execute, Hrules. }
  split.
  - rewrite Hiff. tauto.
  - intros Hreq. apply Hiff. rewrite Hreq. split; [constructor | exact Hcan].
Qed.

(** ** Rectangles *)

Import Geometry.

(** X28. A bounding box can be built exactly when its width and height are
    not negative.  The centre of a box lies inside it, at most half a pixel
    off the middle because the division rounds down. *)
Theorem center_is_inside (x0 y0 w h : Z) :
  (BoundingBox_init x0 y0 w h = None <-> (w < 0 \/ h < 0)%Z)
  /\ forall b,
       BoundingBox_init x0 y0 w h = Some b ->
       (x b <= (center b).1 <= right b)%Z
       /\ (y b <= (center b).2 <= bottom b)%Z
       /\ (0 <= (right b - (center b).1) - ((center b).1 - x b) <= 1)%Z
       /\ (0 <= (bottom b - (center b).2) - ((center b).2 - y b) <= 1)%Z.
Proof.
  unfold BoundingBox_init.
  destruct (Z.ltb_spec w 0) as [Hw|Hw]; cbn [orb].
  { split; [split; [lia | reflexivity] | discriminate]. }
  destruct (Z.ltb_spec h 0) as [Hh|Hh].
  { split; [split; [lia | reflexivity] | discriminate]. }
  split; [split; [discriminate | lia]|].
  intros b [= <-]. unfold center, right, bottom. cbn.
  pose proof (Z.div_mod w 2 ltac:(lia)). pose proof (Z.mod_pos_bound w 2 ltac:(lia)).
  pose proof (Z.div_mod h 2 ltac:(lia)). pose proof (Z.mod_pos_bound h 2 ltac:(lia)).
  lia.
Qed.

(** ** The commands on concrete inputs *)

Lemma process_command_executes_only_unconfirmed_witness :
  exists r sv' w',
    process_command Examples.example_env Examples.counting Scenarios.notepad_frontend
      "plan-1" 0 "session-1" (new_service Examples.example_env) 0
      Scenarios.open_command None = (r, sv', w')
    /\ command_require_confirmation Scenarios.open_command = false.
Proof.
  destruct (process_command Examples.example_env Examples.counting
              Scenarios.notepad_frontend "plan-1" 0 "session-1"
              (new_service Examples.example_env) 0 Scenarios.open_command None)
    as [[r sv'] w'] eqn:E.
  exists r, sv', w'. split; [reflexivity|].
  refine (proj1 (proj2 (process_command_executes_only_unconfirmed _ _ _ _ _ _ _ _ _ _
                          _ _ _ E (or_introl _)))).
  assert (H : stage r
              = stage (process_command Examples.example_env Examples.counting
                         Scenarios.notepad_frontend "plan-1" 0 "session-1"
                         (new_service Examples.example_env) 0
                         Scenarios.open_command None).1.1)
    by (rewrite E; reflexivity).
  rewrite H. vm_compute. reflexivity.
Defined.

Lemma process_command_bookkeeping_witness :
  exists r sv' w',
    process_command Examples.example_env Examples.counting Scenarios.notepad_frontend
      "plan-1" 0 "session-1" (new_service Examples.example_env) 0
      Scenarios.open_command None = (r, sv', w')
    /\ commands_processed sv' = 1.
Proof.
  destruct (process_command Examples.example_env Examples.counting
              Scenarios.notepad_frontend "plan-1" 0 "session-1"
              (new_service Examples.example_env) 0 Scenarios.open_command None)
    as [[r sv'] w'] eqn:E.
  exists r, sv', w'. split; [reflexivity|].
  exact (proj1 (process_command_bookkeeping _ _ _ _ _ _ _ _ _ _ _ _ _ E)).
Defined.

Lemma execute_plan_by_id_spec_witness :
  exists o sv' w',
    execute_plan_by_id Examples.counting (new_service Examples.example_env)
      "plan-9" "session-1" 0 = (o, sv', w')
    /\ outcome_success o = false.
Proof.
  destruct (execute_plan_by_id Examples.counting (new_service Examples.example_env)
              "plan-9" "session-1" 0) as [[o sv'] w'] eqn:E.
  exists o, sv', w'. split; [reflexivity|].
  refine (proj1 (proj2 (proj2 (proj1 (proj2 (proj2 (proj2
            (execute_plan_by_id_spec _ _ _ _ _ _ _ _ E)))) _)))).
  reflexivity.
Defined.
